(** * BookVision: text extraction, summarisation and sentiment

    A shallow embedding of [utils/ocr.py], [utils/summary.py] and
    [utils/sentiment.py].  The three modules are glue around opaque
    engines (OpenCV, PIL, Tesseract, PyMuPDF, a summarisation pipeline,
    TextBlob, VADER); the embedding keeps the glue as it is written and
    turns every engine call into a request answered by an oracle that
    may return a value or raise. *)

From Stdlib Require Import NArith String Ascii DecimalString DecimalNat.
From Corelib Require Import PrimFloat FloatOps SpecFloat FloatAxioms.
From stdpp Require Import base list gmap.

Set Warnings "-inexact-float".

Local Open Scope nat_scope.

(** ** Python strings *)

Module PyStr.

(** A [str] is a sequence of Unicode code points. *)
Abbreviation str := (list N).

(** A string literal of the source (all of them are ASCII). *)
Definition lit (s : string) : str :=
  map N_of_ascii (list_ascii_of_string s).

(** [str.isspace] on one code point: the whitespace table of CPython. *)
Definition isspace (c : N) : bool :=
  ((9 <=? c) && (c <=? 13) || (28 <=? c) && (c <=? 32)
   || (c =? 133) || (c =? 160) || (c =? 5760)
   || (8192 <=? c) && (c <=? 8202)
   || (c =? 8232) || (c =? 8233) || (c =? 8239) || (c =? 8287)
   || (c =? 12288))%N.

Definition space : N := 32%N.
Definition newline : N := 10%N.

(** [s.lstrip()] *)
Fixpoint lstrip (s : str) : str :=
  match s with
  | [] => []
  | c :: s' => if isspace c then lstrip s' else s
  end.

(** [s.rstrip()] *)
Fixpoint rstrip (s : str) : str :=
  match s with
  | [] => []
  | c :: s' =>
      match rstrip s' with
      | [] => if isspace c then [] else [c]
      | r => c :: r
      end
  end.

(** [s.strip()] *)
Definition strip (s : str) : str := lstrip (rstrip s).

(** [s.split()] with no separator: the scan of CPython, which skips
    whitespace, collects a word up to the next whitespace and never
    yields an empty word.  [w] is the word being collected. *)
Fixpoint split_go (w : str) (s : str) : list str :=
  match s with
  | [] => match w with [] => [] | _ => [w] end
  | c :: s' =>
      if isspace c then
        match w with
        | [] => split_go [] s'
        | _ => w :: split_go [] s'
        end
      else split_go (w ++ [c]) s'
  end.

Definition split (s : str) : list str := split_go [] s.

(** [sep.join(parts)] *)
Fixpoint join (sep : str) (parts : list str) : str :=
  match parts with
  | [] => []
  | [p] => p
  | p :: ps => p ++ sep ++ join sep ps
  end.

(** [s[i:j]] for [0 <= i <= j]; Python clamps both ends to [len(s)]. *)
Definition slice (s : str) (i j : nat) : str := take (j - i) (drop i s).

(** [range(0, stop, step)] as a list, for [step > 0]. *)
Definition range_step (stop step : nat) : list nat :=
  map (λ q, q * step) (seq 0 (Nat.div (stop + step - 1) step)).

(** [str(n)] for a non-negative integer, as an f-string prints it. *)
Definition of_nat (n : nat) : str :=
  lit (NilEmpty.string_of_uint (Nat.to_uint n)).

(** Truth value of a string: [not s.strip()]. *)
Definition blank (s : str) : bool :=
  match strip s with [] => true | _ => false end.

(** Every maximal run of whitespace replaced by one space, as the
    words "collapse all runs of whitespace to single spaces" read.
    [in_run] tells that the previous character was whitespace. *)
Fixpoint collapse_go (in_run : bool) (s : str) : str :=
  match s with
  | [] => []
  | c :: s' =>
      if isspace c then
        if in_run then collapse_go true s' else space :: collapse_go true s'
      else c :: collapse_go false s'
  end.

Definition collapse_ws (s : str) : str := collapse_go false s.

Definition is_nil (w : str) : bool := match w with [] => true | _ => false end.

End PyStr.

Import PyStr.

(** ** Exceptions, results and engine requests *)

(** The exception classes the engines raise.  All of them derive from
    Python's [Exception]; [TesseractError] is the one class the image
    path singles out. *)
Inductive exn : Set :=
| TesseractError
| TesseractNotFoundError
| RuntimeError
| OSError
| ValueError
| TypeError
| KeyError
| OtherException.

Definition is_TesseractError (e : exn) : bool :=
  match e with TesseractError => true | _ => false end.

(** What evaluating an expression gives: a value, or a raised exception. *)
Inductive result (A : Type) : Type :=
| Ok (a : A)
| Raised (e : exn).

Arguments Ok {A} a.
Arguments Raised {A} e.

(** A program runs against a world [W] that answers its requests.  The
    family [call] lists the requests with the type of their answers; the
    state carries the world and the log of the requests made so far. *)
Section Effects.

Context {call : Type → Type} {W : Type}.

Definition event : Type := sigT call.

Record state : Type := State { world : W; trace : list event }.

Definition M (A : Type) : Type := state → result A * state.

#[global] Instance M_ret : MRet M := λ A a s, (Ok a, s).

#[global] Instance M_bind : MBind M := λ A B f m s,
  match m s with
  | (Ok a, s') => f a s'
  | (Raised e, s') => (Raised e, s')
  end.

(** The oracle: how the world answers a request and what it becomes. *)
Definition oracle_t : Type := ∀ A, call A → W → result A * W.

(** Make a request: log it, let the world answer. *)
Definition perform (oracle : oracle_t) {A} (c : call A) : M A := λ s,
  let (r, w') := oracle A c (world s) in
  (r, State w' (trace s ++ [existT A c])).

(** [raise e] *)
Definition raise {A} (e : exn) : M A := λ s, (Raised e, s).

(** [try: body  except Exception as e: handler e] *)
Definition try_except {A} (body : M A) (handler : exn → M A) : M A := λ s,
  match body s with
  | (Ok a, s') => (Ok a, s')
  | (Raised e, s') => handler e s'
  end.

(** [for x in xs: acc = body x acc] *)
Fixpoint for_each {A B} (xs : list A) (body : A → B → M B) (acc : B) : M B :=
  match xs with
  | [] => mret acc
  | x :: xs' => acc' ← body x acc; for_each xs' body acc'
  end.

End Effects.

Arguments event : clear implicits.
Arguments state : clear implicits.
Arguments M : clear implicits.
Arguments oracle_t : clear implicits.

(** [enumerate(xs)] *)
Definition enumerate {A} (xs : list A) : list (nat * A) :=
  zip (seq 0 (length xs)) xs.

(** ** utils/ocr.py *)

Module Ocr.

(** Images and PDF objects are opaque to the program, which only hands
    them from one library call to the next.  A value is therefore the
    chain of calls that produced it. *)
Inductive pdf_page : Type :=
| Page (pdf_path : str) (page_num : nat).

Inductive pixmap : Type :=
| Pixmap (page : pdf_page) (dpi : nat).

Inductive cv_image : Type :=
| CvRead (image_path : str)
| CvDecode (pix : pixmap)
| CvGray (img : cv_image)
| CvOtsu (img : cv_image).

Inductive pil_image : Type :=
| PilOpen (image_path : str)
| PilFromArray (img : cv_image).

(** The library calls of the module.  A call answering [bool] is one
    whose Python value is an array or [None]: [true] stands for the
    array. *)
Inductive call : Type → Type :=
| cv2_imread (image_path : str) : call bool
| Image_open (image_path : str) : call unit
| cv2_cvtColor (img : cv_image) : call unit
| cv2_threshold (img : cv_image) : call unit
| Image_fromarray (img : cv_image) : call unit
| image_to_string (img : pil_image) (lang : str) (timeout : option nat) : call str
| fitz_open (pdf_path : str) : call unit
| doc_len (pdf_path : str) : call nat
| load_page (pdf_path : str) (page_num : nat) : call unit
| get_text (page : pdf_page) : call str
| get_pixmap (page : pdf_page) (dpi : nat) : call unit
| pix_tobytes (pix : pixmap) : call unit
| np_frombuffer (pix : pixmap) : call unit
| cv2_imdecode (pix : pixmap) : call bool.

Definition TESSERACT_LANG : str := lit "eng".

Definition TESSERACT_FAILED : str :=
  lit "Error during Tesseract OCR processing.".

Definition ATTEMPTS_FAILED : str :=
  lit "Error extracting text from image after multiple attempts.".

Definition PDF_FAILED : str := lit "Error extracting text from PDF.".

Definition OCR_FAILED_PAGE : str := lit "[OCR failed for this page]".

(** The preprocessed image the primary tier hands to Tesseract. *)
Definition primary_image (image_path : str) : pil_image :=
  PilFromArray (CvOtsu (CvGray (CvRead image_path))).

(** The OCR requests of a log, in order: the image and the timeout. *)
Definition ocr_request (ev : event call) : option (pil_image * option nat) :=
  match projT2 ev with
  | image_to_string img _ timeout => Some (img, timeout)
  | _ => None
  end.

Definition ocr_requests (tr : list (event call))
  : list (pil_image * option nat) :=
  omap ocr_request tr.

(** An image is unprocessed when it comes straight from the generic
    loader, preprocessed when it is a thresholded grayscale array. *)
Definition unprocessed (img : pil_image) : bool :=
  match img with PilOpen _ => true | PilFromArray _ => false end.

Definition preprocessed (img : pil_image) : bool :=
  match img with PilFromArray (CvOtsu (CvGray _)) => true | _ => false end.

(** The preprocessed image of a PDF page, rendered at 300 DPI. *)
Definition page_image (pdf_path : str) (page_num : nat) : pil_image :=
  PilFromArray (CvOtsu (CvGray (CvDecode (Pixmap (Page pdf_path page_num) 300)))).

(** The OCR requests one call on a standalone image can make, in
    order.  The primary request is on the preprocessed image with a
    30-second timeout, or on the unprocessed image with no timeout
    when OpenCV could not decode the file; the retry is on the
    unprocessed image with a 30-second timeout.  A call makes the
    primary request, the retry, both in this order, or none. *)
Definition image_ocr_shape (image_path : str)
    (reqs : list (pil_image * option nat)) : Prop :=
  reqs = []
  ∨ reqs = [(primary_image image_path, Some 30)]
  ∨ reqs = [(PilOpen image_path, None)]
  ∨ reqs = [(PilOpen image_path, Some 30)]
  ∨ reqs = [(primary_image image_path, Some 30); (PilOpen image_path, Some 30)]
  ∨ reqs = [(PilOpen image_path, None); (PilOpen image_path, Some 30)].

(** The reading of "a single secondary OCR attempt on the unprocessed
    image": at most one OCR request of a call is made on an unprocessed
    image. *)
Definition single_unprocessed_attempt
    (reqs : list (pil_image * option nat)) : Prop :=
  length (filter (λ r, unprocessed r.1 = true) reqs) ≤ 1.

Section Program.

Context {W : Type} (oracle : oracle_t call W).

Notation "'do' c" := (perform oracle c) (at level 10, c at level 9).

(** Lines 17-31: the body of the outer [try]. *)
Definition image_primary (image_path : str) : M call W str :=
  found ← do (cv2_imread image_path);
  if negb found then
    _ ← do (Image_open image_path);
    let image := PilOpen image_path in
    text ← do (image_to_string image TESSERACT_LANG None);
    mret text
  else
    let img_cv := CvRead image_path in
    _ ← do (cv2_cvtColor img_cv);
    let gray_img := CvGray img_cv in
    _ ← do (cv2_threshold gray_img);
    let thresh_img := CvOtsu gray_img in
    _ ← do (Image_fromarray thresh_img);
    let pil_img := PilFromArray thresh_img in
    text ← do (image_to_string pil_img TESSERACT_LANG (Some 30));
    mret text.

(** Lines 39-42: the body of the inner [try]. *)
Definition image_retry (image_path : str) : M call W str :=
  _ ← do (Image_open image_path);
  let image := PilOpen image_path in
  text ← do (image_to_string image TESSERACT_LANG (Some 30));
  mret text.

Definition extract_text_from_image (image_path : str) : M call W str :=
  try_except (image_primary image_path)
    (λ e,
       if is_TesseractError e then
         mret TESSERACT_FAILED
       else
         try_except (image_retry image_path)
           (λ pil_e,
              mret ATTEMPTS_FAILED)).

(** Lines 56-75: the text one page resolves to. *)
Definition page_text (pdf_path : str) (page_num : nat) : M call W str :=
  _ ← do (load_page pdf_path page_num);
  let page := Page pdf_path page_num in
  page_text_content ← do (get_text page);
  if blank page_text_content then
    _ ← do (get_pixmap page 300);
    let pix := Pixmap page 300 in
    _ ← do (pix_tobytes pix);
    _ ← do (np_frombuffer pix);
    decoded ← do (cv2_imdecode pix);
    if (decoded : bool) then
      let img_cv := CvDecode pix in
      _ ← do (cv2_cvtColor img_cv);
      let gray_img := CvGray img_cv in
      _ ← do (cv2_threshold gray_img);
      let thresh_img := CvOtsu gray_img in
      _ ← do (Image_fromarray thresh_img);
      let pil_img := PilFromArray thresh_img in
      do (image_to_string pil_img TESSERACT_LANG (Some 60))
    else
      mret OCR_FAILED_PAGE
  else
    mret page_text_content.

(** [f"[Error processing page {n}]"] *)
Definition page_error_marker (n : nat) : str :=
  lit "[Error processing page " ++ of_nat n ++ lit "]".

(** Lines 54-79: one turn of the loop over the pages. *)
Definition page_step (pdf_path : str) (page_num : nat) (full_text : str)
  : M call W str :=
  try_except
    (page_text_content ← page_text pdf_path page_num;
     mret (full_text ++ page_text_content ++ [newline]))
    (λ page_e,
       mret (full_text ++ page_error_marker (page_num + 1) ++ [newline])).

(** Lines 52-82: the body of the outer [try]. *)
Definition pdf_body (pdf_path : str) : M call W str :=
  _ ← do (fitz_open pdf_path);
  n ← do (doc_len pdf_path);
  full_text ← for_each (seq 0 n) (page_step pdf_path) [];
  mret (strip full_text).

Definition extract_text_from_pdf (pdf_path : str) : M call W str :=
  try_except (pdf_body pdf_path)
    (λ e, mret PDF_FAILED).

(** The text a page contributes to the result: the text it resolves
    to, or the error marker when resolving it raised. *)
Definition page_segment (pdf_path : str) (page_num : nat)
    (s : state call W) : str * state call W :=
  match page_text pdf_path page_num s with
  | (Ok text, s') => (text, s')
  | (Raised _, s') => (page_error_marker (page_num + 1), s')
  end.

(** The contributions of the pages of a list, resolved one after the
    other. *)
Fixpoint page_segments (pdf_path : str) (pages : list nat)
    (s : state call W) : list str * state call W :=
  match pages with
  | [] => ([], s)
  | page_num :: rest =>
      let (text, s1) := page_segment pdf_path page_num s in
      let (texts, s2) := page_segments pdf_path rest s1 in
      (text :: texts, s2)
  end.

End Program.

(** Every segment followed by a newline, glued in order. *)
Definition lines (segments : list str) : str :=
  concat (map (λ t, t ++ [newline]) segments).

End Ocr.

(** ** utils/summary.py *)

Module Summary.

(** The summarisation pipeline object held by the module. *)
Inductive pipeline_t : Type :=
| Pipeline (task model : str) (truncation : bool).

(** The pipeline answers with a list of dictionaries from strings to
    strings, [[{'summary_text': ...}]] when all goes well. *)
Inductive call : Type → Type :=
| pipeline (task model : str) (truncation : bool) : call unit
| set_seed (seed : nat) : call unit
| summarize (p : pipeline_t) (chunk : str) (max_length min_length : nat)
    (do_sample : bool) : call (list (gmap str str)).

Definition SUMMARIZATION_MODEL : str := lit "sshleifer/distilbart-cnn-12-6".
Definition MAX_CHUNK_SIZE_TOKENS : nat := 1024.
Definition SUMMARIZER_MAX_LENGTH : nat := 150.
Definition SUMMARIZER_MIN_LENGTH : nat := 30.

(** Line 33: [" ".join(text.split())] *)
Definition normalized_text (text : str) : str := join [space] (split text).

(** Lines 35-38: the list comprehension over [range(0, len, size)]. *)
Definition char_chunks (normalized : str) : list str :=
  map (λ i, slice normalized i (i + MAX_CHUNK_SIZE_TOKENS * 4))
      (range_step (length normalized) (MAX_CHUNK_SIZE_TOKENS * 4)).

(** [f"[Error summarizing part {n}]"] *)
Definition part_error_marker (n : nat) : str :=
  lit "[Error summarizing part " ++ of_nat n ++ lit "]".

Definition UNAVAILABLE : str :=
  lit "Summary generation service is currently unavailable.".
Definition NO_CONTENT : str := lit "No content to summarize.".
Definition NO_CHUNKS : str := lit "Could not process text for summarization.".
Definition NO_SUMMARY : str :=
  lit "Could not generate a summary for the provided text.".

(** The fixed messages [generate_summary] can answer with. *)
Definition sentinels : list str :=
  [UNAVAILABLE; NO_CONTENT; NO_CHUNKS; NO_SUMMARY].

Section Program.

Context {W : Type} (oracle : oracle_t call W).

Notation "'do' c" := (perform oracle c) (at level 10, c at level 9).

(** Lines 12-19: the module-level load; [summarizer] is [None] when
    anything in it raises. *)
Definition load_summarizer : M call W (option pipeline_t) :=
  try_except
    (_ ← do (pipeline (lit "summarization") SUMMARIZATION_MODEL true);
     let summarizer := Pipeline (lit "summarization") SUMMARIZATION_MODEL true in
     _ ← do (set_seed 42);
     mret (Some summarizer))
    (λ e, mret None).

(** Lines 48-63: one turn of the loop over the chunks. *)
Definition summarize_chunk (summarizer : pipeline_t) (ic : nat * str)
    (summary_parts : list str) : M call W (list str) :=
  let (i, chunk) := ic in
  try_except
    (result ← do (summarize summarizer chunk SUMMARIZER_MAX_LENGTH
                    SUMMARIZER_MIN_LENGTH false);
     match result with
     | first :: _ =>
         if bool_decide (first ≠ ∅) then
           match first !! lit "summary_text" with
           | Some summary_text => mret (summary_parts ++ [summary_text])
           | None => mret summary_parts
           end
         else mret summary_parts
     | [] => mret summary_parts
     end)
    (λ e, mret (summary_parts ++ [part_error_marker (i + 1)])).

Definition generate_summary (summarizer : option pipeline_t) (text : str)
  : M call W str :=
  match summarizer with
  | None => mret UNAVAILABLE
  | Some summarizer =>
      if blank text then mret NO_CONTENT
      else
        let normalized := normalized_text text in
        let chunks := char_chunks normalized in
        match chunks with
        | [] => mret NO_CHUNKS
        | _ =>
            summary_parts ←
              for_each (enumerate chunks) (summarize_chunk summarizer) [];
            let final_summary := strip (join [newline] summary_parts) in
            mret (match final_summary with
                  | [] => NO_SUMMARY
                  | _ => final_summary
                  end)
        end
  end.

(** What the answer to one chunk adds to [summary_parts]: the summary
    text, nothing when the answer has none, the marker when the
    request raised. *)
Definition chunk_part (i : nat) (r : result (list (gmap str str)))
  : list str :=
  match r with
  | Raised _ => [part_error_marker (i + 1)]
  | Ok [] => []
  | Ok (first :: _) =>
      match first !! lit "summary_text" with
      | Some summary_text => [summary_text]
      | None => []
      end
  end.

(** The additions of the chunks of a list, asked one after the other. *)
Fixpoint chunk_parts (summarizer : pipeline_t) (ics : list (nat * str))
    (s : state call W) : list str * state call W :=
  match ics with
  | [] => ([], s)
  | (i, chunk) :: rest =>
      let (r, s1) :=
        do (summarize summarizer chunk SUMMARIZER_MAX_LENGTH
              SUMMARIZER_MIN_LENGTH false) s in
      let (parts, s2) := chunk_parts summarizer rest s1 in
      (chunk_part i r ++ parts, s2)
  end.

End Program.

(** The requests a run makes for a list of chunks. *)
Definition chunk_requests (summarizer : pipeline_t) (chunks : list str)
  : list (event call) :=
  map (λ chunk, existT _ (summarize summarizer chunk SUMMARIZER_MAX_LENGTH
                            SUMMARIZER_MIN_LENGTH false)) chunks.

(** The chunking law as the specification words it: the normalised
    text is the input with every run of whitespace collapsed to one
    space, and the chunks glue back to it. *)
Definition chunking_law_as_stated (text : str) : Prop :=
  text ≠ [] →
  normalized_text text = collapse_ws text
  ∧ concat (char_chunks (normalized_text text)) = collapse_ws text.

End Summary.

(** ** utils/sentiment.py *)

Module Sentiment.

Inductive analyzer_t : Type := VaderAnalyzer.

(** [TextBlob(text).sentiment.polarity] is a float; VADER's
    [polarity_scores] is a dictionary of floats. *)
Inductive call : Type → Type :=
| SentimentIntensityAnalyzer : call unit
| TextBlob_polarity (text : str) : call float
| polarity_scores (a : analyzer_t) (text : str) : call (gmap str float).

Definition SENTIMENT_POSITIVE : str := lit "Positive".
Definition SENTIMENT_NEGATIVE : str := lit "Negative".
Definition SENTIMENT_NEUTRAL : str := lit "Neutral".
Definition SENTIMENT_ERROR : str := lit "Error in sentiment analysis".

(** [x >= y] and [x <= y] on floats. *)
Definition ge (x y : float) : bool := PrimFloat.leb y x.
Definition le (x y : float) : bool := PrimFloat.leb x y.

(** The three-way rule of the specification: Positive from [0.05]
    up, Negative from [-0.05] down, Neutral otherwise. *)
Definition classify (score : float) : str :=
  if ge score 0.05%float then SENTIMENT_POSITIVE
  else if le score (- 0.05)%float then SENTIMENT_NEGATIVE
  else SENTIMENT_NEUTRAL.

(** The mean of two scores. *)
Definition average (blob vader : float) : float :=
  ((blob + vader) / 2)%float.

(** Whether a request is one of the two polarity scorers. *)
Definition is_scorer (ev : event call) : bool :=
  match projT2 ev with
  | TextBlob_polarity _ => true
  | polarity_scores _ _ => true
  | SentimentIntensityAnalyzer => false
  end.

Section Program.

Context {W : Type} (oracle : oracle_t call W).

Notation "'do' c" := (perform oracle c) (at level 10, c at level 9).

(** Lines 11-16: the module-level initialisation of VADER. *)
Definition load_analyzer : M call W (option analyzer_t) :=
  try_except
    (_ ← do SentimentIntensityAnalyzer; mret (Some VaderAnalyzer))
    (λ e, mret None).

(** [d[key]], raising [KeyError] on a missing key. *)
Definition getitem (d : gmap str float) (key : str) : M call W float :=
  match d !! key with
  | Some v => mret v
  | None => raise KeyError
  end.

Definition get_sentiment (analyzer : option analyzer_t) (text : str)
  : M call W str :=
  if blank text then mret SENTIMENT_NEUTRAL
  else
    match analyzer with
    | None =>
        try_except
          (blob_sentiment ← do (TextBlob_polarity text);
           if ge blob_sentiment 0.05%float then mret SENTIMENT_POSITIVE
           else if le blob_sentiment (- 0.05)%float then mret SENTIMENT_NEGATIVE
           else mret SENTIMENT_NEUTRAL)
          (λ e_tb, mret SENTIMENT_ERROR)
    | Some analyzer =>
        try_except
          (blob_sentiment ← do (TextBlob_polarity text);
           vader_scores ← do (polarity_scores analyzer text);
           vader_compound_sentiment ← getitem vader_scores (lit "compound");
           let avg_sentiment : float :=
             ((blob_sentiment + vader_compound_sentiment) / 2)%float in
           if ge avg_sentiment 0.05%float then mret SENTIMENT_POSITIVE
           else if le avg_sentiment (- 0.05)%float then mret SENTIMENT_NEGATIVE
           else mret SENTIMENT_NEUTRAL)
          (λ e, mret SENTIMENT_ERROR)
    end.

End Program.

End Sentiment.

(** ** Sample worlds *)

(** A world without memory in which: OpenCV cannot decode image files;
    the generic loader can; Tesseract raises a [RuntimeError] when
    called with no timeout and reads "scanned" otherwise; PDF documents
    have three pages, of which the second cannot be loaded, the first
    has the embedded text "one" and the third is a scan. *)
Definition sample_ocr_world : oracle_t Ocr.call () := λ A c w,
  match c in Ocr.call A return result A * () with
  | Ocr.cv2_imread _ => (Ok false, w)
  | Ocr.Image_open _ => (Ok (), w)
  | Ocr.cv2_cvtColor _ => (Ok (), w)
  | Ocr.cv2_threshold _ => (Ok (), w)
  | Ocr.Image_fromarray _ => (Ok (), w)
  | Ocr.image_to_string _ _ None => (Raised RuntimeError, w)
  | Ocr.image_to_string _ _ (Some _) => (Ok (lit "scanned"), w)
  | Ocr.fitz_open _ => (Ok (), w)
  | Ocr.doc_len _ => (Ok 3, w)
  | Ocr.load_page _ page_num =>
      (if decide (page_num = 1) then Raised ValueError else Ok (), w)
  | Ocr.get_text (Ocr.Page _ page_num) =>
      (Ok (if decide (page_num = 0) then lit "one" else lit "  "), w)
  | Ocr.get_pixmap _ _ => (Ok (), w)
  | Ocr.pix_tobytes _ => (Ok (), w)
  | Ocr.np_frombuffer _ => (Ok (), w)
  | Ocr.cv2_imdecode _ => (Ok true, w)
  end.

(** A world in which OpenCV decodes image files and Tesseract raises
    its own error on every request. *)
Definition tesseract_down_world : oracle_t Ocr.call () := λ A c w,
  match c in Ocr.call A return result A * () with
  | Ocr.cv2_imread _ => (Ok true, w)
  | Ocr.image_to_string _ _ _ => (Raised TesseractError, w)
  | Ocr.doc_len _ => (Ok 0, w)
  | Ocr.get_text _ => (Ok [], w)
  | Ocr.cv2_imdecode _ => (Ok false, w)
  | Ocr.Image_open _ | Ocr.cv2_cvtColor _ | Ocr.cv2_threshold _
  | Ocr.Image_fromarray _ | Ocr.fitz_open _ | Ocr.load_page _ _
  | Ocr.get_pixmap _ _ | Ocr.pix_tobytes _ | Ocr.np_frombuffer _ => (Ok (), w)
  end.

(** A world in which the pipeline loads and every summarisation
    request raises. *)
Definition summarizer_down_world : oracle_t Summary.call () := λ A c w,
  match c in Summary.call A return result A * () with
  | Summary.pipeline _ _ _ => (Ok (), w)
  | Summary.set_seed _ => (Ok (), w)
  | Summary.summarize _ _ _ _ _ => (Raised RuntimeError, w)
  end.

(** A world in which the pipeline cannot be loaded. *)
Definition no_model_world : oracle_t Summary.call () := λ A c w,
  match c in Summary.call A return result A * () with
  | Summary.pipeline _ _ _ => (Raised OSError, w)
  | Summary.set_seed _ => (Ok (), w)
  | Summary.summarize _ _ _ _ _ => (Ok [], w)
  end.

Definition sample_pipeline : Summary.pipeline_t :=
  Summary.Pipeline (lit "summarization") Summary.SUMMARIZATION_MODEL true.

(** A world in which TextBlob scores every text 0.5 and VADER answers
    with a compound score of 0.5. *)
Definition cheerful_world : oracle_t Sentiment.call () := λ A c w,
  match c in Sentiment.call A return result A * () with
  | Sentiment.SentimentIntensityAnalyzer => (Ok (), w)
  | Sentiment.TextBlob_polarity _ => (Ok 0.5%float, w)
  | Sentiment.polarity_scores _ _ =>
      (Ok {[ lit "compound" := 0.5%float; lit "pos" := 1%float ]}, w)
  end.

(** The state a program starts from. *)
Definition start {call : Type → Type} : state call () := State () [].

(** ** More of Python's [str] *)

Module PyStrOps.

(** [s.split(sep)] for a one-character separator: the pieces between
    the separators, empty ones included; never the empty list. *)
Fixpoint split_on (sep : N) (s : str) : list str :=
  match s with
  | [] => [[]]
  | c :: s' =>
      if (c =? sep)%N then [] :: split_on sep s'
      else
        match split_on sep s' with
        | w :: ws => (c :: w) :: ws
        | [] => [[c]]
        end
  end.

(** [c in s] for a character [c] *)
Definition contains_char (c : N) (s : str) : bool := existsb (N.eqb c) s.

(** [s.startswith(prefix)] *)
Fixpoint startswith (s prefix : str) {struct prefix} : bool :=
  match prefix, s with
  | [], _ => true
  | p :: prefix', c :: s' => (c =? p)%N && startswith s' prefix'
  | _ :: _, [] => false
  end.

(** [sub in s] *)
Fixpoint contains (s sub : str) : bool :=
  startswith s sub
  || match s with
     | [] => false
     | _ :: s' => contains s' sub
     end.

(** [s.rsplit(sep, 1)] for a one-character separator: the string
    itself when it has no separator, else what comes before the last
    separator and what comes after it. *)
Definition rsplit1 (sep : N) (s : str) : list str :=
  match split_on sep s with
  | [] | [_] => [s]
  | parts => [join [sep] (removelast parts); List.last parts []]
  end.

(** [s.encode('latin-1', 'replace').decode('latin-1')]: a code point
    above 255 becomes a question mark. *)
Definition latin1_replace (s : str) : str :=
  map (λ c, if (c <=? 255)%N then c else 63%N) s.

(** [s.lower()] on ASCII letters; other code points are left alone. *)
Definition ascii_lower (s : str) : str :=
  map (λ c, if (65 <=? c)%N && (c <=? 90)%N then (c + 32)%N else c) s.

Definition is_ascii (c : N) : Prop := (c < 128)%N.

End PyStrOps.

Import PyStrOps.

(** ** utils/export.py *)

Module Exporter.

(** A number handed to the PDF library: an [int] or a [float]. *)
Inductive num : Type :=
| Int (n : nat)
| Float (f : float).

(** A paragraph of the document, known by the text it was added with. *)
Inductive paragraph : Type :=
| Paragraph (text : option str).

(** The calls into python-docx and fpdf.  [set_space_after] and
    [set_bold] are the two attribute assignments. *)
Inductive call : Type → Type :=
| Document : call unit
| add_heading (text : str) (level : nat) : call unit
| add_paragraph (text : option str) : call unit
| set_space_after (p : paragraph) (pt : nat) : call unit
| add_run (p : paragraph) (text : str) : call unit
| set_bold (p : paragraph) (run_text : str) (bold : bool) : call unit
| doc_save (filename : str) : call unit
| FPDF : call unit
| add_page : call unit
| set_auto_page_break (auto : bool) (margin : nat) : call unit
| set_font (family style : str) (size : nat) : call unit
| cell (w : nat) (h : num) (txt : str) (border ln : nat) (align : str)
    : call unit
| ln (h : num) : call unit
| multi_cell (w h : nat) (txt : str) : call unit
| output (name dest : str) : call unit.

Definition PDF_FONT_FAMILY : str := lit "Arial".
Definition PDF_HEADING_SIZE : nat := 16.
Definition PDF_SUBHEADING_SIZE : nat := 14.
Definition PDF_TEXT_SIZE : nat := 12.
Definition PDF_LINE_HEIGHT : nat := 10.

(** [PDF_LINE_HEIGHT * x] for a float [x] *)
Definition line_height_times (x : float) : num :=
  Float (10 * x)%float.

Section Program.

Context {W : Type} (oracle : oracle_t call W).

Notation "'do' c" := (perform oracle c) (at level 10, c at level 9).

(** Lines 25-30 and 35-40: one paragraph per line of the text. *)
Definition add_paragraphs (text : str) : M call W () :=
  for_each (split_on newline text)
    (λ paragraph_text _,
       p ← (if negb (blank paragraph_text) then
              _ ← do (add_paragraph (Some paragraph_text));
              mret (Paragraph (Some paragraph_text))
            else
              _ ← do (add_paragraph None);
              mret (Paragraph None));
       do (set_space_after p 6))
    ().

Definition save_as_docx (filename extracted_text summary sentiment : str)
  : M call W bool :=
  try_except
    (_ ← do Document;
     _ ← do (add_heading (lit "BookVision Analysis Report") 0);
     _ ← do (add_heading (lit "Full Extracted Text") 1);
     _ ← add_paragraphs extracted_text;
     _ ← do (add_paragraph None);
     _ ← do (add_heading (lit "Summary") 1);
     _ ← add_paragraphs summary;
     _ ← do (add_paragraph None);
     _ ← do (add_heading (lit "Sentiment Analysis") 1);
     _ ← do (add_paragraph None);
     let p := Paragraph None in
     _ ← do (add_run p sentiment);
     _ ← do (set_bold p sentiment true);
     _ ← do (set_space_after p 6);
     _ ← do (doc_save filename);
     mret true)
    (λ e, mret false).

(** Lines 71-74, 81-84, 91-94: [encode] does not raise on a [str], so
    the handler is never entered. *)
Definition encode_or_keep (text : str) : M call W str :=
  try_except (mret (latin1_replace text)) (λ _, mret text).

Definition save_as_pdf (filename extracted_text summary sentiment : str)
  : M call W bool :=
  try_except
    (_ ← do FPDF;
     _ ← do add_page;
     _ ← do (set_auto_page_break true 15);
     _ ← do (set_font PDF_FONT_FAMILY (lit "B") (PDF_HEADING_SIZE + 2));
     _ ← do (cell 0 (line_height_times 1.5) (lit "BookVision Analysis Report")
               0 1 (lit "C"));
     _ ← do (ln (Int PDF_LINE_HEIGHT));
     _ ← do (set_font PDF_FONT_FAMILY (lit "B") PDF_HEADING_SIZE);
     _ ← do (cell 0 (Int PDF_LINE_HEIGHT) (lit "Full Extracted Text")
               0 1 (lit "L"));
     _ ← do (set_font PDF_FONT_FAMILY [] PDF_TEXT_SIZE);
     encoded_extracted_text ← encode_or_keep extracted_text;
     _ ← do (multi_cell 0 PDF_LINE_HEIGHT encoded_extracted_text);
     _ ← do (ln (line_height_times 0.5));
     _ ← do (set_font PDF_FONT_FAMILY (lit "B") PDF_HEADING_SIZE);
     _ ← do (cell 0 (Int PDF_LINE_HEIGHT) (lit "Summary") 0 1 (lit "L"));
     _ ← do (set_font PDF_FONT_FAMILY [] PDF_TEXT_SIZE);
     encoded_summary ← encode_or_keep summary;
     _ ← do (multi_cell 0 PDF_LINE_HEIGHT encoded_summary);
     _ ← do (ln (line_height_times 0.5));
     _ ← do (set_font PDF_FONT_FAMILY (lit "B") PDF_HEADING_SIZE);
     _ ← do (cell 0 (Int PDF_LINE_HEIGHT) (lit "Sentiment Analysis")
               0 1 (lit "L"));
     _ ← do (set_font PDF_FONT_FAMILY (lit "B") PDF_TEXT_SIZE);
     encoded_sentiment ← encode_or_keep sentiment;
     _ ← do (multi_cell 0 PDF_LINE_HEIGHT encoded_sentiment);
     _ ← do (output filename (lit "F"));
     mret true)
    (λ e, mret false).

End Program.

(** The requests of a run in which nothing raises. *)
Definition paragraph_requests (text : str) : list (event call) :=
  concat
    (map (λ line,
            let t := if blank line then None else Some line in
            [existT _ (add_paragraph t);
             existT _ (set_space_after (Paragraph t) 6)])
       (split_on newline text)).

Definition docx_requests (filename extracted_text summary sentiment : str)
  : list (event call) :=
  [existT _ Document;
   existT _ (add_heading (lit "BookVision Analysis Report") 0);
   existT _ (add_heading (lit "Full Extracted Text") 1)]
  ++ paragraph_requests extracted_text
  ++ [existT _ (add_paragraph None);
      existT _ (add_heading (lit "Summary") 1)]
  ++ paragraph_requests summary
  ++ [existT _ (add_paragraph None);
      existT _ (add_heading (lit "Sentiment Analysis") 1);
      existT _ (add_paragraph None);
      existT _ (add_run (Paragraph None) sentiment);
      existT _ (set_bold (Paragraph None) sentiment true);
      existT _ (set_space_after (Paragraph None) 6);
      existT _ (doc_save filename)].

Definition pdf_requests (filename extracted_text summary sentiment : str)
  : list (event call) :=
  [existT _ FPDF;
   existT _ add_page;
   existT _ (set_auto_page_break true 15);
   existT _ (set_font (lit "Arial") (lit "B") 18);
   existT _ (cell 0 (Float 15) (lit "BookVision Analysis Report") 0 1 (lit "C"));
   existT _ (ln (Int 10));
   existT _ (set_font (lit "Arial") (lit "B") 16);
   existT _ (cell 0 (Int 10) (lit "Full Extracted Text") 0 1 (lit "L"));
   existT _ (set_font (lit "Arial") [] 12);
   existT _ (multi_cell 0 10 (latin1_replace extracted_text));
   existT _ (ln (Float 5));
   existT _ (set_font (lit "Arial") (lit "B") 16);
   existT _ (cell 0 (Int 10) (lit "Summary") 0 1 (lit "L"));
   existT _ (set_font (lit "Arial") [] 12);
   existT _ (multi_cell 0 10 (latin1_replace summary));
   existT _ (ln (Float 5));
   existT _ (set_font (lit "Arial") (lit "B") 16);
   existT _ (cell 0 (Int 10) (lit "Sentiment Analysis") 0 1 (lit "L"));
   existT _ (set_font (lit "Arial") (lit "B") 12);
   existT _ (multi_cell 0 10 (latin1_replace sentiment));
   existT _ (output filename (lit "F"))].

(** The texts handed to [multi_cell], and whether a request writes the
    file. *)
Definition multi_cell_text (ev : event call) : option str :=
  match projT2 ev with
  | multi_cell _ _ txt => Some txt
  | _ => None
  end.

Definition writes_file (ev : event call) : bool :=
  match projT2 ev with
  | doc_save _ => true
  | output _ _ => true
  | _ => false
  end.

(** The texts of the paragraphs a log adds, in order; an empty
    paragraph counts as the empty text. *)
Definition paragraph_text (ev : event call) : option str :=
  match projT2 ev with
  | add_paragraph t => Some (default [] t)
  | _ => None
  end.

End Exporter.

(** ** Paths, after CPython's [posixpath] *)

Module PosixPath.

Definition sep : N := 47%N.
Definition dot : N := 46%N.

(** [s.endswith(c)] for a character [c] *)
Definition ends_with_char (s : str) (c : N) : bool :=
  match last s with
  | Some x => (x =? c)%N
  | None => false
  end.

(** [os.path.join(a, b)] *)
Definition join2 (a b : str) : str :=
  if startswith b [sep] then b
  else if is_nil a || ends_with_char a sep then a ++ b
  else a ++ [sep] ++ b.

(** One turn of the loop of [normpath] over the components. *)
Definition normpath_step (initial_slashes : nat) (new_comps : list str)
    (comp : str) : list str :=
  if is_nil comp || bool_decide (comp = [dot]) then new_comps
  else if negb (bool_decide (comp = [dot; dot]))
          || (bool_decide (initial_slashes = 0) && bool_decide (new_comps = []))
          || bool_decide (last new_comps = Some [dot; dot])
       then new_comps ++ [comp]
       else removelast new_comps.

(** The count of leading slashes [normpath] keeps: two exactly when
    the path starts with two slashes and not three. *)
Definition initial_slashes (path : str) : nat :=
  if startswith path [sep] then
    if startswith path [sep; sep] && negb (startswith path [sep; sep; sep])
    then 2 else 1
  else 0.

(** [os.path.normpath(path)] *)
Definition normpath (path : str) : str :=
  if is_nil path then [dot]
  else
    let comps := split_on sep path in
    let new_comps :=
      fold_left (normpath_step (initial_slashes path)) comps [] in
    let path' := replicate (initial_slashes path) sep ++ join [sep] new_comps in
    if is_nil path' then [dot] else path'.

(** [os.path.splitext(p)]: the extension starts at the last dot of the
    last component, unless only dots come before it there. *)
Definition splitext (p : str) : str * str :=
  let parts := split_on sep p in
  let base := List.last parts [] in
  match rsplit1 dot base with
  | [stem; ext] =>
      if forallb (N.eqb dot) stem then (p, [])
      else (take (length p - (length ext + 1)) p, dot :: ext)
  | _ => (p, [])
  end.

End PosixPath.

(** ** app.py *)

Module App.

Import PosixPath.

(** What a view returns: a redirect, a rendered page, a file sent as
    an attachment, or the error response of [abort]. *)
Inductive response : Type :=
| Redirect (location : str)
| Page (body : str)
| Attachment (path : str)
| Aborted (code : nat) (description : str).

(** The requests of the application: those of the four utility
    modules, and those to Flask and to the operating system. *)
Inductive call : Type → Type :=
| ocr {A} (c : Ocr.call A) : call A
| summary {A} (c : Summary.call A) : call A
| sentiment {A} (c : Sentiment.call A) : call A
| export {A} (c : Exporter.call A) : call A
| request_method : call str
| request_files_contains (key : str) : call bool
| request_files_filename (key : str) : call (option str)
| request_url : call str
| request_form_get (key : str) : call (option str)
| file_save (key path : str) : call unit
| os_path_exists (path : str) : call bool
| os_remove (path : str) : call unit
| os_getcwd : call str
| os_path_isfile (path : str) : call bool
| flash (message category : str) : call unit
| url_for (endpoint : str) : call str
| render_index (MAX_FILE_SIZE_MB : nat) : call str
| render_result (text summary sentiment : str) (download_path : option str)
    (original_filename : str) : call str
| send_file (path : str) (as_attachment : bool) : call unit.

Definition UPLOAD_FOLDER : str := lit "uploads".
Definition RESULT_FOLDER : str := lit "results".
Definition ALLOWED_EXTENSIONS_IMAGES : gset str :=
  {[ lit "png"; lit "jpg"; lit "jpeg"; lit "gif"; lit "bmp"; lit "tiff" ]}.
Definition ALLOWED_EXTENSIONS_PDF : gset str := {[ lit "pdf" ]}.
Definition MAX_FILE_SIZE_MB : nat := 10.

(** [except OSError]: pytesseract's not-found error derives from it. *)
Definition is_OSError (e : exn) : bool :=
  match e with
  | OSError | TesseractNotFoundError => true
  | _ => false
  end.

(** Whether a request goes to OCR, to the summariser, to a sentiment
    scorer or to the exporter. *)
Definition is_analysis (ev : event call) : bool :=
  match projT2 ev with
  | ocr _ | summary _ | sentiment _ | export _ => true
  | _ => false
  end.

Definition is_removal (ev : event call) : bool :=
  match projT2 ev with
  | os_remove _ => true
  | _ => false
  end.

Section Program.

(** [str.lower] and werkzeug's [secure_filename] are taken as they
    come. *)
Context (lower : str → str) (secure_filename : str → str).

Context {W : Type} (oracle : oracle_t call W).

Notation "'do' c" := (perform oracle c) (at level 10, c at level 9).

(** Lines 39-41.  The index is in range whenever the name has a dot. *)
Definition allowed_file (filename : str) (allowed_extensions : gset str)
  : bool :=
  contains_char dot filename
  && match rsplit1 dot filename !! 1 with
     | Some ext => bool_decide (lower ext ∈ allowed_extensions)
     | None => false
     end.

(** Run a program of a utility module: its requests are answered by
    the application's oracle and logged in the application's log. *)
Definition within {sub : Type → Type} (inj : ∀ A, sub A → call A) {A}
    (m : oracle_t sub W → M sub W A) : M call W A := λ s,
  let (r, s') := m (λ B c, oracle B (inj B c)) (State (world s) []) in
  (r, State (world s')
        (trace s ++ map (λ ev, existT _ (inj _ (projT2 ev))) (trace s'))).

(** Lines 101-106 and 112-117: remove the upload, swallowing [OSError]. *)
Definition remove_upload (path : str) : M call W () :=
  try_except
    (found ← do (os_path_exists path);
     if (found : bool) then do (os_remove path) else mret ())
    (λ e, if is_OSError e then mret () else raise e).

(** Lines 129-147: the optional export; the name offered for download. *)
Definition export_result (convert_format : option str)
    (filename text_content summary_content sentiment_content : str)
  : M call W (option str) :=
  let base_filename := (splitext filename).1 in
  match convert_format with
  | Some fmt =>
      if negb (is_nil fmt) && negb (bool_decide (fmt = lit "none")) then
        let output_filename_base := secure_filename base_filename in
        if bool_decide (fmt = lit "pdf") then
          let output_file_name := output_filename_base ++ lit ".pdf" in
          let final_file_absolute_path := join2 RESULT_FOLDER output_file_name in
          saved ← within (@export)
                    (λ o, Exporter.save_as_pdf o final_file_absolute_path
                            text_content summary_content sentiment_content);
          if (saved : bool) then mret (Some output_file_name)
          else
            _ ← do (flash (lit "Failed to export results as PDF for "
                             ++ filename ++ lit ".") (lit "error"));
            mret None
        else if bool_decide (fmt = lit "docx") then
          let output_file_name := output_filename_base ++ lit ".docx" in
          let final_file_absolute_path := join2 RESULT_FOLDER output_file_name in
          saved ← within (@export)
                    (λ o, Exporter.save_as_docx o final_file_absolute_path
                            text_content summary_content sentiment_content);
          if (saved : bool) then mret (Some output_file_name)
          else
            _ ← do (flash (lit "Failed to export results as DOCX for "
                             ++ filename ++ lit ".") (lit "error"));
            mret None
        else mret None
      else mret None
  | None => mret None
  end.

(** Lines 100-107 and 112-118: give the upload up and go back to the
    index. *)
Definition abandon_upload (path : str) : M call W response :=
  _ ← remove_upload path;
  location ← do (url_for (lit "index"));
  mret (Redirect location).

(** Lines 122-155: sentiment, optional export, result page. *)
Definition score_and_present (analyzer : option Sentiment.analyzer_t)
    (filename text_content summary_content : str) : M call W response :=
  sentiment_content ←
    within (@sentiment) (λ o, Sentiment.get_sentiment o analyzer text_content);
  convert_format ← do (request_form_get (lit "convert"));
  output_file_relative_path ←
    export_result convert_format filename text_content summary_content
      sentiment_content;
  _ ← do (flash (lit "File processed successfully!") (lit "success"));
  body ← do (render_result text_content summary_content sentiment_content
               output_file_relative_path filename);
  mret (Page body).

(** Lines 120-155: summary, then the rest. *)
Definition analyse_text (summarizer : option Summary.pipeline_t)
    (analyzer : option Sentiment.analyzer_t) (filename text_content : str)
  : M call W response :=
  summary_content ←
    within (@summary) (λ o, Summary.generate_summary o summarizer text_content);
  score_and_present analyzer filename text_content summary_content.

(** Lines 87-155: what happens to an upload once it is saved. *)
Definition process_upload (summarizer : option Summary.pipeline_t)
    (analyzer : option Sentiment.analyzer_t) (filename path : str)
  : M call W response :=
  extraction ←
    (if allowed_file filename ALLOWED_EXTENSIONS_PDF then
       text_content ← within (@ocr) (λ o, Ocr.extract_text_from_pdf o path);
       mret (text_content, false)
     else if allowed_file filename ALLOWED_EXTENSIONS_IMAGES then
       text_content ← within (@ocr) (λ o, Ocr.extract_text_from_image o path);
       mret (text_content, false)
     else
       _ ← do (flash (lit "Unsupported file type. Please upload a PDF or an image (PNG, JPG, GIF, BMP, TIFF).")
                 (lit "error"));
       mret ([], true));
  let (text_content, file_type_error) := (extraction : str * bool) in
  if file_type_error then abandon_upload path
  else if blank text_content && negb file_type_error then
    _ ← do (flash (lit "Could not extract text from '" ++ filename
                     ++ lit "'. The file might be empty, corrupted, or an image-only PDF that could not be OCR'd.")
              (lit "warning"));
    abandon_upload path
  else analyse_text summarizer analyzer filename text_content.

(** Lines 62-160. *)
Definition index (summarizer : option Summary.pipeline_t)
    (analyzer : option Sentiment.analyzer_t) : M call W response :=
  method ← do request_method;
  if bool_decide (method = lit "POST") then
    has_file ← do (request_files_contains (lit "file"));
    if negb has_file then
      _ ← do (flash (lit "No file part in the request. Please select a file.")
                (lit "error"));
      location ← do request_url;
      mret (Redirect location)
    else
      file_filename ← do (request_files_filename (lit "file"));
      if bool_decide (file_filename = Some []) then
        _ ← do (flash (lit "No file selected. Please select a file to upload.")
                  (lit "error"));
        location ← do request_url;
        mret (Redirect location)
      else
        match file_filename with
        | Some ((_ :: _) as name) =>
            let filename := secure_filename name in
            let path := join2 UPLOAD_FOLDER filename in
            failed ←
              try_except
                (_ ← do (file_save (lit "file") path); mret None)
                (λ e,
                   _ ← do (flash (lit "Error saving file: " ++ filename
                                    ++ lit ". Please try again.") (lit "error"));
                   location ← do request_url;
                   mret (Some (Redirect location)));
            match failed with
            | Some response => mret response
            | None => process_upload summarizer analyzer filename path
            end
        | _ =>
            _ ← do (flash (lit "An unexpected issue occurred with the file upload.")
                      (lit "error"));
            location ← do request_url;
            mret (Redirect location)
        end
  else
    body ← do (render_index MAX_FILE_SIZE_MB);
    mret (Page body).

(** [os.path.abspath(path)] *)
Definition abspath (path : str) : M call W str :=
  if negb (startswith path [sep]) then
    cwd ← do os_getcwd;
    mret (normpath (join2 cwd path))
  else mret (normpath path).

(** Lines 163-187.  [abort] raises the HTTP error that ends the view;
    it is the response here. *)
Definition download_file (filename : str) : M call W response :=
  if contains filename (lit "..") || startswith filename (lit "/") then
    mret (Aborted 400 (lit "Invalid filename."))
  else
    let file_path_to_serve := join2 RESULT_FOLDER filename in
    abs_result_folder ← abspath RESULT_FOLDER;
    abs_file_path ← abspath file_path_to_serve;
    if negb (startswith abs_file_path abs_result_folder) then
      mret (Aborted 403 (lit "Access forbidden."))
    else
      is_file ← do (os_path_isfile file_path_to_serve);
      if (is_file : bool) then
        try_except
          (_ ← do (send_file file_path_to_serve true);
           mret (Attachment file_path_to_serve))
          (λ e, mret (Aborted 500 (lit "Error serving file.")))
      else mret (Aborted 404 (lit "File not found.")).

End Program.

End App.

(** ** Programs that follow a script *)

Section Scripts.

Context {call : Type → Type} {W : Type} (oracle : oracle_t call W).

(** The oracle answers the request of an event with a value in some
    world, or raises [e] on it in some world. *)
Definition answered (ev : event call) : Prop :=
  ∃ w a w', oracle _ (projT2 ev) w = (Ok a, w').

Definition raised_on (ev : event call) (e : exn) : Prop :=
  ∃ w w', oracle _ (projT2 ev) w = (Raised e, w').

(** [m] makes the requests of [script] in order and stops at the first
    one that raises.  A run that returns made all of them, all were
    answered, and its value satisfies [post]; a run that raises made a
    prefix of them, and the exception is the one the oracle raised on
    the last request made. *)
Definition follows {A} (m : M call W A) (script : list (event call))
    (post : A → Prop) : Prop :=
  ∀ s,
    match m s with
    | (Ok a, s') =>
        post a ∧ trace s' = trace s ++ script ∧ Forall answered script
    | (Raised e, s') =>
        ∃ pre ev,
          pre ++ [ev] `prefix_of` script
          ∧ trace s' = trace s ++ pre ++ [ev]
          ∧ Forall answered pre
          ∧ raised_on ev e
    end.

End Scripts.

(** ** Programs that only make requests of one kind *)

Section Only.

Context {call : Type → Type} {W : Type}.

(** Every run of [m] extends the log, and with requests that satisfy
    [P] only. *)
Definition only (P : event call → Prop) {A} (m : M call W A) : Prop :=
  ∀ s, ∃ new, trace (m s).2 = trace s ++ new ∧ Forall P new.

(** Every value a run of [m] returns satisfies [Q]. *)
Definition returns {A} (Q : A → Prop) (m : M call W A) : Prop :=
  ∀ s a s', m s = (Ok a, s') → Q a.

End Only.

(** The text a request shows on the result page, if it renders one. *)
Definition rendered_text (ev : event App.call) : option str :=
  match projT2 ev with
  | App.render_result text _ _ _ _ => Some text
  | _ => None
  end.

(** The download name a request puts on the result page. *)
Definition rendered_download (ev : event App.call) : option (option str) :=
  match projT2 ev with
  | App.render_result _ _ _ download_path _ => Some download_path
  | _ => None
  end.

(** What a request puts on the result page, if it renders one: the
    text, the summary, the sentiment, the download name and the
    original file name. *)
Definition rendered (ev : event App.call)
  : option (str * str * str * option str * str) :=
  match projT2 ev with
  | App.render_result text summary sentiment download_path original_filename =>
      Some (text, summary, sentiment, download_path, original_filename)
  | _ => None
  end.

(** ** More sample worlds *)

(** A world in which the document libraries never raise. *)
Definition obliging_export_world : oracle_t Exporter.call () := λ A c w,
  match c in Exporter.call A return result A * () with
  | Exporter.add_run _ _ => (Ok (), w)
  | Exporter.Document | Exporter.add_heading _ _ | Exporter.add_paragraph _
  | Exporter.set_space_after _ _ | Exporter.set_bold _ _ _
  | Exporter.doc_save _ | Exporter.FPDF | Exporter.add_page
  | Exporter.set_auto_page_break _ _ | Exporter.set_font _ _ _
  | Exporter.cell _ _ _ _ _ _ | Exporter.ln _ | Exporter.multi_cell _ _ _
  | Exporter.output _ _ => (Ok (), w)
  end.

(** A world in which [add_run] raises and nothing else does. *)
Definition no_run_world : oracle_t Exporter.call () := λ A c w,
  match c in Exporter.call A return result A * () with
  | Exporter.add_run _ _ => (Raised ValueError, w)
  | Exporter.Document | Exporter.add_heading _ _ | Exporter.add_paragraph _
  | Exporter.set_space_after _ _ | Exporter.set_bold _ _ _
  | Exporter.doc_save _ | Exporter.FPDF | Exporter.add_page
  | Exporter.set_auto_page_break _ _ | Exporter.set_font _ _ _
  | Exporter.cell _ _ _ _ _ _ | Exporter.ln _ | Exporter.multi_cell _ _ _
  | Exporter.output _ _ => (Ok (), w)
  end.

(** A world in which PyMuPDF cannot open any document; everything
    else is as in the sample world. *)
Definition locked_pdf_world : oracle_t Ocr.call () := λ A c w,
  match c in Ocr.call A return result A * () with
  | Ocr.fitz_open _ => (Raised RuntimeError, w)
  | c' => sample_ocr_world _ c' w
  end.

(** A POST of the file [upload], with a conversion to PDF asked for,
    served from /srv/app; OCR answers as [ocr_world] does, the other
    utility modules as in their sample worlds. *)
Definition app_world (ocr_world : oracle_t Ocr.call ()) (upload : str)
  : oracle_t App.call () := λ A c w,
  match c in App.call A return result A * () with
  | App.ocr c => ocr_world _ c w
  | App.summary c => summarizer_down_world _ c w
  | App.sentiment c => cheerful_world _ c w
  | App.export c => obliging_export_world _ c w
  | App.request_method => (Ok (lit "POST"), w)
  | App.request_files_contains _ => (Ok true, w)
  | App.request_files_filename _ => (Ok (Some upload), w)
  | App.request_url => (Ok (lit "http://localhost:5000/"), w)
  | App.request_form_get _ => (Ok (Some (lit "pdf")), w)
  | App.file_save _ _ => (Ok (), w)
  | App.os_path_exists _ => (Ok true, w)
  | App.os_remove _ => (Ok (), w)
  | App.os_getcwd => (Ok (lit "/srv/app"), w)
  | App.os_path_isfile _ => (Ok true, w)
  | App.flash _ _ => (Ok (), w)
  | App.url_for _ => (Ok (lit "/"), w)
  | App.render_index _ => (Ok (lit "<index>"), w)
  | App.render_result _ _ _ _ _ => (Ok (lit "<result>"), w)
  | App.send_file _ _ => (Ok (), w)
  end.

Definition sample_app_world (upload : str) : oracle_t App.call () :=
  app_world sample_ocr_world upload.

(** * Properties *)

(** ** Strings *)

Example strip_example : strip [32; 9; 97; 32; 98; 10; 32]%N = lit "a b".
Proof. reflexivity. Qed.

Example split_example :
  split (lit "  ab   c d ") = [lit "ab"; lit "c"; lit "d"].
Proof. reflexivity. Qed.

Example join_example : join (lit ", ") [lit "a"; lit "b"; lit "c"] = lit "a, b, c".
Proof. reflexivity. Qed.

Example range_step_example : range_step 10 4 = [0; 4; 8].
Proof. reflexivity. Qed.

Example slice_example : slice (lit "abcdef") 4 8 = lit "ef".
Proof. reflexivity. Qed.

Example of_nat_example : of_nat 0 = lit "0" ∧ of_nat 12 = lit "12".
Proof. split; reflexivity. Qed.

Example normalized_text_example :
  Summary.normalized_text [32; 97; 9; 10; 98; 32]%N = lit "a b".
Proof. reflexivity. Qed.

Example char_chunks_example :
  map length (Summary.char_chunks (replicate 5000 97%N)) = [4096; 904].
Proof. vm_compute. reflexivity. Qed.

Section StrFacts.

Implicit Types (s w : str) (c : N).

Lemma rstrip_cons_nonspace c s :
  isspace c = false → rstrip (c :: s) = c :: rstrip s.
Proof. intros Hc. simpl. rewrite Hc. by destruct (rstrip s). Qed.

Lemma rstrip_cons_space c s :
  isspace c = true →
  rstrip (c :: s) = match rstrip s with [] => [] | r => c :: r end.
Proof. intros Hc. simpl. by rewrite Hc. Qed.

Lemma rstrip_idemp s : rstrip (rstrip s) = rstrip s.
Proof.
  induction s as [|c s IH]; [done|].
  simpl. destruct (rstrip s) as [|x r] eqn:Hr.
  - destruct (isspace c) eqn:Hc; [done|]. simpl. by rewrite Hc.
  - change (rstrip (c :: x :: r)) with
      (match rstrip (x :: r) with [] => if isspace c then [] else [c] | r0 => c :: r0 end).
    by rewrite IH.
Qed.

Lemma collapse_nil_rstrip b s : collapse_go b s = [] → rstrip s = [].
Proof.
  revert b. induction s as [|c s IH]; intros b; [done|].
  simpl. destruct (isspace c) eqn:Hc; [|done].
  destruct b; [|done]. intros H. by rewrite (IH _ H).
Qed.

Lemma collapse_cons_space b c s :
  isspace c = true →
  collapse_go b (c :: s) =
  if b then collapse_go true s else space :: collapse_go true s.
Proof. intros Hc. simpl. by rewrite Hc. Qed.

Lemma collapse_cons_nonspace b c s :
  isspace c = false → collapse_go b (c :: s) = c :: collapse_go false s.
Proof. intros Hc. simpl. by rewrite Hc. Qed.

Lemma rstrip_collapse b s :
  rstrip (collapse_go b s) = collapse_go b (rstrip s).
Proof.
  revert b. induction s as [|c s IH]; intros b; [done|].
  destruct (isspace c) eqn:Hc.
  - rewrite (rstrip_cons_space _ _ Hc), (collapse_cons_space _ _ _ Hc).
    destruct b.
    + rewrite IH. destruct (rstrip s) as [|x r]; [done|].
      by rewrite (collapse_cons_space _ _ _ Hc).
    + rewrite rstrip_cons_space by done. rewrite IH.
      destruct (rstrip s) as [|x r] eqn:Hr; [done|].
      rewrite (collapse_cons_space _ _ _ Hc).
      destruct (collapse_go true (x :: r)) eqn:Hco; [|done].
      apply collapse_nil_rstrip in Hco.
      rewrite <- Hr, rstrip_idemp, Hr in Hco. done.
  - rewrite (rstrip_cons_nonspace _ _ Hc), !(collapse_cons_nonspace _ _ _ Hc).
    rewrite (rstrip_cons_nonspace _ _ Hc). by rewrite IH.
Qed.

Lemma collapse_lstrip s : collapse_go true s = collapse_go false (lstrip s).
Proof.
  induction s as [|c s IH]; [done|].
  simpl. destruct (isspace c) eqn:Hc; [done|].
  simpl. by rewrite Hc.
Qed.

Lemma split_go_nonempty s w : Forall (λ p, p ≠ []) (split_go w s).
Proof.
  revert w. induction s as [|c s IH]; intros w; simpl.
  - destruct w; repeat constructor; done.
  - destruct (isspace c); [|apply IH].
    destruct w; [apply IH|]. constructor; [done|apply IH].
Qed.

Lemma join_cons_nonempty sep p ps : p ≠ [] → join sep (p :: ps) ≠ [].
Proof. intros Hp. simpl. destruct ps; [done|]. by destruct p. Qed.

Lemma join_split_go s w :
  join [space] (split_go w s) = w ++ rstrip (collapse_go (is_nil w) s).
Proof.
  revert w. induction s as [|c s IH]; intros w.
  - simpl. destruct w; [done|]. by rewrite app_nil_r.
  - destruct (isspace c) eqn:Hc.
    + rewrite (collapse_cons_space _ _ _ Hc).
      cbn [split_go]. rewrite Hc.
      destruct w as [|x w].
      * simpl. by rewrite IH.
      * cbn [is_nil].
        rewrite rstrip_cons_space by done.
        specialize (IH []). simpl in IH. rewrite <- IH.
        pose proof (split_go_nonempty s []) as Hne.
        destruct (split_go [] s) as [|p ps] eqn:Hsp.
        -- simpl. by rewrite app_nil_r.
        -- apply Forall_cons in Hne as [Hp _].
           pose proof (join_cons_nonempty [space] p ps Hp) as Hj.
           change (join [space] ((x :: w) :: p :: ps))
             with ((x :: w) ++ [space] ++ join [space] (p :: ps)).
           by destruct (join [space] (p :: ps)).
    + rewrite (collapse_cons_nonspace _ _ _ Hc).
      cbn [split_go]. rewrite Hc, IH.
      assert (is_nil (w ++ [c]) = false) as -> by by destruct w.
      rewrite <- app_assoc. f_equal.
      by rewrite rstrip_cons_nonspace.
Qed.

(** Slicing at multiples of the step and gluing the slices back. *)
Lemma concat_slices k (Hk : 0 < k) m : ∀ s,
  length s ≤ m * k →
  concat (map (λ i, slice s i (i + k)) (map (λ q, q * k) (seq 0 m))) = s.
Proof.
  induction m as [|m IH]; intros s Hlen.
  - destruct s; [done | simpl in Hlen; lia].
  - rewrite <- cons_seq, <- fmap_S_seq. simpl.
    unfold slice at 1. simpl. rewrite Nat.sub_0_r, drop_0.
    rewrite <- (take_drop k s) at 2. f_equal.
    rewrite <- (IH (drop k s)) at 1.
    2:{ rewrite length_drop. lia. }
    f_equal. rewrite <- !list_fmap_compose.
    apply list_fmap_ext. intros _ q _. simpl. unfold slice.
    rewrite drop_drop. f_equal. lia.
Qed.

Lemma range_step_covers n k : 0 < k → n ≤ (n + k - 1) / k * k.
Proof.
  intros Hk.
  pose proof (Nat.div_mod (n + k - 1) k ltac:(lia)) as Hdm.
  pose proof (Nat.mod_upper_bound (n + k - 1) k ltac:(lia)) as Hub.
  nia.
Qed.

Lemma range_step_lookup n k j i :
  0 < k → range_step n k !! j = Some i → i = j * k ∧ i < n.
Proof.
  intros Hk. unfold range_step. rewrite list_lookup_fmap.
  destruct (seq 0 ((n + k - 1) / k) !! j) as [q|] eqn:Hq; [|done].
  simpl. intros [= <-]. apply lookup_seq in Hq as [-> Hlt]. simpl.
  split; [done|].
  pose proof (Nat.div_mod (n + k - 1) k ltac:(lia)) as Hdm.
  pose proof (Nat.mod_upper_bound (n + k - 1) k ltac:(lia)) as Hub.
  nia.
Qed.

Lemma range_step_length n k : length (range_step n k) = (n + k - 1) / k.
Proof. unfold range_step. by rewrite length_map, length_seq. Qed.

Lemma rstrip_nil_iff s :
  rstrip s = [] ↔ Forall (λ c, isspace c = true) s.
Proof.
  induction s as [|c s IH]; [by split|].
  simpl. split.
  - intros H. destruct (rstrip s) eqn:Hr; [|done].
    destruct (isspace c) eqn:Hc; [|done].
    constructor; [done|]. by apply IH.
  - intros [Hc Hs]%Forall_cons. apply IH in Hs. by rewrite Hs, Hc.
Qed.

Lemma lstrip_nil_iff s :
  lstrip s = [] ↔ Forall (λ c, isspace c = true) s.
Proof.
  induction s as [|c s IH]; [by split|].
  simpl. destruct (isspace c) eqn:Hc.
  - rewrite IH. split; [by constructor|]. by intros [_ ?]%Forall_cons.
  - split; [done|]. intros [? _]%Forall_cons. congruence.
Qed.

Lemma strip_nil_iff s :
  strip s = [] ↔ Forall (λ c, isspace c = true) s.
Proof.
  unfold strip. rewrite lstrip_nil_iff, <- rstrip_nil_iff, rstrip_idemp.
  apply rstrip_nil_iff.
Qed.

(** [not s.strip()] holds of the empty and the whitespace-only strings. *)
Lemma blank_spec s :
  blank s = true ↔ Forall (λ c, isspace c = true) s.
Proof.
  rewrite <- strip_nil_iff. unfold blank.
  destruct (strip s); by split.
Qed.

Lemma rstrip_snoc_nonspace s c :
  isspace c = false → rstrip (s ++ [c]) = s ++ [c].
Proof.
  intros Hc. induction s as [|x s IH]; simpl.
  - by rewrite Hc.
  - rewrite IH. by destruct s.
Qed.

Lemma strip_bracketed a b s :
  isspace a = false → isspace b = false →
  strip (a :: s ++ [b]) = a :: s ++ [b].
Proof.
  intros Ha Hb. unfold strip.
  change (a :: s ++ [b]) with ((a :: s) ++ [b]).
  rewrite (rstrip_snoc_nonspace (a :: s) b Hb). simpl. by rewrite Ha.
Qed.

Lemma join_bracketed (a b : N) sep parts :
  parts ≠ [] →
  Forall (λ p, ∃ x, p = a :: x ++ [b]) parts →
  ∃ y, join sep parts = a :: y ++ [b].
Proof.
  induction parts as [|p parts IH]; [done|]. intros _ [[x ->] Hps]%Forall_cons.
  destruct parts as [|q parts]; [by exists x|].
  destruct (IH ltac:(done) Hps) as [y Hy].
  change (join sep ((a :: x ++ [b]) :: q :: parts))
    with ((a :: x ++ [b]) ++ sep ++ join sep (q :: parts)).
  rewrite Hy. exists (x ++ [b] ++ sep ++ a :: y).
  simpl. f_equal. rewrite <- !app_assoc. simpl. by rewrite <- !app_assoc.
Qed.

Lemma collapse_ws_nonempty s : s ≠ [] → collapse_ws s ≠ [].
Proof.
  destruct s as [|c s]; [done|]. intros _. unfold collapse_ws. simpl.
  by destruct (isspace c).
Qed.

(** [" ".join(s.split())] collapses the whitespace runs of the stripped
    string: leading and trailing whitespace goes, every other run
    becomes one space. *)
Lemma join_split_collapse s :
  join [space] (split s) = collapse_ws (strip s).
Proof.
  unfold split. rewrite join_split_go. cbn [is_nil app].
  rewrite rstrip_collapse, collapse_lstrip. done.
Qed.

Lemma chunks_concat k s :
  0 < k →
  concat (map (λ i, slice s i (i + k)) (range_step (length s) k)) = s.
Proof.
  intros Hk. unfold range_step. apply concat_slices; [done|].
  by apply range_step_covers.
Qed.

Lemma chunks_lookup k s j chunk :
  0 < k →
  map (λ i, slice s i (i + k)) (range_step (length s) k) !! j = Some chunk →
  chunk = take k (drop (j * k) s)
  ∧ 0 < length chunk ≤ k
  ∧ (S j < length (range_step (length s) k) → length chunk = k).
Proof.
  intros Hk. rewrite list_lookup_fmap.
  destruct (range_step (length s) k !! j) as [i|] eqn:Hi; [|done].
  simpl. intros [= <-].
  apply range_step_lookup in Hi as [-> Hlt]; [|done].
  unfold slice. replace (j * k + k - j * k) with k by lia.
  split; [done|]. rewrite length_take, length_drop. split; [lia|].
  rewrite range_step_length. intros Hj.
  pose proof (Nat.div_mod (length s + k - 1) k ltac:(lia)) as Hdm.
  pose proof (Nat.mod_upper_bound (length s + k - 1) k ltac:(lia)) as Hub.
  nia.
Qed.

Lemma lit_inj (a b : string) : lit a = lit b → a = b.
Proof.
  unfold lit. intros H.
  rewrite <- (string_of_list_ascii_of_string a),
          <- (string_of_list_ascii_of_string b).
  f_equal. revert H.
  generalize (list_ascii_of_string a) (list_ascii_of_string b).
  intros la. induction la as [|x la IH]; intros [|y lb]; try done.
  simpl. intros [= Hxy Hrest]. f_equal; [|by apply IH].
  by rewrite <- (ascii_N_embedding x), <- (ascii_N_embedding y), Hxy.
Qed.

(** Two numbers print alike only when they are equal. *)
Lemma of_nat_inj a b : of_nat a = of_nat b → a = b.
Proof.
  unfold of_nat. intros H%lit_inj.
  apply (f_equal NilEmpty.uint_of_string) in H.
  rewrite !NilEmpty.usu in H. injection H as H.
  apply (f_equal Nat.of_uint) in H.
  by rewrite !DecimalNat.Unsigned.of_to in H.
Qed.

Lemma rstrip_app_nonspace (m : str) c (r : str) :
  isspace c = false → rstrip ((m ++ [c]) ++ r) = (m ++ [c]) ++ rstrip r.
Proof.
  intros Hc. induction m as [|x m IH].
  - cbn [app]. by apply rstrip_cons_nonspace.
  - cbn [app rstrip]. cbn [app] in IH. rewrite IH. by destruct m.
Qed.

(** Stripping a text that starts with a bracketed part keeps the part
    and strips what follows on the right only. *)
Lemma strip_prefix_bracketed (a b : N) (x z : str) :
  isspace a = false → isspace b = false →
  strip ((a :: x ++ [b]) ++ z) = (a :: x ++ [b]) ++ rstrip z.
Proof.
  intros Ha Hb. unfold strip.
  change (a :: x ++ [b]) with ((a :: x) ++ [b]).
  rewrite (rstrip_app_nonspace (a :: x) b z Hb). cbn [app lstrip].
  by rewrite Ha.
Qed.

Lemma join_parts_Forall (P : N → Prop) (sep : str) (parts : list str) :
  Forall P (join sep parts) → Forall (Forall P) parts.
Proof.
  induction parts as [|p parts IH]; [done|].
  destruct parts as [|q parts].
  - cbn [join]. by repeat constructor.
  - change (join sep (p :: q :: parts))
      with (p ++ sep ++ join sep (q :: parts)).
    intros H. apply Forall_app in H as [Hp H].
    apply Forall_app in H as [_ Hrest]. constructor; [done|]. by apply IH.
Qed.

(** A joined text with a bracketed part in it is not blank. *)
Lemma strip_join_bracketed (a b : N) (x : str) (sep : str)
    (before after : list str) :
  isspace a = false →
  strip (join sep (before ++ [a :: x ++ [b]] ++ after)) ≠ [].
Proof.
  intros Ha Hnil. apply strip_nil_iff, join_parts_Forall in Hnil.
  apply Forall_app in Hnil as [_ Hm]. apply Forall_cons in Hm as [Hm _].
  apply Forall_cons in Hm as [Hm _]. congruence.
Qed.

End StrFacts.

(** ** Running programs *)

Notation "'Ev' c" := (existT _ c) (at level 10, c at level 9, only parsing).

Ltac unfold_run :=
  unfold mbind, mret, M_bind, M_ret, perform, try_except, raise in *;
  cbn [world trace fst snd] in *.

(** Ask the oracle for its next answer, in every possible way. *)
Ltac ask oracle :=
  match goal with
  | |- context [oracle ?A ?c ?w] =>
      let r := fresh "r" in
      let w' := fresh "w" in
      let E := fresh "E" in
      destruct (oracle A c w) as [r w'] eqn:E; destruct r;
      cbn [world trace fst snd]
  end.

Ltac ask_all oracle := repeat (ask oracle; try match goal with b : bool |- _ => destruct b end; cbn [negb world trace fst snd]).

(** ** utils/ocr.py: standalone images *)

Section OcrImage.

Import Ocr.

Context {W : Type} (oracle : oracle_t call W).

Implicit Types (s : state call W) (image_path : str).

Lemma extract_text_from_image_total image_path s :
  ∃ text s', extract_text_from_image oracle image_path s = (Ok text, s').
Proof.
  unfold extract_text_from_image, image_primary, image_retry. unfold_run.
  ask_all oracle; try destruct (is_TesseractError _); eauto;
    ask_all oracle; eauto.
Qed.

(** When OpenCV decodes the file and the three preprocessing steps go
    through, the primary tier is the OCR request on the preprocessed
    image with its 30-second timeout. *)
Lemma image_primary_preprocessed image_path s s1 s2 s3 s4 :
  perform oracle (cv2_imread image_path) s = (Ok true, s1) →
  perform oracle (cv2_cvtColor (CvRead image_path)) s1 = (Ok (), s2) →
  perform oracle (cv2_threshold (CvGray (CvRead image_path))) s2 = (Ok (), s3) →
  perform oracle (Image_fromarray (CvOtsu (CvGray (CvRead image_path)))) s3
    = (Ok (), s4) →
  image_primary oracle image_path s =
  perform oracle
    (image_to_string (primary_image image_path) TESSERACT_LANG (Some 30)) s4.
Proof.
  intros H1 H2 H3 H4. unfold image_primary.
  unfold mbind, M_bind at 1. rewrite H1. cbn [negb].
  unfold mbind, M_bind at 1. rewrite H2.
  unfold mbind, M_bind at 1. rewrite H3.
  unfold mbind, M_bind at 1. rewrite H4.
  unfold mbind, M_bind, mret, M_ret, primary_image.
  by destruct (perform oracle _ s4) as [[?|?] ?].
Qed.

(** What follows an exception of the primary tier. *)
Lemma extract_text_from_image_cases image_path s :
  extract_text_from_image oracle image_path s =
  match image_primary oracle image_path s with
  | (Ok text, s1) => (Ok text, s1)
  | (Raised e, s1) =>
      if is_TesseractError e then (Ok TESSERACT_FAILED, s1)
      else
        match perform oracle (Image_open image_path) s1 with
        | (Raised _, s2) => (Ok ATTEMPTS_FAILED, s2)
        | (Ok _, s2) =>
            match perform oracle
                    (image_to_string (PilOpen image_path) TESSERACT_LANG
                       (Some 30)) s2 with
            | (Ok text, s3) => (Ok text, s3)
            | (Raised _, s3) => (Ok ATTEMPTS_FAILED, s3)
            end
        end
  end.
Proof.
  unfold extract_text_from_image. unfold try_except at 1.
  destruct (image_primary oracle image_path s) as [[text|e] s1]; [done|].
  destruct (is_TesseractError e); [done|].
  unfold try_except, image_retry, mbind, M_bind, mret, M_ret.
  destruct (perform oracle (Image_open image_path) s1) as [[[]|?] s2]; [|done].
  by destruct (perform oracle _ s2) as [[?|?] ?].
Qed.

(** The requests of one call, and the OCR requests among them. *)
Lemma extract_text_from_image_requests image_path s :
  ∃ new,
    trace (extract_text_from_image oracle image_path s).2 = trace s ++ new
    ∧ image_ocr_shape image_path (ocr_requests new).
Proof.
  unfold extract_text_from_image, image_primary, image_retry, image_ocr_shape,
    primary_image.
  unfold_run.
  ask_all oracle; try destruct (is_TesseractError _); cbn [snd trace];
    ask_all oracle;
    rewrite <- ?app_assoc; (eexists; split; [reflexivity|]);
    cbn; tauto.
Qed.

(** C3: a call on a standalone image always returns a string.  When the
    file decodes and preprocessing goes through, the primary tier is
    the OCR request on the preprocessed image; if the primary tier
    raises Tesseract's own error the fixed Tesseract message is
    returned and nothing more is requested; if it raises anything else
    the file is reloaded with the generic loader and OCR is retried
    with a 30-second timeout; if the reload or the retry raises, the
    fixed "after multiple attempts" message is returned. *)
Theorem extract_text_from_image_tiers image_path s :
  (∃ text s', extract_text_from_image oracle image_path s = (Ok text, s'))
  ∧ (∀ s1 s2 s3 s4,
       perform oracle (cv2_imread image_path) s = (Ok true, s1) →
       perform oracle (cv2_cvtColor (CvRead image_path)) s1 = (Ok (), s2) →
       perform oracle (cv2_threshold (CvGray (CvRead image_path))) s2
         = (Ok (), s3) →
       perform oracle (Image_fromarray (CvOtsu (CvGray (CvRead image_path)))) s3
         = (Ok (), s4) →
       image_primary oracle image_path s =
       perform oracle
         (image_to_string (PilFromArray (CvOtsu (CvGray (CvRead image_path))))
            (lit "eng") (Some 30)) s4)
  ∧ extract_text_from_image oracle image_path s =
    match image_primary oracle image_path s with
    | (Ok text, s1) => (Ok text, s1)
    | (Raised e, s1) =>
        if is_TesseractError e then
          (Ok (lit "Error during Tesseract OCR processing."), s1)
        else
          match perform oracle (Image_open image_path) s1 with
          | (Raised _, s2) =>
              (Ok (lit "Error extracting text from image after multiple attempts."),
               s2)
          | (Ok _, s2) =>
              match perform oracle
                      (image_to_string (PilOpen image_path) (lit "eng")
                         (Some 30)) s2 with
              | (Ok text, s3) => (Ok text, s3)
              | (Raised _, s3) =>
                  (Ok (lit "Error extracting text from image after multiple attempts."),
                   s3)
              end
          end
    end.
Proof.
  split; [apply extract_text_from_image_total|].
  split; [apply image_primary_preprocessed|].
  apply extract_text_from_image_cases.
Qed.

End OcrImage.

(** ** utils/ocr.py: PDF documents *)

Section OcrPdf.

Import Ocr.

Context {W : Type} (oracle : oracle_t call W).

Implicit Types (s : state call W) (pdf_path full_text : str) (pages : list nat).

Lemma page_step_segment pdf_path page_num full_text s :
  page_step oracle pdf_path page_num full_text s =
  (Ok (full_text ++ (page_segment oracle pdf_path page_num s).1 ++ [newline]),
   (page_segment oracle pdf_path page_num s).2).
Proof.
  unfold page_step, page_segment, try_except, mbind, M_bind, mret, M_ret.
  by destruct (page_text oracle pdf_path page_num s) as [[?|?] ?].
Qed.

Lemma for_each_page_segments pdf_path pages : ∀ full_text s,
  for_each pages (page_step oracle pdf_path) full_text s =
  (Ok (full_text ++ lines (page_segments oracle pdf_path pages s).1),
   (page_segments oracle pdf_path pages s).2).
Proof.
  induction pages as [|i pages IH]; intros full_text s.
  - simpl. unfold mret, M_ret, lines. simpl. by rewrite app_nil_r.
  - cbn [for_each page_segments]. unfold mbind, M_bind.
    rewrite page_step_segment.
    destruct (page_segment oracle pdf_path i s) as [t s1]. cbn [fst snd].
    rewrite IH.
    destruct (page_segments oracle pdf_path pages s1) as [ts s2]. cbn [fst snd].
    unfold lines. simpl. by rewrite <- !app_assoc.
Qed.

Lemma page_segments_length pdf_path pages : ∀ s,
  length (page_segments oracle pdf_path pages s).1 = length pages.
Proof.
  induction pages as [|i pages IH]; intros s; [done|].
  simpl. destruct (page_segment oracle pdf_path i s) as [t s1].
  specialize (IH s1).
  destruct (page_segments oracle pdf_path pages s1) as [ts s2].
  simpl in *. by rewrite IH.
Qed.

(** A page with embedded text resolves to it, and nothing is rendered. *)
Lemma page_text_embedded pdf_path page_num s s1 s2 text :
  perform oracle (load_page pdf_path page_num) s = (Ok (), s1) →
  perform oracle (get_text (Page pdf_path page_num)) s1 = (Ok text, s2) →
  blank text = false →
  page_text oracle pdf_path page_num s = (Ok text, s2).
Proof.
  intros H1 H2 Hnb. unfold page_text.
  unfold mbind, M_bind at 1. rewrite H1.
  unfold mbind, M_bind at 1. rewrite H2.
  by rewrite Hnb.
Qed.

(** A page without embedded text whose rendering does not decode
    resolves to the fixed text, and Tesseract is not asked. *)
Lemma page_text_undecodable pdf_path page_num s s1 s2 s3 s4 s5 s6 text :
  let page := Page pdf_path page_num in
  let pix := Pixmap page 300 in
  perform oracle (load_page pdf_path page_num) s = (Ok (), s1) →
  perform oracle (get_text page) s1 = (Ok text, s2) →
  blank text = true →
  perform oracle (get_pixmap page 300) s2 = (Ok (), s3) →
  perform oracle (pix_tobytes pix) s3 = (Ok (), s4) →
  perform oracle (np_frombuffer pix) s4 = (Ok (), s5) →
  perform oracle (cv2_imdecode pix) s5 = (Ok false, s6) →
  page_text oracle pdf_path page_num s
  = (Ok (lit "[OCR failed for this page]"), s6).
Proof.
  intros page pix H1 H2 Hb H3 H4 H5 H6. subst page pix. unfold page_text.
  unfold mbind, M_bind at 1. rewrite H1.
  unfold mbind, M_bind at 1. rewrite H2.
  rewrite Hb.
  unfold mbind, M_bind at 1. rewrite H3.
  unfold mbind, M_bind at 1. rewrite H4.
  unfold mbind, M_bind at 1. rewrite H5.
  unfold mbind, M_bind at 1. rewrite H6.
  done.
Qed.

Lemma page_segments_lookup pdf_path pages : ∀ s i page_num,
  pages !! i = Some page_num →
  (page_segments oracle pdf_path pages s).1 !! i =
  Some (page_segment oracle pdf_path page_num
          (page_segments oracle pdf_path (take i pages) s).2).1.
Proof.
  induction pages as [|p pages IH]; intros s i page_num Hi; [done|].
  cbn [page_segments].
  destruct i as [|i]; simpl in Hi.
  - injection Hi as ->. cbn [take page_segments snd].
    destruct (page_segment oracle pdf_path page_num s) as [t s1].
    by destruct (page_segments oracle pdf_path pages s1).
  - cbn [take page_segments].
    destruct (page_segment oracle pdf_path p s) as [t s1].
    specialize (IH s1 i page_num Hi).
    destruct (page_segments oracle pdf_path pages s1) as [ts s2].
    destruct (page_segments oracle pdf_path (take i pages) s1) as [ts' s2'].
    exact IH.
Qed.

(** The requests of one page: at most one OCR request, on the page's
    preprocessed image with a 60-second timeout. *)
Lemma page_text_requests pdf_path page_num s :
  ∃ new,
    trace (page_text oracle pdf_path page_num s).2 = trace s ++ new
    ∧ (ocr_requests new = []
       ∨ ocr_requests new = [(page_image pdf_path page_num, Some 60)]).
Proof.
  unfold page_text, page_image. unfold_run.
  ask oracle; [|eexists; split; [reflexivity|by left]].
  ask oracle; [|rewrite <- ?app_assoc; eexists; split; [reflexivity|by left]].
  destruct (blank _);
    [|rewrite <- ?app_assoc; eexists; split; [reflexivity|by left]].
  ask_all oracle;
    rewrite <- ?app_assoc; (eexists; split; [reflexivity|]); cbn; tauto.
Qed.

Lemma page_segment_requests pdf_path page_num s :
  ∃ new,
    trace (page_segment oracle pdf_path page_num s).2 = trace s ++ new
    ∧ (ocr_requests new = []
       ∨ ocr_requests new = [(page_image pdf_path page_num, Some 60)]).
Proof.
  destruct (page_text_requests pdf_path page_num s) as (new & Htr & Hreq).
  exists new. split; [|done]. unfold page_segment.
  by destruct (page_text oracle pdf_path page_num s) as [[?|?] ?].
Qed.

Lemma ocr_requests_app (tr1 tr2 : list (event call)) :
  ocr_requests (tr1 ++ tr2) = ocr_requests tr1 ++ ocr_requests tr2.
Proof. apply omap_app. Qed.

Lemma page_segments_requests pdf_path pages : ∀ s,
  ∃ new,
    trace (page_segments oracle pdf_path pages s).2 = trace s ++ new
    ∧ sublist (ocr_requests new)
        (map (λ i, (page_image pdf_path i, Some 60)) pages).
Proof.
  induction pages as [|i pages IH]; intros s.
  - exists []. simpl. by rewrite app_nil_r.
  - cbn [page_segments].
    destruct (page_segment_requests pdf_path i s) as (new1 & Htr1 & Hreq1).
    destruct (page_segment oracle pdf_path i s) as [t s1].
    destruct (IH s1) as (new2 & Htr2 & Hreq2).
    destruct (page_segments oracle pdf_path pages s1) as [ts s2].
    cbn [snd] in *. exists (new1 ++ new2). split.
    + by rewrite Htr2, Htr1, app_assoc.
    + rewrite ocr_requests_app. cbn [map].
      destruct Hreq1 as [-> | ->]; simpl.
      * by apply sublist_cons.
      * by apply sublist_skip.
Qed.

Lemma extract_text_from_pdf_eq pdf_path s :
  extract_text_from_pdf oracle pdf_path s =
  match perform oracle (fitz_open pdf_path) s with
  | (Raised _, s1) => (Ok PDF_FAILED, s1)
  | (Ok _, s1) =>
      match perform oracle (doc_len pdf_path) s1 with
      | (Raised _, s2) => (Ok PDF_FAILED, s2)
      | (Ok n, s2) =>
          (Ok (strip (lines (page_segments oracle pdf_path (seq 0 n) s2).1)),
           (page_segments oracle pdf_path (seq 0 n) s2).2)
      end
  end.
Proof.
  unfold extract_text_from_pdf, pdf_body, try_except.
  unfold mbind, M_bind at 1.
  destruct (perform oracle (fitz_open pdf_path) s) as [[[]|?] s1]; [|done].
  unfold mbind, M_bind at 1.
  destruct (perform oracle (doc_len pdf_path) s1) as [[n|?] s2]; [|done].
  unfold mbind, M_bind. by rewrite for_each_page_segments.
Qed.


(** A page without embedded text whose rendering decodes resolves to
    what Tesseract reads on the page's preprocessed image, blank or
    not. *)
Lemma page_text_scanned pdf_path page_num s s1 s2 s3 s4 s5 s6 s7 s8 s9 s10
    text ocr_text :
  let page := Page pdf_path page_num in
  let pix := Pixmap page 300 in
  perform oracle (load_page pdf_path page_num) s = (Ok (), s1) →
  perform oracle (get_text page) s1 = (Ok text, s2) →
  blank text = true →
  perform oracle (get_pixmap page 300) s2 = (Ok (), s3) →
  perform oracle (pix_tobytes pix) s3 = (Ok (), s4) →
  perform oracle (np_frombuffer pix) s4 = (Ok (), s5) →
  perform oracle (cv2_imdecode pix) s5 = (Ok true, s6) →
  perform oracle (cv2_cvtColor (CvDecode pix)) s6 = (Ok (), s7) →
  perform oracle (cv2_threshold (CvGray (CvDecode pix))) s7 = (Ok (), s8) →
  perform oracle (Image_fromarray (CvOtsu (CvGray (CvDecode pix)))) s8
    = (Ok (), s9) →
  perform oracle
    (image_to_string (page_image pdf_path page_num) (lit "eng") (Some 60)) s9
    = (Ok ocr_text, s10) →
  page_text oracle pdf_path page_num s = (Ok ocr_text, s10).
Proof.
  intros page pix H1 H2 Hb H3 H4 H5 H6 H7 H8 H9 H10. subst page pix.
  unfold page_text.
  unfold mbind, M_bind at 1. rewrite H1.
  unfold mbind, M_bind at 1. rewrite H2.
  rewrite Hb.
  unfold mbind, M_bind at 1. rewrite H3.
  unfold mbind, M_bind at 1. rewrite H4.
  unfold mbind, M_bind at 1. rewrite H5.
  unfold mbind, M_bind at 1. rewrite H6.
  unfold mbind, M_bind at 1. rewrite H7.
  unfold mbind, M_bind at 1. rewrite H8.
  unfold mbind, M_bind at 1. rewrite H9.
  exact H10.
Qed.

(** A page that cannot be loaded, or whose embedded text cannot be
    read, does not resolve. *)
Lemma page_text_unloadable pdf_path page_num s e s1 :
  perform oracle (load_page pdf_path page_num) s = (Raised e, s1) →
  page_text oracle pdf_path page_num s = (Raised e, s1).
Proof. intros H. unfold page_text, mbind, M_bind. by rewrite H. Qed.

Lemma page_text_unreadable pdf_path page_num s s1 e s2 :
  perform oracle (load_page pdf_path page_num) s = (Ok (), s1) →
  perform oracle (get_text (Page pdf_path page_num)) s1 = (Raised e, s2) →
  page_text oracle pdf_path page_num s = (Raised e, s2).
Proof.
  intros H1 H2. unfold page_text.
  unfold mbind, M_bind at 1. rewrite H1.
  unfold mbind, M_bind at 1. by rewrite H2.
Qed.

Lemma page_segments_app pdf_path pages1 pages2 : ∀ s,
  page_segments oracle pdf_path (pages1 ++ pages2) s =
  ((page_segments oracle pdf_path pages1 s).1
   ++ (page_segments oracle pdf_path pages2
         (page_segments oracle pdf_path pages1 s).2).1,
   (page_segments oracle pdf_path pages2
      (page_segments oracle pdf_path pages1 s).2).2).
Proof.
  induction pages1 as [|p pages1 IH]; intros s.
  - cbn [app page_segments fst snd].
    by destruct (page_segments oracle pdf_path pages2 s).
  - cbn [app page_segments].
    destruct (page_segment oracle pdf_path p s) as [t s1]. rewrite IH.
    destruct (page_segments oracle pdf_path pages1 s1) as [ts s2].
    cbn [fst snd].
    by destruct (page_segments oracle pdf_path pages2 s2).
Qed.

(** The state in which the next page is resolved. *)
Lemma page_segments_next pdf_path i s :
  (page_segments oracle pdf_path (seq 0 (S i)) s).2
  = (page_segment oracle pdf_path i
       (page_segments oracle pdf_path (seq 0 i) s).2).2.
Proof.
  rewrite seq_S, page_segments_app. cbn [snd plus page_segments].
  destruct (page_segment oracle pdf_path i _) as [t s1]. done.
Qed.

(** What a page that resolves, and a page that does not, add to the
    segments of the document. *)
Lemma page_resolved pdf_path n s2 i text s' :
  i < n →
  page_text oracle pdf_path i (page_segments oracle pdf_path (seq 0 i) s2).2
    = (Ok text, s') →
  (page_segments oracle pdf_path (seq 0 n) s2).1 !! i = Some text
  ∧ (page_segments oracle pdf_path (seq 0 (S i)) s2).2 = s'.
Proof.
  intros Hi Hrun. split.
  - rewrite (page_segments_lookup pdf_path (seq 0 n) s2 i i)
      by by apply lookup_seq_lt.
    rewrite take_seq. replace (i `min` n) with i by lia.
    unfold page_segment. by rewrite Hrun.
  - rewrite page_segments_next. unfold page_segment. by rewrite Hrun.
Qed.

Lemma page_failed pdf_path n s2 i e s' :
  i < n →
  page_text oracle pdf_path i (page_segments oracle pdf_path (seq 0 i) s2).2
    = (Raised e, s') →
  (page_segments oracle pdf_path (seq 0 n) s2).1 !! i
    = Some (page_error_marker (i + 1))
  ∧ (page_segments oracle pdf_path (seq 0 (S i)) s2).2 = s'.
Proof.
  intros Hi Hrun. split.
  - rewrite (page_segments_lookup pdf_path (seq 0 n) s2 i i)
      by by apply lookup_seq_lt.
    rewrite take_seq. replace (i `min` n) with i by lia.
    unfold page_segment. by rewrite Hrun.
  - rewrite page_segments_next. unfold page_segment. by rewrite Hrun.
Qed.

(** C2: a document that cannot be opened gives the document-level
    error string.  The result of a document that opens is the stripped
    concatenation, in page order, of one segment per page, each
    followed by a newline; a document without pages gives the empty
    string.  The segment of a page is its embedded text when that is
    not blank; otherwise, when the rendering of the page does not
    decode, the fixed text "[OCR failed for this page]", and when it
    decodes, what Tesseract reads on the preprocessed rendering; a page
    on which a call raises contributes its error marker.  [before i]
    is the state in which page [i] is processed. *)
Theorem extract_text_from_pdf_result pdf_path s :
  (∀ e s1,
     perform oracle (fitz_open pdf_path) s = (Raised e, s1) →
     extract_text_from_pdf oracle pdf_path s
     = (Ok (lit "Error extracting text from PDF."), s1))
  ∧ (∀ s1 e s2,
       perform oracle (fitz_open pdf_path) s = (Ok (), s1) →
       perform oracle (doc_len pdf_path) s1 = (Raised e, s2) →
       extract_text_from_pdf oracle pdf_path s
       = (Ok (lit "Error extracting text from PDF."), s2))
  ∧ (∀ s1 n s2,
       perform oracle (fitz_open pdf_path) s = (Ok (), s1) →
       perform oracle (doc_len pdf_path) s1 = (Ok n, s2) →
       let segments := page_segments oracle pdf_path (seq 0 n) s2 in
       let before i := (page_segments oracle pdf_path (seq 0 i) s2).2 in
       extract_text_from_pdf oracle pdf_path s
       = (Ok (strip (lines segments.1)), before n)
       ∧ length segments.1 = n
       ∧ (n = 0 → extract_text_from_pdf oracle pdf_path s = (Ok [], s2))
       ∧ before 0 = s2
       ∧ ∀ i, i < n →
           let page := Page pdf_path i in
           let pix := Pixmap page 300 in
           (∀ sa sb text,
              perform oracle (load_page pdf_path i) (before i) = (Ok (), sa) →
              perform oracle (get_text page) sa = (Ok text, sb) →
              blank text = false →
              segments.1 !! i = Some text ∧ before (S i) = sb)
           ∧ (∀ sa sb text sc sd se sf,
                perform oracle (load_page pdf_path i) (before i) = (Ok (), sa) →
                perform oracle (get_text page) sa = (Ok text, sb) →
                blank text = true →
                perform oracle (get_pixmap page 300) sb = (Ok (), sc) →
                perform oracle (pix_tobytes pix) sc = (Ok (), sd) →
                perform oracle (np_frombuffer pix) sd = (Ok (), se) →
                perform oracle (cv2_imdecode pix) se = (Ok false, sf) →
                segments.1 !! i = Some (lit "[OCR failed for this page]")
                ∧ before (S i) = sf)
           ∧ (∀ sa sb text sc sd se sf sg sh si sj ocr_text,
                perform oracle (load_page pdf_path i) (before i) = (Ok (), sa) →
                perform oracle (get_text page) sa = (Ok text, sb) →
                blank text = true →
                perform oracle (get_pixmap page 300) sb = (Ok (), sc) →
                perform oracle (pix_tobytes pix) sc = (Ok (), sd) →
                perform oracle (np_frombuffer pix) sd = (Ok (), se) →
                perform oracle (cv2_imdecode pix) se = (Ok true, sf) →
                perform oracle (cv2_cvtColor (CvDecode pix)) sf = (Ok (), sg) →
                perform oracle (cv2_threshold (CvGray (CvDecode pix))) sg
                  = (Ok (), sh) →
                perform oracle
                  (Image_fromarray (CvOtsu (CvGray (CvDecode pix)))) sh
                  = (Ok (), si) →
                perform oracle
                  (image_to_string
                     (PilFromArray (CvOtsu (CvGray (CvDecode pix))))
                     (lit "eng") (Some 60)) si
                  = (Ok ocr_text, sj) →
                segments.1 !! i = Some ocr_text ∧ before (S i) = sj)
           ∧ (∀ e sa,
                perform oracle (load_page pdf_path i) (before i)
                  = (Raised e, sa) →
                segments.1 !! i
                = Some (lit "[Error processing page " ++ of_nat (i + 1)
                          ++ lit "]")
                ∧ before (S i) = sa)
           ∧ (∀ sa e sb,
                perform oracle (load_page pdf_path i) (before i) = (Ok (), sa) →
                perform oracle (get_text page) sa = (Raised e, sb) →
                segments.1 !! i
                = Some (lit "[Error processing page " ++ of_nat (i + 1)
                          ++ lit "]")
                ∧ before (S i) = sb)
           ∧ (∀ e s',
                page_text oracle pdf_path i (before i) = (Raised e, s') →
                segments.1 !! i
                = Some (lit "[Error processing page " ++ of_nat (i + 1)
                          ++ lit "]")
                ∧ before (S i) = s')).
Proof.
  split; [|split].
  - intros e s1 Hopen. by rewrite extract_text_from_pdf_eq, Hopen.
  - intros s1 e s2 Hopen Hlen.
    by rewrite extract_text_from_pdf_eq, Hopen, Hlen.
  - intros s1 n s2 Hopen Hlen segments before.
    split; [by rewrite extract_text_from_pdf_eq, Hopen, Hlen|].
    split; [unfold segments; by rewrite page_segments_length, length_seq|].
    split; [intros ->; by rewrite extract_text_from_pdf_eq, Hopen, Hlen|].
    split; [done|].
    intros i Hi page pix. subst page pix. unfold segments, before.
    split; [|split; [|split; [|split; [|split]]]].
    + intros sa sb text H1 H2 Hnb. apply (page_resolved pdf_path n s2 i); [done|].
      by apply (page_text_embedded pdf_path i _ sa sb).
    + intros sa sb text sc sd se sf H1 H2 Hb H3 H4 H5 H6.
      apply (page_resolved pdf_path n s2 i); [done|].
      by apply (page_text_undecodable pdf_path i _ sa sb sc sd se sf text).
    + intros sa sb text sc sd se sf sg sh si sj ocr_text
        H1 H2 Hb H3 H4 H5 H6 H7 H8 H9 H10.
      apply (page_resolved pdf_path n s2 i); [done|].
      by apply (page_text_scanned pdf_path i _ sa sb sc sd se sf sg sh si sj
                  text ocr_text).
    + intros e sa H1. apply (page_failed pdf_path n s2 i e); [done|].
      by apply page_text_unloadable.
    + intros sa e sb H1 H2. apply (page_failed pdf_path n s2 i e); [done|].
      by apply (page_text_unreadable pdf_path i _ sa).
    + intros e s' Hrun. by apply (page_failed pdf_path n s2 i e).
Qed.

(** C4, as the code has it: the OCR requests of a PDF are at most one
    per page, each on the page's preprocessed image with a 60-second
    timeout, in page order; a call on a standalone image makes at most
    two OCR requests, at most one of them on the preprocessed image,
    and a second request is always the 30-second retry on the
    unprocessed image.  The first request is itself on the unprocessed
    image when OpenCV cannot decode the file. *)
Theorem ocr_attempts :
  (∀ pdf_path pages full_text s, ∃ new,
     trace (for_each pages (page_step oracle pdf_path) full_text s).2
       = trace s ++ new
     ∧ sublist (ocr_requests new)
         (map (λ i, (page_image pdf_path i, Some 60)) pages))
  ∧ (∀ pdf_path s, ∃ new n,
       trace (extract_text_from_pdf oracle pdf_path s).2 = trace s ++ new
       ∧ sublist (ocr_requests new)
           (map (λ i, (page_image pdf_path i, Some 60)) (seq 0 n))
       ∧ length (ocr_requests new) ≤ n
       ∧ Forall (λ r, preprocessed r.1 = true ∧ r.2 = Some 60)
           (ocr_requests new))
  ∧ (∀ image_path s, ∃ new,
       trace (extract_text_from_image oracle image_path s).2 = trace s ++ new
       ∧ image_ocr_shape image_path (ocr_requests new)
       ∧ length (ocr_requests new) ≤ 2
       ∧ length (filter (λ r, preprocessed r.1 = true) (ocr_requests new)) ≤ 1
       ∧ ∀ r, ocr_requests new !! 1 = Some r →
              r = (PilOpen image_path, Some 30)).
Proof.
  split; [|split].
  - intros pdf_path pages full_text s. rewrite for_each_page_segments.
    apply page_segments_requests.
  - intros pdf_path s. rewrite extract_text_from_pdf_eq.
    unfold perform at 1.
    destruct (oracle _ (fitz_open pdf_path) (world s)) as [[[]|?] w1];
      [|exists [Ev (fitz_open pdf_path)], 0; cbn; repeat split;
        [constructor | lia | constructor]].
    unfold perform at 1. cbn [world trace].
    destruct (oracle _ (doc_len pdf_path) w1) as [[n|?] w2];
      [|exists [Ev (fitz_open pdf_path); Ev (doc_len pdf_path)], 0; cbn;
        rewrite <- app_assoc; repeat split; [constructor | lia | constructor]].
    match goal with
    | |- context [page_segments _ _ _ ?s2] =>
        destruct (page_segments_requests pdf_path (seq 0 n) s2)
          as (new & Htr & Hsub)
    end.
    exists ([Ev (fitz_open pdf_path); Ev (doc_len pdf_path)] ++ new), n.
    cbn [snd]. rewrite Htr. cbn [trace]. rewrite <- !app_assoc.
    split; [done|]. rewrite ocr_requests_app. cbn [ocr_requests omap app].
    change (omap ocr_request new) with (ocr_requests new).
    split; [done|]. split.
    + apply sublist_length in Hsub. by rewrite length_map, length_seq in Hsub.
    + eapply Forall_impl with
        (P := λ r, r ∈ map (λ i, (page_image pdf_path i, Some 60)) (seq 0 n)).
      * apply Forall_forall. intros r Hr. by eapply elem_of_sublist.
      * intros r (i & -> & _)%list_elem_of_fmap. done.
  - intros image_path s.
    destruct (extract_text_from_image_requests oracle image_path s)
      as (new & Htr & Hshape).
    exists new. split; [done|]. split; [done|].
    unfold image_ocr_shape, primary_image in Hshape.
    destruct Hshape as [-> | [-> | [-> | [-> | [-> | ->]]]]];
      cbn; repeat case_decide; try done; cbn;
      (split; [lia|]); (split; [lia|]); intros r Hr; by simplify_eq.
Qed.

Lemma page_error_marker_bracketed n :
  ∃ x, page_error_marker n = 91%N :: x ++ [93%N].
Proof.
  exists (lit "Error processing page " ++ of_nat n).
  unfold page_error_marker. by rewrite <- app_assoc.
Qed.

(** The segments of a document around a page that fails. *)
Lemma page_segments_failing pdf_path n s2 i e s' :
  i < n →
  page_text oracle pdf_path i (page_segments oracle pdf_path (seq 0 i) s2).2
    = (Raised e, s') →
  page_segments oracle pdf_path (seq 0 n) s2
  = ((page_segments oracle pdf_path (seq 0 i) s2).1
     ++ [page_error_marker (i + 1)]
     ++ (page_segments oracle pdf_path (seq (S i) (n - S i)) s').1,
     (page_segments oracle pdf_path (seq (S i) (n - S i)) s').2).
Proof.
  intros Hi Hrun.
  replace n with (i + S (n - S i)) at 1 by lia.
  rewrite seq_app, page_segments_app. cbn [plus seq page_segments].
  unfold page_segment at 1 2. rewrite Hrun.
  by destruct (page_segments oracle pdf_path (seq (S i) (n - S i)) s').
Qed.

End OcrPdf.

(** ** utils/ocr.py: the sample worlds *)


(** The same document, page by page: embedded text, a page that
    cannot be loaded, a scan read by Tesseract. *)
Lemma extract_text_from_pdf_result_witness :
  Ocr.extract_text_from_pdf sample_ocr_world (lit "book.pdf") start
  = (Ok (lit "one" ++ [newline] ++ lit "[Error processing page 2]"
           ++ [newline] ++ lit "scanned"),
     (Ocr.page_segments sample_ocr_world (lit "book.pdf") (seq 0 3)
        (State () [Ev (Ocr.fitz_open (lit "book.pdf"));
                   Ev (Ocr.doc_len (lit "book.pdf"))])).2)
  ∧ (Ocr.page_segments sample_ocr_world (lit "book.pdf") (seq 0 3)
       (State () [Ev (Ocr.fitz_open (lit "book.pdf"));
                  Ev (Ocr.doc_len (lit "book.pdf"))])).1 !! 0
    = Some (lit "one")
  ∧ (Ocr.page_segments sample_ocr_world (lit "book.pdf") (seq 0 3)
       (State () [Ev (Ocr.fitz_open (lit "book.pdf"));
                  Ev (Ocr.doc_len (lit "book.pdf"))])).1 !! 1
    = Some (lit "[Error processing page 2]")
  ∧ (Ocr.page_segments sample_ocr_world (lit "book.pdf") (seq 0 3)
       (State () [Ev (Ocr.fitz_open (lit "book.pdf"));
                  Ev (Ocr.doc_len (lit "book.pdf"))])).1 !! 2
    = Some (lit "scanned").
Proof.
  destruct (extract_text_from_pdf_result sample_ocr_world (lit "book.pdf")
              start) as (_ & _ & Hopened).
  destruct (Hopened _ 3 _ eq_refl eq_refl)
    as (Hres & Hlen & _ & _ & Hpages).
  split; [exact Hres|].
  destruct (Hpages 0 ltac:(lia)) as (Hembedded & _).
  destruct (Hpages 1 ltac:(lia)) as (_ & _ & _ & Hunloadable & _).
  destruct (Hpages 2 ltac:(lia)) as (_ & _ & Hscanned & _).
  destruct (Hembedded _ _ (lit "one") eq_refl eq_refl eq_refl) as [H0 _].
  destruct (Hunloadable ValueError _ eq_refl) as [H1 _].
  destruct (Hscanned _ _ (lit "  ") _ _ _ _ _ _ _ _ (lit "scanned")
              eq_refl eq_refl eq_refl eq_refl eq_refl eq_refl eq_refl eq_refl
              eq_refl eq_refl eq_refl) as [H2 _].
  split; [exact H0|]. split; [exact H1 | exact H2].
Defined.

(** Tesseract raising its own error on the preprocessed image. *)
Lemma extract_text_from_image_tiers_witness :
  Ocr.image_primary tesseract_down_world (lit "scan.png") start
  = perform tesseract_down_world
      (Ocr.image_to_string (Ocr.primary_image (lit "scan.png")) (lit "eng")
         (Some 30))
      (State ()
         [Ev (Ocr.cv2_imread (lit "scan.png"));
          Ev (Ocr.cv2_cvtColor (Ocr.CvRead (lit "scan.png")));
          Ev (Ocr.cv2_threshold (Ocr.CvGray (Ocr.CvRead (lit "scan.png"))));
          Ev (Ocr.Image_fromarray
                (Ocr.CvOtsu (Ocr.CvGray (Ocr.CvRead (lit "scan.png")))))])
  ∧ (Ocr.extract_text_from_image tesseract_down_world (lit "scan.png") start).1
    = Ok (lit "Error during Tesseract OCR processing.")
  ∧ Ocr.ocr_requests
      (trace (Ocr.extract_text_from_image tesseract_down_world (lit "scan.png")
                start).2)
    = [(Ocr.primary_image (lit "scan.png"), Some 30)].
Proof.
  destruct (extract_text_from_image_tiers tesseract_down_world
              (lit "scan.png") start) as (_ & Hprimary & Hcases).
  split; [|split].
  - exact (Hprimary _ _ _ _ eq_refl eq_refl eq_refl eq_refl).
  - rewrite Hcases. reflexivity.
  - rewrite Hcases. reflexivity.
Defined.

(** C4, as stated, fails: when OpenCV cannot decode the file and
    Tesseract raises a non-Tesseract exception on the first request,
    both OCR requests of the call are made on the unprocessed image and
    none on a preprocessed one. *)
Lemma second_unprocessed_attempt :
  Ocr.ocr_requests
    (trace (Ocr.extract_text_from_image sample_ocr_world (lit "scan.png") start).2)
  = [(Ocr.PilOpen (lit "scan.png"), None);
     (Ocr.PilOpen (lit "scan.png"), Some 30)]
  ∧ ¬ Ocr.single_unprocessed_attempt
        (Ocr.ocr_requests
           (trace (Ocr.extract_text_from_image sample_ocr_world (lit "scan.png")
                     start).2)).
Proof.
  split; [reflexivity|].
  unfold Ocr.single_unprocessed_attempt. vm_compute. lia.
Qed.

(** ** utils/summary.py *)

Section SummaryFacts.

Import Summary.

Context {W : Type} (oracle : oracle_t call W).

Implicit Types (s : state call W) (text : str) (p : pipeline_t).

Lemma summarize_chunk_eq p i chunk parts s :
  summarize_chunk oracle p (i, chunk) parts s =
  let (r, s1) :=
    perform oracle (summarize p chunk SUMMARIZER_MAX_LENGTH
                      SUMMARIZER_MIN_LENGTH false) s in
  (Ok (parts ++ chunk_part i r), s1).
Proof.
  unfold summarize_chunk, try_except, mbind, M_bind, mret, M_ret.
  destruct (perform oracle _ s) as [[[|first rest]|e] s1]; cbn [chunk_part].
  - by rewrite app_nil_r.
  - case_bool_decide as Hne.
    + destruct (first !! lit "summary_text"); [done | by rewrite app_nil_r].
    + subst first. rewrite lookup_empty.
      by rewrite app_nil_r.
  - done.
Qed.

Lemma for_each_chunk_parts p ics : ∀ parts s,
  for_each ics (summarize_chunk oracle p) parts s =
  (Ok (parts ++ (chunk_parts oracle p ics s).1), (chunk_parts oracle p ics s).2).
Proof.
  induction ics as [|[i chunk] ics IH]; intros parts s.
  - simpl. unfold mret, M_ret. by rewrite app_nil_r.
  - cbn [for_each chunk_parts]. unfold mbind, M_bind.
    rewrite summarize_chunk_eq.
    destruct (perform oracle _ s) as [r s1]. rewrite IH.
    destruct (chunk_parts oracle p ics s1) as [ps s2]. cbn [fst snd].
    by rewrite app_assoc.
Qed.

Lemma generate_summary_eq p text s :
  generate_summary oracle (Some p) text s =
  if blank text then (Ok NO_CONTENT, s)
  else
    match char_chunks (normalized_text text) with
    | [] => (Ok NO_CHUNKS, s)
    | chunks =>
        let run := chunk_parts oracle p (enumerate chunks) s in
        let final_summary := strip (join [newline] run.1) in
        (Ok (match final_summary with
             | [] => NO_SUMMARY
             | _ => final_summary
             end), run.2)
    end.
Proof.
  unfold generate_summary. destruct (blank text); [done|].
  destruct (char_chunks (normalized_text text)) as [|c cs]; [done|].
  unfold mbind, M_bind. by rewrite for_each_chunk_parts.
Qed.

(** The requests of a run are the chunks, in order. *)
Lemma chunk_parts_requests p (chunks : list str) : ∀ k s,
  trace (chunk_parts oracle p (zip (seq k (length chunks)) chunks) s).2
  = trace s ++ chunk_requests p chunks.
Proof.
  induction chunks as [|c chunks IH]; intros k s.
  - simpl. by rewrite app_nil_r.
  - cbn [length seq zip zip_with chunk_parts].
    unfold perform at 1.
    destruct (oracle _ _ (world s)) as [r w1].
    specialize (IH (S k) (State w1 (trace s ++ [Ev (summarize p c
                  SUMMARIZER_MAX_LENGTH SUMMARIZER_MIN_LENGTH false)]))).
    destruct (chunk_parts oracle p _ _) as [ps s2]. cbn [snd] in *.
    rewrite IH. cbn [trace chunk_requests map]. by rewrite <- app_assoc.
Qed.

Lemma chunk_size_pos : 0 < MAX_CHUNK_SIZE_TOKENS * 4.
Proof. unfold MAX_CHUNK_SIZE_TOKENS. lia. Qed.

(** C5, as the code has it: the text is normalised by dropping leading
    and trailing whitespace and collapsing every other run of
    whitespace to one space; the normalised text is cut into
    consecutive chunks of 4096 characters (the last one may be
    shorter, none is empty); the chunks glued in order are the
    normalised text; and they are what is sent to the model, in
    order. *)
Theorem chunking_law text :
  let normalized := normalized_text text in
  let chunks := char_chunks normalized in
  MAX_CHUNK_SIZE_TOKENS * 4 = 4096
  ∧ normalized = collapse_ws (strip text)
  ∧ concat chunks = normalized
  ∧ (∀ j chunk, chunks !! j = Some chunk →
       chunk = take (MAX_CHUNK_SIZE_TOKENS * 4)
                 (drop (j * (MAX_CHUNK_SIZE_TOKENS * 4)) normalized)
       ∧ 0 < length chunk ≤ MAX_CHUNK_SIZE_TOKENS * 4
       ∧ (S j < length chunks → length chunk = MAX_CHUNK_SIZE_TOKENS * 4))
  ∧ (∀ p s, blank text = false →
       trace (generate_summary oracle (Some p) text s).2
       = trace s ++ chunk_requests p chunks).
Proof.
  intros normalized chunks. split; [reflexivity|]. split; [|split; [|split]].
  - apply join_split_collapse.
  - apply chunks_concat, chunk_size_pos.
  - intros j chunk Hj. unfold chunks, char_chunks in *.
    rewrite length_map. by apply chunks_lookup; [apply chunk_size_pos|].
  - intros p s Hnb. rewrite generate_summary_eq, Hnb.
    fold normalized. fold chunks.
    destruct chunks as [|c cs] eqn:Hchunks; [by rewrite app_nil_r|].
    cbn [snd]. apply (chunk_parts_requests p (c :: cs) 0 s).
Qed.

(** When every request raises, the parts are the markers, numbered
    from the index of the first chunk plus one. *)
Lemma chunk_parts_all_raise p (chunks : list str) :
  (∀ chunk w, ∃ e w',
     oracle _ (summarize p chunk SUMMARIZER_MAX_LENGTH
                 SUMMARIZER_MIN_LENGTH false) w = (Raised e, w')) →
  ∀ k s,
    (chunk_parts oracle p (zip (seq k (length chunks)) chunks) s).1
    = map (λ i, part_error_marker (i + 1)) (seq k (length chunks)).
Proof.
  intros Hall. induction chunks as [|c chunks IH]; intros k s; [done|].
  cbn [length seq zip zip_with chunk_parts map].
  unfold perform at 1. destruct (Hall c (world s)) as (e & w' & ->).
  specialize (IH (S k) (State w' (trace s ++ [Ev (summarize p c
                SUMMARIZER_MAX_LENGTH SUMMARIZER_MIN_LENGTH false)]))).
  destruct (chunk_parts oracle p _ _) as [ps s2]. cbn [fst] in *.
  by rewrite IH.
Qed.

Lemma part_error_marker_bracketed n :
  ∃ x, part_error_marker n = 91%N :: x ++ [93%N].
Proof.
  exists (lit "Error summarizing part " ++ of_nat n).
  unfold part_error_marker. by rewrite <- app_assoc.
Qed.

Lemma char_chunks_nonempty text :
  blank text = false → char_chunks (normalized_text text) ≠ [].
Proof.
  intros Hnb Hnil.
  assert (Hn : normalized_text text ≠ []).
  { unfold normalized_text. rewrite join_split_collapse.
    apply collapse_ws_nonempty. unfold blank in Hnb.
    by destruct (strip text). }
  apply Hn. rewrite <- (chunks_concat _ (normalized_text text) chunk_size_pos).
  unfold char_chunks in Hnil. by rewrite Hnil.
Qed.

(** C6, as the code has it: a chunk whose request raises adds its
    marker to the parts and the loop goes on; the call always returns
    a non-empty string; blank text gives "No content to summarize.";
    when the joined parts are blank the result is "Could not generate a
    summary for the provided text."; and when every request raises the
    result is the newline-joined markers, not one of the fixed
    messages. *)
Theorem summary_failures_are_contained p text s :
  (∀ i chunk parts rest s0 e s1,
     perform oracle (summarize p chunk 150 30 false) s0 = (Raised e, s1) →
     summarize_chunk oracle p (i, chunk) parts s0
     = (Ok (parts ++ [lit "[Error summarizing part " ++ of_nat (i + 1)
                        ++ lit "]"]), s1)
     ∧ for_each ((i, chunk) :: rest) (summarize_chunk oracle p) parts s0
       = for_each rest (summarize_chunk oracle p)
           (parts ++ [lit "[Error summarizing part " ++ of_nat (i + 1)
                        ++ lit "]"]) s1)
  ∧ (∃ summary s',
       generate_summary oracle (Some p) text s = (Ok summary, s')
       ∧ summary ≠ [])
  ∧ (blank text = true →
     generate_summary oracle (Some p) text s
     = (Ok (lit "No content to summarize."), s))
  ∧ (blank text = false →
     let run :=
       chunk_parts oracle p (enumerate (char_chunks (normalized_text text))) s in
     generate_summary oracle (Some p) text s
     = (Ok (if blank (join [newline] run.1)
            then lit "Could not generate a summary for the provided text."
            else strip (join [newline] run.1)), run.2))
  ∧ (blank text = false →
     (∀ chunk w, ∃ e w',
        oracle _ (summarize p chunk 150 30 false) w = (Raised e, w')) →
     (generate_summary oracle (Some p) text s).1
     = Ok (join [newline]
             (map (λ i, lit "[Error summarizing part " ++ of_nat (i + 1)
                          ++ lit "]")
                (seq 0 (length (char_chunks (normalized_text text))))))).
Proof.
  split; [|split; [|split; [|split]]].
  - intros i chunk parts rest s0 e s1 Hraise.
    assert (Hstep : summarize_chunk oracle p (i, chunk) parts s0
      = (Ok (parts ++ [part_error_marker (i + 1)]), s1)).
    { rewrite summarize_chunk_eq.
      change SUMMARIZER_MAX_LENGTH with 150.
      change SUMMARIZER_MIN_LENGTH with 30. by rewrite Hraise. }
    split; [exact Hstep|].
    cbn [for_each]. unfold mbind, M_bind. by rewrite Hstep.
  - rewrite generate_summary_eq. destruct (blank text); [by eauto|].
    destruct (char_chunks (normalized_text text)); [by eauto|].
    cbv zeta. destruct (strip _); by eauto.
  - intros Hb. by rewrite generate_summary_eq, Hb.
  - intros Hnb run. rewrite generate_summary_eq, Hnb.
    pose proof (char_chunks_nonempty text Hnb) as Hne.
    destruct (char_chunks (normalized_text text)) as [|c cs] eqn:Hc; [done|].
    cbv zeta. fold run. unfold blank. by destruct (strip _).
  - intros Hnb Hall. rewrite generate_summary_eq, Hnb.
    pose proof (char_chunks_nonempty text Hnb) as Hne.
    destruct (char_chunks (normalized_text text)) as [|c cs] eqn:Hc; [done|].
    cbv zeta. cbn [fst]. unfold enumerate.
    rewrite (chunk_parts_all_raise p (c :: cs) Hall 0 s).
    set (markers := map _ (seq 0 (length (c :: cs)))).
    destruct (join_bracketed 91%N 93%N [newline] markers) as [y Hy].
    { done. }
    { apply Forall_forall. intros m (i & -> & _)%list_elem_of_fmap.
      apply part_error_marker_bracketed. }
    rewrite Hy, strip_bracketed by done. done.
Qed.

(** C9: when loading the pipeline raises, [summarizer] is [None], and
    without a summarizer every call answers the unavailability
    message and asks nothing, blank input included: the test comes
    before the test for blank input. *)
Theorem unavailable_takes_precedence s0 e s1 text s :
  perform oracle (pipeline (lit "summarization") SUMMARIZATION_MODEL true) s0
    = (Raised e, s1) →
  load_summarizer oracle s0 = (Ok None, s1)
  ∧ generate_summary oracle None text s
    = (Ok (lit "Summary generation service is currently unavailable."), s)
  ∧ generate_summary oracle None [] s
    = (Ok (lit "Summary generation service is currently unavailable."), s)
  ∧ (∀ p, blank text = true →
       generate_summary oracle (Some p) text s
       = (Ok (lit "No content to summarize."), s))
  ∧ (∀ s2 s3 e',
       perform oracle (pipeline (lit "summarization") SUMMARIZATION_MODEL true) s
         = (Ok (), s2) →
       perform oracle (set_seed 42) s2 = (Raised e', s3) →
       load_summarizer oracle s = (Ok None, s3)).
Proof.
  intros Hload. split; [|split; [done|split; [done|split]]].
  - unfold load_summarizer, try_except, mbind, M_bind. by rewrite Hload.
  - intros p Hb. by rewrite generate_summary_eq, Hb.
  - intros s2 s3 e' H1 H2.
    unfold load_summarizer, try_except, mbind, M_bind. by rewrite H1, H2.
Qed.

Lemma chunk_parts_app p (ics1 ics2 : list (nat * str)) : ∀ s,
  chunk_parts oracle p (ics1 ++ ics2) s =
  ((chunk_parts oracle p ics1 s).1
   ++ (chunk_parts oracle p ics2 (chunk_parts oracle p ics1 s).2).1,
   (chunk_parts oracle p ics2 (chunk_parts oracle p ics1 s).2).2).
Proof.
  induction ics1 as [|[i chunk] ics1 IH]; intros s.
  - cbn [app chunk_parts fst snd].
    by destruct (chunk_parts oracle p ics2 s).
  - cbn [app chunk_parts].
    destruct (perform oracle _ s) as [r s1]. rewrite IH.
    destruct (chunk_parts oracle p ics1 s1) as [ps s2]. cbn [fst snd].
    destruct (chunk_parts oracle p ics2 s2). cbn [fst snd].
    by rewrite app_assoc.
Qed.

(** The parts of a text around a chunk whose request raises. *)
Lemma chunk_parts_failing p (ics : list (nat * str)) i n chunk s e s' :
  ics !! i = Some (n, chunk) →
  perform oracle (summarize p chunk SUMMARIZER_MAX_LENGTH
                    SUMMARIZER_MIN_LENGTH false)
    (chunk_parts oracle p (take i ics) s).2 = (Raised e, s') →
  chunk_parts oracle p ics s
  = ((chunk_parts oracle p (take i ics) s).1
     ++ [part_error_marker (n + 1)]
     ++ (chunk_parts oracle p (drop (S i) ics) s').1,
     (chunk_parts oracle p (drop (S i) ics) s').2).
Proof.
  intros Hi Hraise.
  rewrite <- (take_drop_middle ics i _ Hi) at 1.
  rewrite chunk_parts_app. cbn [chunk_parts]. rewrite Hraise.
  by destruct (chunk_parts oracle p (drop (S i) ics) s').
Qed.

Lemma enumerate_lookup {A} (xs : list A) i x :
  xs !! i = Some x → enumerate xs !! i = Some (i, x).
Proof.
  intros Hi. unfold enumerate.
  apply lookup_zip_with_Some. exists i, x. split; [done|].
  split; [|done]. apply lookup_seq_lt. by eapply lookup_lt_Some.
Qed.

End SummaryFacts.

(** ** utils/summary.py: the sample worlds *)

(** C5, as stated, fails on a text that starts with whitespace: the
    leading run is dropped, not collapsed to a space. *)
Lemma leading_whitespace_is_dropped :
  Summary.normalized_text (lit " a") = lit "a"
  ∧ collapse_ws (lit " a") = lit " a"
  ∧ ¬ Summary.chunking_law_as_stated (lit " a").
Proof.
  split; [reflexivity|]. split; [reflexivity|].
  intros H. destruct (H ltac:(done)) as [Hn _].
  vm_compute in Hn. discriminate Hn.
Qed.

(** C6, as stated, fails when every request raises: the result is the
    marker of the only chunk, which is none of the fixed messages. *)
Lemma all_chunks_fail_without_sentinel :
  (∀ p chunk w,
     summarizer_down_world _ (Summary.summarize p chunk 150 30 false) w
     = (Raised RuntimeError, w))
  ∧ Summary.generate_summary summarizer_down_world (Some sample_pipeline)
      (lit "a long story") start
    = (Ok (lit "[Error summarizing part 1]"),
       State () [Ev (Summary.summarize sample_pipeline (lit "a long story")
                       150 30 false)])
  ∧ lit "[Error summarizing part 1]" ∉ Summary.sentinels.
Proof.
  split; [done|]. split; [vm_compute; reflexivity|].
  unfold Summary.sentinels. rewrite !elem_of_cons, elem_of_nil.
  intros [H|[H|[H|[H|[]]]]]; vm_compute in H; discriminate H.
Qed.

Lemma summary_failures_are_contained_witness :
  (Summary.generate_summary summarizer_down_world (Some sample_pipeline)
     (lit "a long story") start).1
  = Ok (lit "[Error summarizing part 1]").
Proof.
  destruct (summary_failures_are_contained summarizer_down_world
              sample_pipeline (lit "a long story") start)
    as (_ & _ & _ & _ & Hall).
  rewrite (Hall eq_refl); [reflexivity|].
  intros chunk w. by exists RuntimeError, w.
Defined.

Lemma unavailable_takes_precedence_witness :
  Summary.load_summarizer no_model_world start
  = (Ok None,
     State () [Ev (Summary.pipeline (lit "summarization")
                     Summary.SUMMARIZATION_MODEL true)])
  ∧ Summary.generate_summary no_model_world None (lit "  ") start
    = (Ok (lit "Summary generation service is currently unavailable."), start).
Proof.
  destruct (unavailable_takes_precedence no_model_world start OSError _
              (lit "  ") start eq_refl) as (Hload & Hgen & _).
  split; [exact Hload | exact Hgen].
Defined.

(** ** utils/sentiment.py *)

Section SentimentFacts.

Import Sentiment.

Context {W : Type} (oracle : oracle_t call W).

Implicit Types (s : state call W) (text : str).

(** A score at or below [-0.05] is not at or above [0.05]: the order of
    the two tests does not matter. *)
Lemma thresholds_exclusive score :
  le score (- 0.05)%float = true → ge score 0.05%float = false.
Proof.
  unfold le, ge. rewrite !leb_spec.
  replace (Prim2SF (- 0.05)%float)
    with (S754_finite true 7205759403792794 (-57)) by (vm_compute; reflexivity).
  replace (Prim2SF 0.05%float)
    with (S754_finite false 7205759403792794 (-57)) by (vm_compute; reflexivity).
  intros H.
  destruct (Prim2SF score) as [[]|[]| |[] m e]; try reflexivity;
    vm_compute in H; discriminate H.
Qed.

Lemma classify_spec score :
  (ge score 0.05%float = true → classify score = lit "Positive")
  ∧ (le score (- 0.05)%float = true → classify score = lit "Negative")
  ∧ (ge score 0.05%float = false → le score (- 0.05)%float = false →
     classify score = lit "Neutral").
Proof.
  unfold classify. split; [|split].
  - by intros ->.
  - intros H. by rewrite (thresholds_exclusive _ H), H.
  - by intros -> ->.
Qed.

Lemma get_sentiment_both a text s :
  blank text = false →
  get_sentiment oracle (Some a) text s =
  match perform oracle (TextBlob_polarity text) s with
  | (Raised _, s1) => (Ok SENTIMENT_ERROR, s1)
  | (Ok blob, s1) =>
      match perform oracle (polarity_scores a text) s1 with
      | (Raised _, s2) => (Ok SENTIMENT_ERROR, s2)
      | (Ok scores, s2) =>
          match scores !! lit "compound" with
          | None => (Ok SENTIMENT_ERROR, s2)
          | Some vader => (Ok (classify (average blob vader)), s2)
          end
      end
  end.
Proof.
  intros Hnb. unfold get_sentiment. rewrite Hnb.
  unfold try_except, mbind, M_bind at 1.
  destruct (perform oracle (TextBlob_polarity text) s) as [[blob|?] s1]; [|done].
  unfold mbind, M_bind at 1.
  destruct (perform oracle (polarity_scores a text) s1) as [[scores|?] s2];
    [|done].
  unfold getitem, mbind, M_bind, raise.
  destruct (scores !! lit "compound") as [vader|]; [|done].
  unfold mret, M_ret, classify, average.
  by repeat destruct (ge _ _) || destruct (le _ _).
Qed.

Lemma get_sentiment_primary_only text s :
  blank text = false →
  get_sentiment oracle None text s =
  match perform oracle (TextBlob_polarity text) s with
  | (Raised _, s1) => (Ok SENTIMENT_ERROR, s1)
  | (Ok blob, s1) => (Ok (classify blob), s1)
  end.
Proof.
  intros Hnb. unfold get_sentiment. rewrite Hnb.
  unfold try_except, mbind, M_bind.
  destruct (perform oracle (TextBlob_polarity text) s) as [[blob|?] s1]; [|done].
  unfold mret, M_ret, classify.
  by repeat destruct (ge _ _) || destruct (le _ _).
Qed.

(** C7: on a text that is not blank, with both analyzers the label is
    that of the mean of the TextBlob polarity and the VADER compound
    score; without VADER it is that of the TextBlob polarity alone;
    the label is Positive from 0.05 up, Negative from -0.05 down and
    Neutral otherwise; and whenever a scorer raises, or the compound
    score is missing, the fixed error string is returned. *)
Theorem get_sentiment_thresholds text s :
  blank text = false →
  (∀ a,
     get_sentiment oracle (Some a) text s =
     match perform oracle (TextBlob_polarity text) s with
     | (Raised _, s1) => (Ok (lit "Error in sentiment analysis"), s1)
     | (Ok blob, s1) =>
         match perform oracle (polarity_scores a text) s1 with
         | (Raised _, s2) => (Ok (lit "Error in sentiment analysis"), s2)
         | (Ok scores, s2) =>
             match scores !! lit "compound" with
             | None => (Ok (lit "Error in sentiment analysis"), s2)
             | Some vader =>
                 (Ok (classify ((blob + vader) / 2)%float), s2)
             end
         end
     end)
  ∧ get_sentiment oracle None text s =
    match perform oracle (TextBlob_polarity text) s with
    | (Raised _, s1) => (Ok (lit "Error in sentiment analysis"), s1)
    | (Ok blob, s1) => (Ok (classify blob), s1)
    end
  ∧ (∀ s0 e s1,
       perform oracle SentimentIntensityAnalyzer s0 = (Raised e, s1) →
       load_analyzer oracle s0 = (Ok None, s1))
  ∧ (∀ score,
       (ge score 0.05%float = true → classify score = lit "Positive")
       ∧ (le score (- 0.05)%float = true → classify score = lit "Negative")
       ∧ (ge score 0.05%float = false → le score (- 0.05)%float = false →
          classify score = lit "Neutral"))
  ∧ ∀ analyzer, ∃ label s',
      get_sentiment oracle analyzer text s = (Ok label, s').
Proof.
  intros Hnb. split; [|split; [|split; [|split]]].
  - intros a. apply (get_sentiment_both a text s Hnb).
  - apply (get_sentiment_primary_only text s Hnb).
  - intros s0 e s1 H. unfold load_analyzer, try_except, mbind, M_bind.
    by rewrite H.
  - apply classify_spec.
  - intros [a|].
    + rewrite (get_sentiment_both a text s Hnb).
      destruct (perform oracle (TextBlob_polarity text) s) as [[?|?] ?];
        [|by eauto].
      destruct (perform oracle (polarity_scores a text) _) as [[scores|?] ?];
        [|by eauto].
      destruct (scores !! lit "compound"); by eauto.
    + rewrite (get_sentiment_primary_only text s Hnb).
      destruct (perform oracle (TextBlob_polarity text) s) as [[?|?] ?];
        by eauto.
Qed.

(** C8: on the empty string and on a string of whitespace only the
    label is Neutral and nothing is asked of either scorer, with or
    without VADER. *)
Theorem blank_is_neutral analyzer text s :
  Forall (λ c, isspace c = true) text →
  get_sentiment oracle analyzer text s = (Ok (lit "Neutral"), s)
  ∧ trace (get_sentiment oracle analyzer text s).2 = trace s
  ∧ filter (λ ev, is_scorer ev = true)
      (trace (get_sentiment oracle analyzer text s).2)
    = filter (λ ev, is_scorer ev = true) (trace s).
Proof.
  intros Hb%blank_spec. unfold get_sentiment. rewrite Hb. done.
Qed.

End SentimentFacts.

(** ** utils/sentiment.py: the sample world *)

Example average_positive :
  Sentiment.classify (Sentiment.average 0.5 0.5) = lit "Positive".
Proof. reflexivity. Qed.

Example average_negative :
  Sentiment.classify (Sentiment.average (- 0.5) (- 0.5)) = lit "Negative".
Proof. reflexivity. Qed.

Example average_neutral :
  Sentiment.classify (Sentiment.average 0 0) = lit "Neutral".
Proof. reflexivity. Qed.

Example nan_is_neutral :
  Sentiment.classify nan = lit "Neutral".
Proof. reflexivity. Qed.

Lemma get_sentiment_thresholds_witness :
  Sentiment.get_sentiment cheerful_world (Some Sentiment.VaderAnalyzer)
    (lit "what a day") start
  = (Ok (lit "Positive"),
     State ()
       [Ev (Sentiment.TextBlob_polarity (lit "what a day"));
        Ev (Sentiment.polarity_scores Sentiment.VaderAnalyzer
              (lit "what a day"))])
  ∧ Sentiment.get_sentiment cheerful_world None (lit "what a day") start
    = (Ok (lit "Positive"),
       State () [Ev (Sentiment.TextBlob_polarity (lit "what a day"))]).
Proof.
  destruct (get_sentiment_thresholds cheerful_world (lit "what a day") start
              eq_refl) as (Hboth & Hone & _).
  split.
  - rewrite Hboth. vm_compute. reflexivity.
  - rewrite Hone. vm_compute. reflexivity.
Defined.

Lemma blank_is_neutral_witness :
  Sentiment.get_sentiment cheerful_world (Some Sentiment.VaderAnalyzer)
    [32; 10; 9]%N start
  = (Ok (lit "Neutral"), start).
Proof.
  apply (blank_is_neutral cheerful_world (Some Sentiment.VaderAnalyzer)
           [32; 10; 9]%N start).
  repeat constructor.
Defined.

(** ** Numbering of the markers *)

Section Markers.

Context {W1 W2 : Type}.
Context (ocr : oracle_t Ocr.call W1) (summ : oracle_t Summary.call W2).

(** C10: the markers are numbered from one.  In a document that
    opens, a page at zero-based index [i] on which a call raises puts
    "[Error processing page i+1]" into the result of
    [extract_text_from_pdf], after the segments of the [i] pages before
    it; in a text that is not blank, a chunk at zero-based index [i]
    whose request raises puts "[Error summarizing part i+1]" into the
    result of [generate_summary], between the parts of the chunks
    before it and after it.  When it is the first page, or the first
    chunk, the result starts with the marker numbered 1; the marker
    never carries the index itself. *)
Theorem markers_count_from_one :
  (∀ pdf_path s s1 n s2 i e s',
     perform ocr (Ocr.fitz_open pdf_path) s = (Ok (), s1) →
     perform ocr (Ocr.doc_len pdf_path) s1 = (Ok n, s2) →
     i < n →
     let before := Ocr.page_segments ocr pdf_path (seq 0 i) s2 in
     Ocr.page_text ocr pdf_path i before.2 = (Raised e, s') →
     let after := Ocr.page_segments ocr pdf_path (seq (S i) (n - S i)) s' in
     Ocr.extract_text_from_pdf ocr pdf_path s
     = (Ok (strip (Ocr.lines
                     (before.1
                      ++ [lit "[Error processing page " ++ of_nat (i + 1)
                            ++ lit "]"]
                      ++ after.1))),
        after.2)
     ∧ length before.1 = i
     ∧ (i = 0 →
        ∃ tail,
          (Ocr.extract_text_from_pdf ocr pdf_path s).1
          = Ok (lit "[Error processing page 1]" ++ tail)))
  ∧ (∀ p text s i chunk e s',
       blank text = false →
       let chunks := Summary.char_chunks (Summary.normalized_text text) in
       chunks !! i = Some chunk →
       let before := Summary.chunk_parts summ p (take i (enumerate chunks)) s in
       perform summ (Summary.summarize p chunk 150 30 false) before.2
         = (Raised e, s') →
       let after :=
         Summary.chunk_parts summ p (drop (S i) (enumerate chunks)) s' in
       Summary.generate_summary summ (Some p) text s
       = (Ok (strip (join [newline]
                       (before.1
                        ++ [lit "[Error summarizing part " ++ of_nat (i + 1)
                              ++ lit "]"]
                        ++ after.1))),
          after.2)
       ∧ (i = 0 →
          ∃ tail,
            (Summary.generate_summary summ (Some p) text s).1
            = Ok (lit "[Error summarizing part 1]" ++ tail)))
  ∧ ∀ i, Ocr.page_error_marker (i + 1) ≠ Ocr.page_error_marker i
         ∧ Summary.part_error_marker (i + 1) ≠ Summary.part_error_marker i.
Proof.
  split; [|split].
  - intros pdf_path s s1 n s2 i e s' Hopen Hlen Hi before Hraise after.
    assert (Hres :
      Ocr.extract_text_from_pdf ocr pdf_path s
      = (Ok (strip (Ocr.lines
                      (before.1 ++ [Ocr.page_error_marker (i + 1)]
                       ++ after.1))), after.2)).
    { rewrite extract_text_from_pdf_eq, Hopen, Hlen.
      by rewrite (page_segments_failing ocr pdf_path n s2 i e s' Hi Hraise). }
    split; [exact Hres|]. split.
    + unfold before. by rewrite page_segments_length, length_seq.
    + intros ->. rewrite Hres. cbn [fst]. unfold before.
      cbn [seq Ocr.page_segments fst app Ocr.lines map concat].
      change (Ocr.page_error_marker (0 + 1))
        with (91%N :: lit "Error processing page 1" ++ [93%N]).
      rewrite <- app_assoc.
      rewrite (strip_prefix_bracketed 91 93) by done.
      by eexists.
  - intros p text s i chunk e s' Hnb chunks Hi before Hraise after.
    assert (Hres :
      Summary.generate_summary summ (Some p) text s
      = (Ok (strip (join [newline]
                      (before.1 ++ [Summary.part_error_marker (i + 1)]
                       ++ after.1))), after.2)).
    { rewrite generate_summary_eq, Hnb. fold chunks.
      destruct chunks as [|c cs] eqn:Hc; [done|]. cbv zeta.
      rewrite (chunk_parts_failing summ p (enumerate (c :: cs)) i i chunk s e s'
                 (enumerate_lookup (c :: cs) i chunk Hi) Hraise).
      cbn [fst snd]. fold before. fold after.
      destruct (part_error_marker_bracketed (i + 1)) as [x Hx].
      pose proof (strip_join_bracketed 91 93 x [newline] before.1 after.1
                    eq_refl) as Hne.
      rewrite <- Hx in Hne.
      by destruct (strip _). }
    split; [exact Hres|].
    intros ->. rewrite Hres. cbn [fst]. unfold before.
    rewrite take_0. cbn [Summary.chunk_parts fst app].
    change (Summary.part_error_marker (0 + 1))
      with (91%N :: lit "Error summarizing part 1" ++ [93%N]).
    destruct after.1 as [|q qs].
    + cbn [join]. by exists [].
    + change (join [newline] ((91%N :: lit "Error summarizing part 1" ++ [93%N])
                               :: q :: qs))
        with ((91%N :: lit "Error summarizing part 1" ++ [93%N])
              ++ [newline] ++ join [newline] (q :: qs)).
      rewrite (strip_prefix_bracketed 91 93) by done. by eexists.
  - intros i. unfold Ocr.page_error_marker, Summary.part_error_marker.
    split; intros H%app_inv_head%app_inv_tail%of_nat_inj; lia.
Qed.

End Markers.

Lemma markers_count_from_one_witness :
  Ocr.extract_text_from_pdf sample_ocr_world (lit "book.pdf") start
  = (Ok (lit "one" ++ [newline] ++ lit "[Error processing page 2]"
           ++ [newline] ++ lit "scanned"),
     (Ocr.page_segments sample_ocr_world (lit "book.pdf") (seq 0 3)
        (State () [Ev (Ocr.fitz_open (lit "book.pdf"));
                   Ev (Ocr.doc_len (lit "book.pdf"))])).2)
  ∧ ∃ tail,
      (Summary.generate_summary summarizer_down_world (Some sample_pipeline)
         (lit "a long story") start).1
      = Ok (lit "[Error summarizing part 1]" ++ tail).
Proof.
  destruct (markers_count_from_one sample_ocr_world summarizer_down_world)
    as (Hpage & Hpart & _).
  split.
  - destruct (Hpage (lit "book.pdf") start _ 3 _ 1 ValueError _
                eq_refl eq_refl ltac:(lia) eq_refl) as (Hres & _).
    exact Hres.
  - destruct (Hpart sample_pipeline (lit "a long story") start 0
                (lit "a long story") RuntimeError _ eq_refl eq_refl eq_refl)
      as (_ & Hfirst).
    exact (Hfirst eq_refl).
Defined.

(** * The application and the exporters *)

(** ** Programs that follow a script *)

Section ScriptFacts.

Context {call : Type → Type} {W : Type} (oracle : oracle_t call W).

Lemma follows_ret {A} (a : A) :
  follows oracle (mret a : M call W A) [] (λ x, x = a).
Proof. intros s. unfold mret, M_ret. by rewrite app_nil_r. Qed.

Lemma follows_perform {A} (c : call A) :
  follows oracle (perform oracle c) [Ev c] (λ _, True).
Proof.
  intros s. unfold perform.
  destruct (oracle A c (world s)) as [[a|e] w'] eqn:E.
  - split; [done|]. split; [done|].
    constructor; [|done]. by exists (world s), a, w'.
  - exists [], (Ev c). split; [done|]. split; [done|]. split; [done|].
    by exists (world s), w'.
Qed.

Lemma follows_bind {A B} (m : M call W A) (k : A → M call W B) l1 l2 P Q :
  follows oracle m l1 P →
  (∀ a, P a → follows oracle (k a) l2 Q) →
  follows oracle (m ≫= k) (l1 ++ l2) Q.
Proof.
  intros Hm Hk s. unfold mbind, M_bind. specialize (Hm s).
  destruct (m s) as [[a|e] s1].
  - destruct Hm as (Ha & Htr & Hans). specialize (Hk a Ha s1).
    destruct (k a s1) as [[b|e] s2].
    + destruct Hk as (Hb & Htr2 & Hans2). split; [done|]. split.
      * by rewrite Htr2, Htr, app_assoc.
      * by apply Forall_app.
    + destruct Hk as (pre & ev & Hpre & Htr2 & Hans2 & Hraise).
      exists (l1 ++ pre), ev. split; [|split; [|split]].
      * rewrite <- app_assoc. by apply prefix_app.
      * by rewrite Htr2, Htr, <- !app_assoc.
      * by apply Forall_app.
      * done.
  - destruct Hm as (pre & ev & Hpre & Htr & Hans & Hraise).
    exists pre, ev. split; [|done]. by apply prefix_app_r.
Qed.

Lemma follows_perform_bind {A B} (c : call A) (k : A → M call W B) l Q :
  (∀ a, follows oracle (k a) l Q) →
  follows oracle (perform oracle c ≫= k) (Ev c :: l) Q.
Proof.
  intros Hk. apply (follows_bind _ _ [Ev c] l (λ _, True)); [|by auto].
  apply follows_perform.
Qed.

Lemma follows_weaken {A} (m : M call W A) l (P Q : A → Prop) :
  follows oracle m l P → (∀ a, P a → Q a) → follows oracle m l Q.
Proof.
  intros Hm HPQ s. specialize (Hm s). destruct (m s) as [[a|e] s1]; [|done].
  destruct Hm as (? & ? & ?). auto.
Qed.

Lemma follows_for_each {A B} (xs : list A) (body : A → B → M call W B)
    (script_of : A → list (event call)) :
  (∀ x acc, follows oracle (body x acc) (script_of x) (λ _, True)) →
  ∀ acc,
    follows oracle (for_each xs body acc) (concat (map script_of xs))
      (λ _, True).
Proof.
  intros Hbody. induction xs as [|x xs IH]; intros acc.
  - cbn [for_each map concat]. eapply follows_weaken; [apply follows_ret|done].
  - cbn [for_each map concat].
    eapply follows_bind; [apply Hbody|]. intros acc' _. apply IH.
Qed.

(** A program that follows a script, wrapped in a handler that answers
    [fallback]: the run returns; its requests are a prefix of the
    script; when the body returned they are the whole script, all
    answered; when the body raised, the last request made is the one
    the oracle raised on. *)
Lemma follows_try_except {A} (m : M call W A) l P (fallback : A) s :
  follows oracle m l P →
  ∃ a new,
    (try_except m (λ _, mret fallback) s).1 = Ok a
    ∧ trace (try_except m (λ _, mret fallback) s).2 = trace s ++ new
    ∧ new `prefix_of` l
    ∧ ((m s).1 = Ok a ∧ P a ∧ new = l ∧ Forall (answered oracle) l
       ∨ a = fallback
         ∧ ∃ pre ev e,
             (m s).1 = Raised e ∧ new = pre ++ [ev]
             ∧ Forall (answered oracle) pre ∧ raised_on oracle ev e).
Proof.
  intros Hm. specialize (Hm s). unfold try_except.
  destruct (m s) as [[a|e] s1]; cbn [fst snd].
  - destruct Hm as (Ha & Htr & Hans). exists a, l. eauto 10.
  - destruct Hm as (pre & ev & Hpre & Htr & Hans & Hraise).
    exists fallback, (pre ++ [ev]).
    unfold mret, M_ret. cbn [fst snd]. split; [done|]. split; [done|].
    split; [done|]. right. split; [done|]. by exists pre, ev, e.
Qed.

(** In a script whose last request is the only one of its kind, a
    prefix that has a request of that kind is the whole script. *)
Lemma prefix_with_last (P : event call → bool) (body pre : list (event call))
    (final : event call) :
  forallb (λ ev, negb (P ev)) body = true →
  pre `prefix_of` body ++ [final] →
  existsb P pre = true →
  pre = body ++ [final].
Proof.
  intros Hbody [rest Hrest] Hex.
  destruct rest as [|r rest]; [by rewrite app_nil_r in Hrest|].
  exfalso.
  assert (Hpre : pre `prefix_of` body).
  { destruct (exists_last (l := r :: rest) ltac:(done)) as (rest' & x & Hx).
    rewrite Hx, app_assoc in Hrest.
    apply app_inj_tail in Hrest as [-> _]. by exists rest'. }
  destruct Hpre as [k ->].
  rewrite forallb_app in Hbody. apply andb_prop in Hbody as [Hb _].
  apply existsb_exists in Hex as (ev & Hin & HP).
  rewrite forallb_forall in Hb. specialize (Hb ev Hin).
  by rewrite HP in Hb.
Qed.

End ScriptFacts.

(** ** More of Python's [str] *)

Section StrOpsFacts.

Implicit Types (s : str) (sep c : N).

Example split_on_example :
  split_on 10 (lit "a" ++ [10; 10]%N ++ lit "b" ++ [10]%N)
  = [lit "a"; []; lit "b"; []].
Proof. reflexivity. Qed.

Example rsplit1_example :
  rsplit1 46 (lit "a.tar.gz") = [lit "a.tar"; lit "gz"]
  ∧ rsplit1 46 (lit "README") = [lit "README"].
Proof. split; reflexivity. Qed.

Example contains_example :
  contains (lit "a..b") (lit "..") = true ∧ contains (lit "a.b.") (lit "..") = false.
Proof. split; reflexivity. Qed.

Lemma split_on_nonempty sep s : split_on sep s ≠ [].
Proof.
  destruct s as [|c s]; [done|]. simpl.
  destruct (c =? sep)%N; [done|]. by destruct (split_on sep s).
Qed.

(** Splitting at a separator and joining with it gives the string back. *)
Lemma join_split_on sep s : join [sep] (split_on sep s) = s.
Proof.
  induction s as [|c s IH]; [done|]. simpl.
  destruct (c =? sep)%N eqn:Hc.
  - apply N.eqb_eq in Hc as ->.
    pose proof (split_on_nonempty sep s) as Hne.
    destruct (split_on sep s) as [|w ws]; [done|].
    change (join [sep] ([] :: w :: ws)) with ([] ++ [sep] ++ join [sep] (w :: ws)).
    by rewrite IH.
  - pose proof (split_on_nonempty sep s) as Hne.
    destruct (split_on sep s) as [|w ws]; [done|].
    destruct ws as [|w' ws].
    + simpl in *. by rewrite IH.
    + change (join [sep] ((c :: w) :: w' :: ws))
        with (c :: (w ++ [sep] ++ join [sep] (w' :: ws))).
      change (join [sep] (w :: w' :: ws))
        with (w ++ [sep] ++ join [sep] (w' :: ws)) in IH.
      by rewrite IH.
Qed.

(** No piece of a split has the separator in it. *)
Lemma split_on_pieces sep s :
  Forall (λ w, contains_char sep w = false) (split_on sep s).
Proof.
  induction s as [|c s IH]; [by repeat constructor|]. simpl.
  destruct (c =? sep)%N eqn:Hc.
  - by constructor.
  - pose proof (split_on_nonempty sep s) as Hne.
    destruct (split_on sep s) as [|w ws]; [done|].
    apply Forall_cons in IH as [Hw Hws]. constructor; [|done].
    unfold contains_char in *. simpl. rewrite Hw.
    by rewrite N.eqb_sym, Hc.
Qed.

Lemma latin1_replace_range s :
  Forall (λ c, (c <= 255)%N) (latin1_replace s).
Proof.
  induction s as [|c s IH]; [done|]. simpl. constructor; [|done].
  destruct (c <=? 255)%N eqn:Hc; [by apply N.leb_le|done].
Qed.

Lemma latin1_replace_keeps s :
  Forall (λ c, (c <= 255)%N) s → latin1_replace s = s.
Proof.
  induction 1 as [|c s Hc _ IH]; [done|]. simpl. rewrite IH.
  by apply N.leb_le in Hc as ->.
Qed.

Lemma latin1_replace_lookup s i c :
  s !! i = Some c →
  latin1_replace s !! i = Some (if (c <=? 255)%N then c else 63%N).
Proof. intros H. unfold latin1_replace. by rewrite list_lookup_fmap, H. Qed.

Lemma split_on_app sep a b :
  split_on sep (a ++ sep :: b) = split_on sep a ++ split_on sep b.
Proof.
  induction a as [|c a IH]; simpl.
  - by rewrite N.eqb_refl.
  - destruct (c =? sep)%N; [by rewrite IH|]. rewrite IH.
    pose proof (split_on_nonempty sep a) as Hne.
    by destruct (split_on sep a).
Qed.

Lemma split_on_no_sep sep s :
  contains_char sep s = false → split_on sep s = [s].
Proof.
  unfold contains_char. induction s as [|c s IH]; [done|]. simpl.
  intros [Hc Hs]%orb_false_elim. rewrite N.eqb_sym, Hc. by rewrite IH.
Qed.

(** A string with the separator in it splits at its last occurrence. *)
Lemma last_occurrence sep s :
  contains_char sep s = true →
  ∃ stem ext, s = stem ++ sep :: ext ∧ contains_char sep ext = false.
Proof.
  unfold contains_char. induction s as [|c s IH]; [done|]. simpl.
  destruct (existsb (N.eqb sep) s) eqn:Hs.
  - intros _. destruct (IH eq_refl) as (stem & ext & -> & Hext).
    by exists (c :: stem), ext.
  - rewrite orb_false_r. intros ->%N.eqb_eq. by exists [], s.
Qed.

Lemma rsplit1_ext sep stem ext :
  contains_char sep ext = false →
  rsplit1 sep (stem ++ sep :: ext) = [stem; ext].
Proof.
  intros Hext. unfold rsplit1. rewrite split_on_app, (split_on_no_sep _ _ Hext).
  pose proof (split_on_nonempty sep stem) as Hne.
  pose proof (join_split_on sep stem) as Hj.
  destruct (split_on sep stem) as [|w ws] eqn:Hsp; [done|].
  change ((w :: ws) ++ [ext]) with (w :: (ws ++ [ext])).
  destruct (ws ++ [ext]) as [|x xs] eqn:Hx; [by destruct ws|].
  rewrite <- Hx. change (w :: ws ++ [ext]) with ((w :: ws) ++ [ext]).
  by rewrite removelast_last, last_last, Hj.
Qed.

Lemma rsplit1_no_sep sep s :
  contains_char sep s = false → rsplit1 sep s = [s].
Proof. intros H. unfold rsplit1. by rewrite (split_on_no_sep _ _ H). Qed.

Lemma ascii_lower_ascii s :
  Forall is_ascii s → Forall is_ascii (ascii_lower s).
Proof.
  unfold is_ascii. induction 1 as [|c s Hc _ IH]; [done|]. simpl.
  constructor; [|done].
  destruct ((65 <=? c)%N && (c <=? 90)%N) eqn:Hr; [|done].
  apply andb_prop in Hr as [_ H%N.leb_le]. lia.
Qed.

Lemma ascii_lower_idemp s : ascii_lower (ascii_lower s) = ascii_lower s.
Proof.
  induction s as [|c s IH]; [done|]. simpl. rewrite IH. f_equal.
  destruct ((65 <=? c)%N && (c <=? 90)%N) eqn:Hr; [|by rewrite Hr].
  apply andb_prop in Hr as [H1%N.leb_le H2%N.leb_le].
  assert ((c + 32 <=? 90)%N = false) as -> by (apply N.leb_gt; lia).
  by rewrite andb_false_r.
Qed.

Lemma ascii_lower_no_char c s :
  ((c < 65)%N ∨ (122 < c)%N) →
  contains_char c (ascii_lower s) = contains_char c s.
Proof.
  intros Hc. unfold contains_char. induction s as [|x s IH]; [done|].
  simpl. rewrite IH. f_equal.
  destruct ((65 <=? x)%N && (x <=? 90)%N) eqn:Hr; [|done].
  apply andb_prop in Hr as [H1%N.leb_le H2%N.leb_le].
  assert ((c =? x + 32)%N = false) as -> by (apply N.eqb_neq; lia).
  symmetry. apply N.eqb_neq. lia.
Qed.

Lemma startswith_app (a b : str) : startswith (a ++ b) a = true.
Proof.
  induction a as [|c a IH]; [done|]. cbn [app startswith].
  by rewrite N.eqb_refl, IH.
Qed.

Lemma startswith_app_long (a b p : str) :
  length p ≤ length a → startswith (a ++ b) p = startswith a p.
Proof.
  revert a. induction p as [|x p IH]; intros a Hlen; [done|].
  destruct a as [|c a]; [simpl in Hlen; lia|]. simpl.
  rewrite IH; [done|]. simpl in Hlen. lia.
Qed.

Lemma contains_app_r (a s sub : str) :
  contains s sub = true → contains (a ++ s) sub = true.
Proof.
  intros H. induction a as [|c a IH]; [done|].
  cbn [app contains]. rewrite IH. apply orb_true_r.
Qed.

Lemma contains_infix (a sub b : str) : contains (a ++ sub ++ b) sub = true.
Proof.
  apply contains_app_r. destruct (sub ++ b) eqn:E; simpl;
    rewrite <- ?E, startswith_app; done.
Qed.

Lemma split_on_head sep s x xs :
  split_on sep s = x :: xs → ∃ b, s = x ++ b.
Proof.
  revert x xs. induction s as [|c s IH]; intros x xs; simpl.
  - intros [= <- <-]. by exists [].
  - destruct (c =? sep)%N.
    + intros [= <- <-]. by exists (c :: s).
    + destruct (split_on sep s) as [|w ws] eqn:Hsp.
      * intros [= <- <-]. by destruct (split_on_nonempty sep s).
      * intros [= <- <-]. destruct (IH w ws eq_refl) as [b ->].
        by exists b.
Qed.

(** Every piece of a split is a part of the string. *)
Lemma split_on_infix sep s w :
  w ∈ split_on sep s → ∃ a b, s = a ++ w ++ b.
Proof.
  revert w. induction s as [|c s IH]; intros w; simpl.
  - intros ->%list_elem_of_singleton. by exists [], [].
  - destruct (c =? sep)%N.
    + intros [->|Hw]%elem_of_cons; [by exists [], (c :: s)|].
      destruct (IH w Hw) as (a & b & ->). by exists (c :: a), b.
    + destruct (split_on sep s) as [|x xs] eqn:Hsp.
      * by destruct (split_on_nonempty sep s).
      * intros [->|Hw]%elem_of_cons.
        -- destruct (split_on_head sep s x xs Hsp) as [b ->].
           by exists [], b.
        -- destruct (IH w ltac:(by right)) as (a & b & ->).
           by exists (c :: a), b.
Qed.

Lemma join_snoc (sp : str) (l : list str) (x : str) :
  join sp (l ++ [x])
  = match l with [] => x | _ => join sp l ++ sp ++ x end.
Proof.
  induction l as [|p l IH]; [done|].
  destruct l as [|q l]; [done|].
  change (join sp ((p :: q :: l) ++ [x]))
    with (p ++ sp ++ join sp ((q :: l) ++ [x])).
  rewrite IH.
  change (join sp (p :: q :: l)) with (p ++ sp ++ join sp (q :: l)).
  by rewrite <- !app_assoc.
Qed.

Lemma join_app_prefix (sp : str) (l e : list str) :
  l ≠ [] → ∃ tail, join sp (l ++ e) = join sp l ++ tail.
Proof.
  intros Hl. induction e as [|x e IH] using rev_ind.
  - exists []. by rewrite !app_nil_r.
  - destruct IH as [tail IH]. rewrite app_assoc, join_snoc.
    assert (join sp (l ++ e) ++ sp ++ x = (join sp l ++ tail) ++ sp ++ x)
      as Heq by by rewrite IH.
    exists (tail ++ sp ++ x).
    destruct (l ++ e) eqn:E; [by destruct l|].
    by rewrite Heq, <- !app_assoc.
Qed.

Lemma split_on_length sep s :
  length (split_on sep s) = S (length (filter (λ c, c = sep) s)).
Proof.
  induction s as [|c s IH]; [done|]. simpl.
  destruct (c =? sep)%N eqn:Hc.
  - apply N.eqb_eq in Hc as ->. rewrite filter_cons_True by done.
    simpl. by rewrite IH.
  - apply N.eqb_neq in Hc. rewrite filter_cons_False by done.
    pose proof (split_on_nonempty sep s) as Hne.
    destruct (split_on sep s) as [|w ws]; [done|]. exact IH.
Qed.

Lemma omap_prefix {A B} (f : A → option B) (l1 l2 : list A) :
  l1 `prefix_of` l2 → omap f l1 `prefix_of` omap f l2.
Proof. intros [k ->]. rewrite omap_app. by exists (omap f k). Qed.

Lemma lstrip_idemp (s : str) : lstrip (lstrip s) = lstrip s.
Proof.
  induction s as [|c s IH]; [done|]. cbn [lstrip].
  destruct (isspace c) eqn:Hc; [done|]. cbn [lstrip]. by rewrite Hc.
Qed.

Lemma rstrip_lstrip (r : str) : rstrip r = r → rstrip (lstrip r) = lstrip r.
Proof.
  induction r as [|c r IH]; [done|]. intros H. cbn [lstrip].
  destruct (isspace c) eqn:Hc; [|done].
  apply IH. rewrite (rstrip_cons_space c r Hc) in H.
  destruct (rstrip r) eqn:Hr; [done|]. by injection H.
Qed.

Lemma strip_idemp (s : str) : strip (strip s) = strip s.
Proof.
  unfold strip. rewrite (rstrip_lstrip (rstrip s) (rstrip_idemp s)).
  apply lstrip_idemp.
Qed.

End StrOpsFacts.

(** ** utils/export.py *)

Section ExporterFacts.

Import Exporter.

Context {W : Type} (oracle : oracle_t call W).

Implicit Types (s : state call W) (filename extracted_text summary sentiment : str).

Local Notation "'Rq' c" := (existT (P := call) _ c)
  (at level 10, c at level 9, only parsing).

Lemma add_paragraphs_follows text :
  follows oracle (add_paragraphs oracle text) (paragraph_requests text)
    (λ _, True).
Proof.
  unfold add_paragraphs, paragraph_requests.
  apply (follows_for_each oracle _ _
           (λ line, let t := if blank line then None else Some line in
                    [Rq (add_paragraph t); Rq (set_space_after (Paragraph t) 6)])).
  intros line []. cbv zeta. destruct (blank line); cbn [negb].
  - apply (follows_bind oracle _ _ [Rq (add_paragraph None)]
             [Rq (set_space_after (Paragraph None) 6)]
             (λ p, p = Paragraph None)).
    + change [Rq (add_paragraph None)] with ([Rq (add_paragraph None)] ++ []).
      eapply follows_bind; [apply follows_perform|].
      intros _ _. apply follows_ret.
    + intros p ->. apply follows_perform.
  - apply (follows_bind oracle _ _ [Rq (add_paragraph (Some line))]
             [Rq (set_space_after (Paragraph (Some line)) 6)]
             (λ p, p = Paragraph (Some line))).
    + change [Rq (add_paragraph (Some line))]
        with ([Rq (add_paragraph (Some line))] ++ []).
      eapply follows_bind; [apply follows_perform|].
      intros _ _. apply follows_ret.
    + intros p ->. apply follows_perform.
Qed.

Lemma paragraph_requests_no_write text :
  forallb (λ ev, negb (writes_file ev)) (paragraph_requests text) = true.
Proof.
  unfold paragraph_requests. induction (split_on newline text) as [|l ls IH];
    [done|]. simpl. exact IH.
Qed.

Lemma docx_requests_split filename extracted_text summary sentiment :
  ∃ body,
    docx_requests filename extracted_text summary sentiment
    = body ++ [Rq (doc_save filename)]
    ∧ forallb (λ ev, negb (writes_file ev)) body = true.
Proof.
  exists ([Rq Document;
           Rq (add_heading (lit "BookVision Analysis Report") 0);
           Rq (add_heading (lit "Full Extracted Text") 1)]
          ++ paragraph_requests extracted_text
          ++ [Rq (add_paragraph None); Rq (add_heading (lit "Summary") 1)]
          ++ paragraph_requests summary
          ++ [Rq (add_paragraph None);
              Rq (add_heading (lit "Sentiment Analysis") 1);
              Rq (add_paragraph None);
              Rq (add_run (Paragraph None) sentiment);
              Rq (set_bold (Paragraph None) sentiment true);
              Rq (set_space_after (Paragraph None) 6)]).
  split.
  - unfold docx_requests. by rewrite <- !app_assoc.
  - rewrite !forallb_app, !paragraph_requests_no_write. done.
Qed.

Lemma save_as_docx_follows filename extracted_text summary sentiment :
  follows oracle
    (_ ← perform oracle Document;
     _ ← perform oracle (add_heading (lit "BookVision Analysis Report") 0);
     _ ← perform oracle (add_heading (lit "Full Extracted Text") 1);
     _ ← add_paragraphs oracle extracted_text;
     _ ← perform oracle (add_paragraph None);
     _ ← perform oracle (add_heading (lit "Summary") 1);
     _ ← add_paragraphs oracle summary;
     _ ← perform oracle (add_paragraph None);
     _ ← perform oracle (add_heading (lit "Sentiment Analysis") 1);
     _ ← perform oracle (add_paragraph None);
     _ ← perform oracle (add_run (Paragraph None) sentiment);
     _ ← perform oracle (set_bold (Paragraph None) sentiment true);
     _ ← perform oracle (set_space_after (Paragraph None) 6);
     _ ← perform oracle (doc_save filename);
     mret true)
    (docx_requests filename extracted_text summary sentiment)
    (λ saved, saved = true).
Proof.
  unfold docx_requests. cbn [app].
  do 3 (apply follows_perform_bind; intros _).
  eapply follows_bind; [apply add_paragraphs_follows|]. intros _ _. cbn [app].
  do 2 (apply follows_perform_bind; intros _).
  eapply follows_bind; [apply add_paragraphs_follows|]. intros _ _. cbn [app].
  do 7 (apply follows_perform_bind; intros _).
  apply follows_ret.
Qed.

(** What a wrapped run of a script ending in the write tells. *)
Lemma wrapped_script_outcome (m : M call W bool) script body
    (final : event call) s :
  follows oracle m script (λ saved, saved = true) →
  script = body ++ [final] →
  forallb (λ ev, negb (writes_file ev)) body = true →
  let run := try_except m (λ _, mret false) s in
  ∃ saved new,
    run.1 = Ok saved
    ∧ trace run.2 = trace s ++ new
    ∧ new `prefix_of` script
    ∧ (saved = true → new = script ∧ Forall (answered oracle) script)
    ∧ (saved = false →
       ∃ pre ev e, new = pre ++ [ev] ∧ Forall (answered oracle) pre
                   ∧ raised_on oracle ev e)
    ∧ (existsb writes_file new = true → new = script)
    ∧ ((∀ B (c : call B) w, ∃ a w', oracle B c w = (Ok a, w')) →
       saved = true).
Proof.
  intros Hf Hscript Hbody run.
  destruct (follows_try_except oracle m script _ false s Hf)
    as (saved & new & Hres & Htr & Hpre & Hcases).
  exists saved, new. split; [done|]. split; [done|]. split; [done|].
  split; [|split; [|split]].
  - intros ->. destruct Hcases as [(_ & _ & -> & Hans) | (Hfalse & _)]; done.
  - intros ->.
    destruct Hcases as [(_ & Htrue & _) | (_ & pre & ev & e & _ & -> & ? & ?)];
      [done|]. by exists pre, ev, e.
  - intros Hex. subst script. by eapply prefix_with_last.
  - intros Hnever.
    destruct Hcases as [(_ & -> & _) | (_ & pre & ev & e & _ & _ & _ & Hraise)];
      [done|].
    destruct Hraise as (w & w' & Hraise).
    destruct (Hnever _ (projT2 ev) w) as (a & w'' & Hok). congruence.
Qed.

(** X1: [save_as_docx] never raises.  Its requests are a prefix of the
    fixed sequence that ends with [doc.save]; it answers [True] only
    after the whole sequence went through; when it answers [False] the
    last request made is one the library raised on; [doc.save] is
    requested only after every other step succeeded; and when the
    library never raises the answer is [True]. *)
Theorem save_as_docx_outcome filename extracted_text summary sentiment s :
  let script := docx_requests filename extracted_text summary sentiment in
  let run := save_as_docx oracle filename extracted_text summary sentiment s in
  ∃ saved new,
    run.1 = Ok saved
    ∧ trace run.2 = trace s ++ new
    ∧ new `prefix_of` script
    ∧ (saved = true → new = script ∧ Forall (answered oracle) script)
    ∧ (saved = false →
       ∃ pre ev e, new = pre ++ [ev] ∧ Forall (answered oracle) pre
                   ∧ raised_on oracle ev e)
    ∧ (existsb writes_file new = true → new = script)
    ∧ ((∀ B (c : call B) w, ∃ a w', oracle B c w = (Ok a, w')) →
       saved = true).
Proof.
  intros script run.
  destruct (docx_requests_split filename extracted_text summary sentiment)
    as (body & Hsplit & Hbody).
  exact (wrapped_script_outcome _ script body _ s
           (save_as_docx_follows filename extracted_text summary sentiment)
           Hsplit Hbody).
Qed.

Lemma encode_or_keep_follows text :
  follows oracle (encode_or_keep text) [] (λ x, x = latin1_replace text).
Proof. intros s. unfold encode_or_keep, try_except, mret, M_ret.
  by rewrite app_nil_r. Qed.

Lemma save_as_pdf_follows filename extracted_text summary sentiment :
  follows oracle
    (_ ← perform oracle FPDF;
     _ ← perform oracle add_page;
     _ ← perform oracle (set_auto_page_break true 15);
     _ ← perform oracle (set_font PDF_FONT_FAMILY (lit "B") (PDF_HEADING_SIZE + 2));
     _ ← perform oracle (cell 0 (line_height_times 1.5)
                           (lit "BookVision Analysis Report") 0 1 (lit "C"));
     _ ← perform oracle (ln (Int PDF_LINE_HEIGHT));
     _ ← perform oracle (set_font PDF_FONT_FAMILY (lit "B") PDF_HEADING_SIZE);
     _ ← perform oracle (cell 0 (Int PDF_LINE_HEIGHT) (lit "Full Extracted Text")
                           0 1 (lit "L"));
     _ ← perform oracle (set_font PDF_FONT_FAMILY [] PDF_TEXT_SIZE);
     encoded_extracted_text ← encode_or_keep extracted_text;
     _ ← perform oracle (multi_cell 0 PDF_LINE_HEIGHT encoded_extracted_text);
     _ ← perform oracle (ln (line_height_times 0.5));
     _ ← perform oracle (set_font PDF_FONT_FAMILY (lit "B") PDF_HEADING_SIZE);
     _ ← perform oracle (cell 0 (Int PDF_LINE_HEIGHT) (lit "Summary") 0 1 (lit "L"));
     _ ← perform oracle (set_font PDF_FONT_FAMILY [] PDF_TEXT_SIZE);
     encoded_summary ← encode_or_keep summary;
     _ ← perform oracle (multi_cell 0 PDF_LINE_HEIGHT encoded_summary);
     _ ← perform oracle (ln (line_height_times 0.5));
     _ ← perform oracle (set_font PDF_FONT_FAMILY (lit "B") PDF_HEADING_SIZE);
     _ ← perform oracle (cell 0 (Int PDF_LINE_HEIGHT) (lit "Sentiment Analysis")
                           0 1 (lit "L"));
     _ ← perform oracle (set_font PDF_FONT_FAMILY (lit "B") PDF_TEXT_SIZE);
     encoded_sentiment ← encode_or_keep sentiment;
     _ ← perform oracle (multi_cell 0 PDF_LINE_HEIGHT encoded_sentiment);
     _ ← perform oracle (output filename (lit "F"));
     mret true)
    (pdf_requests filename extracted_text summary sentiment)
    (λ saved, saved = true).
Proof.
  unfold pdf_requests.
  assert (H15 : line_height_times 1.5 = Float 15) by (vm_compute; reflexivity).
  assert (H5 : line_height_times 0.5 = Float 5) by (vm_compute; reflexivity).
  rewrite H15, H5.
  do 9 (apply follows_perform_bind; intros _).
  eapply (follows_bind oracle _ _ []); [apply encode_or_keep_follows|].
  intros ? ->. cbn [app].
  do 5 (apply follows_perform_bind; intros _).
  eapply (follows_bind oracle _ _ []); [apply encode_or_keep_follows|].
  intros ? ->. cbn [app].
  do 5 (apply follows_perform_bind; intros _).
  eapply (follows_bind oracle _ _ []); [apply encode_or_keep_follows|].
  intros ? ->. cbn [app].
  do 2 (apply follows_perform_bind; intros _).
  apply follows_ret.
Qed.

Lemma pdf_requests_split filename extracted_text summary sentiment :
  ∃ body,
    pdf_requests filename extracted_text summary sentiment
    = body ++ [Rq (output filename (lit "F"))]
    ∧ forallb (λ ev, negb (writes_file ev)) body = true.
Proof.
  exists (removelast (pdf_requests filename extracted_text summary sentiment)).
  split; reflexivity.
Qed.

(** X2: [save_as_pdf] never raises.  Its requests are a prefix of the
    fixed sequence that ends with [pdf.output]; it answers [True] only
    after the whole sequence went through; when it answers [False] the
    last request made is one the library raised on; [pdf.output] is
    requested only after every other step succeeded; and when the
    library never raises the answer is [True]. *)
Theorem save_as_pdf_outcome filename extracted_text summary sentiment s :
  let script := pdf_requests filename extracted_text summary sentiment in
  let run := save_as_pdf oracle filename extracted_text summary sentiment s in
  ∃ saved new,
    run.1 = Ok saved
    ∧ trace run.2 = trace s ++ new
    ∧ new `prefix_of` script
    ∧ (saved = true → new = script ∧ Forall (answered oracle) script)
    ∧ (saved = false →
       ∃ pre ev e, new = pre ++ [ev] ∧ Forall (answered oracle) pre
                   ∧ raised_on oracle ev e)
    ∧ (existsb writes_file new = true → new = script)
    ∧ ((∀ B (c : call B) w, ∃ a w', oracle B c w = (Ok a, w')) →
       saved = true).
Proof.
  intros script run.
  destruct (pdf_requests_split filename extracted_text summary sentiment)
    as (body & Hsplit & Hbody).
  exact (wrapped_script_outcome _ script body _ s
           (save_as_pdf_follows filename extracted_text summary sentiment)
           Hsplit Hbody).
Qed.

(** X3: whatever happens, every text [save_as_pdf] hands to
    [multi_cell] is Latin-1: the extracted text, the summary and the
    sentiment, in this order, each with every code point above 255
    replaced by a question mark and nothing else changed. *)
Theorem save_as_pdf_text_is_latin1 filename extracted_text summary sentiment s :
  let run := save_as_pdf oracle filename extracted_text summary sentiment s in
  ∃ new,
    trace run.2 = trace s ++ new
    ∧ omap multi_cell_text new
      `prefix_of` map latin1_replace [extracted_text; summary; sentiment]
    ∧ Forall (λ txt, Forall (λ c, (c <= 255)%N) txt) (omap multi_cell_text new)
    ∧ (run.1 = Ok true →
       omap multi_cell_text new
       = map latin1_replace [extracted_text; summary; sentiment])
    ∧ ∀ text,
        length (latin1_replace text) = length text
        ∧ (∀ i c, text !! i = Some c →
             latin1_replace text !! i
             = Some (if (c <=? 255)%N then c else 63%N))
        ∧ (Forall (λ c, (c <= 255)%N) text → latin1_replace text = text).
Proof.
  intros run.
  destruct (pdf_requests_split filename extracted_text summary sentiment)
    as (body & Hsplit & Hbody).
  destruct (wrapped_script_outcome _ _ body _ s
              (save_as_pdf_follows filename extracted_text summary sentiment)
              Hsplit Hbody)
    as (saved & new & Hres & Htr & Hpre & Htrue & _).
  exists new. split; [exact Htr|].
  assert (Hp : omap multi_cell_text new
               `prefix_of` map latin1_replace [extracted_text; summary; sentiment]).
  { apply (omap_prefix multi_cell_text) in Hpre. exact Hpre. }
  split; [done|]. split; [|split].
  - destruct Hp as [k Hk].
    assert (HF : Forall (λ txt, Forall (λ c, (c <= 255)%N) txt)
                   (map latin1_replace [extracted_text; summary; sentiment])).
    { repeat constructor; apply latin1_replace_range. }
    rewrite Hk in HF. by apply Forall_app in HF as [? _].
  - intros Hok. change (run.1 = Ok saved) in Hres. rewrite Hok in Hres.
    injection Hres as <-.
    destruct (Htrue eq_refl) as [-> _]. reflexivity.
  - intros text. split; [apply length_map|].
    split; [apply latin1_replace_lookup | apply latin1_replace_keeps].
Qed.

(** The paragraphs a returning run of the loop adds. *)
Lemma paragraph_requests_texts text :
  omap paragraph_text (paragraph_requests text)
  = map (λ line, if blank line then [] else line) (split_on newline text).
Proof.
  unfold paragraph_requests.
  induction (split_on newline text) as [|l ls IH]; [done|].
  cbn [map concat]. rewrite omap_app, IH. by destruct (blank l).
Qed.

(** X4: when the loop over the lines of a text goes through, it has
    added one paragraph per line, as many as the text has newlines
    plus one, with a whitespace-only line turned into an empty
    paragraph; if the text has no line of whitespace only, the
    paragraphs joined by newlines are the text. *)
Theorem docx_paragraphs_keep_text text s s' :
  add_paragraphs oracle text s = (Ok (), s') →
  ∃ new,
    trace s' = trace s ++ new
    ∧ omap paragraph_text new
      = map (λ line, if blank line then [] else line) (split_on newline text)
    ∧ length (omap paragraph_text new)
      = S (length (filter (λ c, c = newline) text))
    ∧ (Forall (λ line, blank line = true → line = []) (split_on newline text) →
       join [newline] (omap paragraph_text new) = text).
Proof.
  intros Hrun. pose proof (add_paragraphs_follows text s) as Hf.
  rewrite Hrun in Hf. destruct Hf as (_ & Htr & _).
  exists (paragraph_requests text). split; [done|].
  rewrite paragraph_requests_texts. split; [done|]. split.
  - by rewrite length_map, split_on_length.
  - intros Hlines. rewrite <- (join_split_on newline text) at 2. f_equal.
    induction Hlines as [|l ls Hl _ IH]; [done|]. cbn [map]. rewrite IH.
    destruct (blank l) eqn:Hb; [|done]. by rewrite Hl.
Qed.

(** Both writers return, and [True] only with the write as the last
    request. *)
Lemma save_as_pdf_run filename extracted_text summary sentiment s :
  ∃ saved s' new,
    save_as_pdf oracle filename extracted_text summary sentiment s
    = (Ok saved, s')
    ∧ trace s' = trace s ++ new
    ∧ (saved = true → ∃ body, new = body ++ [Rq (output filename (lit "F"))]).
Proof.
  destruct (pdf_requests_split filename extracted_text summary sentiment)
    as (body & Hsplit & Hbody).
  destruct (wrapped_script_outcome _ _ body _ s
              (save_as_pdf_follows filename extracted_text summary sentiment)
              Hsplit Hbody)
    as (saved & new & Hres & Htr & _ & Htrue & _).
  fold (save_as_pdf oracle filename extracted_text summary sentiment) in Hres, Htr.
  destruct (save_as_pdf oracle filename extracted_text summary sentiment s)
    as [r s'].
  cbn [fst snd] in Hres, Htr. subst r. exists saved, s', new.
  split; [done|]. split; [done|]. intros Hs.
  destruct (Htrue Hs) as [-> _]. by exists body.
Qed.

Lemma save_as_docx_run filename extracted_text summary sentiment s :
  ∃ saved s' new,
    save_as_docx oracle filename extracted_text summary sentiment s
    = (Ok saved, s')
    ∧ trace s' = trace s ++ new
    ∧ (saved = true → ∃ body, new = body ++ [Rq (doc_save filename)]).
Proof.
  destruct (docx_requests_split filename extracted_text summary sentiment)
    as (body & Hsplit & Hbody).
  destruct (wrapped_script_outcome _ _ body _ s
              (save_as_docx_follows filename extracted_text summary sentiment)
              Hsplit Hbody)
    as (saved & new & Hres & Htr & _ & Htrue & _).
  fold (save_as_docx oracle filename extracted_text summary sentiment) in Hres, Htr.
  destruct (save_as_docx oracle filename extracted_text summary sentiment s)
    as [r s'].
  cbn [fst snd] in Hres, Htr. subst r. exists saved, s', new.
  split; [done|]. split; [done|]. intros Hs.
  destruct (Htrue Hs) as [-> _]. by exists body.
Qed.

End ExporterFacts.

(** ** app.py: [allowed_file] *)

Section AllowedFile.

Import App PosixPath.

Context (lower : str → str).

Implicit Types (filename stem ext : str) (allowed : gset str).

Lemma allowed_file_ext stem ext allowed :
  contains_char dot ext = false →
  allowed_file lower (stem ++ [dot] ++ ext) allowed
  = bool_decide (lower ext ∈ allowed).
Proof.
  intros Hext. unfold allowed_file.
  assert (contains_char dot (stem ++ [dot] ++ ext) = true) as ->.
  { unfold contains_char. rewrite existsb_app. simpl.
    by rewrite orb_true_r. }
  cbn [app]. by rewrite (rsplit1_ext _ _ _ Hext).
Qed.

(** X5: a name without a dot is never allowed; for a name with a dot
    only what follows the last dot counts, lowered; and no name is
    allowed both as a PDF and as an image, so the choice of the
    extractor does not depend on the order of the two tests. *)
Theorem allowed_file_last_extension filename allowed :
  (contains_char dot filename = false →
   allowed_file lower filename allowed = false)
  ∧ (∀ stem ext,
       filename = stem ++ [dot] ++ ext → contains_char dot ext = false →
       allowed_file lower filename allowed
       = bool_decide (lower ext ∈ allowed))
  ∧ (allowed_file lower filename allowed = true →
     ∃ stem ext,
       filename = stem ++ [dot] ++ ext ∧ contains_char dot ext = false
       ∧ lower ext ∈ allowed)
  ∧ ¬ (allowed_file lower filename ALLOWED_EXTENSIONS_PDF = true
       ∧ allowed_file lower filename ALLOWED_EXTENSIONS_IMAGES = true).
Proof.
  split; [|split; [|split]].
  - intros H. unfold allowed_file. by rewrite H.
  - intros stem ext -> Hext. by apply allowed_file_ext.
  - intros H.
    destruct (contains_char dot filename) eqn:Hdot;
      [|by unfold allowed_file in H; rewrite Hdot in H].
    destruct (last_occurrence _ _ Hdot) as (stem & ext & -> & Hext).
    exists stem, ext. split; [done|]. split; [done|].
    change (stem ++ dot :: ext) with (stem ++ [dot] ++ ext) in H.
    rewrite (allowed_file_ext stem ext allowed Hext) in H.
    by apply bool_decide_eq_true in H.
  - intros [Hpdf Himg].
    destruct (contains_char dot filename) eqn:Hdot;
      [|by unfold allowed_file in Hpdf; rewrite Hdot in Hpdf].
    destruct (last_occurrence _ _ Hdot) as (stem & ext & -> & Hext).
    change (stem ++ dot :: ext) with (stem ++ [dot] ++ ext) in Hpdf, Himg.
    rewrite (allowed_file_ext stem ext _ Hext) in Hpdf.
    rewrite (allowed_file_ext stem ext _ Hext) in Himg.
    apply bool_decide_eq_true in Hpdf, Himg.
    unfold ALLOWED_EXTENSIONS_PDF in Hpdf.
    apply elem_of_singleton in Hpdf. rewrite Hpdf in Himg.
    unfold ALLOWED_EXTENSIONS_IMAGES in Himg.
    rewrite !elem_of_union, !elem_of_singleton in Himg.
    destruct Himg as [[[[[H|H]|H]|H]|H]|H]; vm_compute in H; discriminate H.
Qed.

(** X6: when [lower] is the ASCII lowering on ASCII strings, as
    [str.lower] is, the test does not see the case of an ASCII
    extension. *)
Theorem allowed_file_ignores_case stem ext allowed :
  (∀ t, Forall is_ascii t → lower t = ascii_lower t) →
  Forall is_ascii ext →
  contains_char dot ext = false →
  allowed_file lower (stem ++ [dot] ++ ext) allowed
  = allowed_file lower (stem ++ [dot] ++ ascii_lower ext) allowed
  ∧ allowed_file lower (stem ++ [dot] ++ ext) allowed
    = bool_decide (ascii_lower ext ∈ allowed).
Proof.
  intros Hlower Hascii Hext.
  rewrite (allowed_file_ext stem ext allowed Hext).
  rewrite (allowed_file_ext stem (ascii_lower ext) allowed).
  2:{ rewrite ascii_lower_no_char; [done|]. left. unfold dot. lia. }
  rewrite (Hlower ext Hascii).
  rewrite (Hlower (ascii_lower ext) (ascii_lower_ascii _ Hascii)).
  by rewrite ascii_lower_idemp.
Qed.

End AllowedFile.

Lemma allowed_file_ignores_case_witness :
  App.allowed_file ascii_lower
    (lit "Report.final" ++ [PosixPath.dot] ++ lit "PDF")
    App.ALLOWED_EXTENSIONS_PDF
  = true.
Proof.
  rewrite (proj2 (allowed_file_ignores_case ascii_lower (lit "Report.final")
                    (lit "PDF") App.ALLOWED_EXTENSIONS_PDF
                    (λ t _, eq_refl) ltac:(repeat constructor) eq_refl)).
  reflexivity.
Defined.

(** ** Paths *)

Section PathFacts.

Import PosixPath.

Example normpath_example :
  normpath (lit "/srv//app/./results/../results/a.pdf")
  = lit "/srv/app/results/a.pdf"
  ∧ normpath (lit "//x/..") = lit "//"
  ∧ normpath (lit "../a/..") = lit ".."
  ∧ normpath (lit "a/..") = lit ".".
Proof. repeat split; reflexivity. Qed.

Example join2_example :
  join2 (lit "results") (lit "a.pdf") = lit "results/a.pdf"
  ∧ join2 (lit "results") (lit "/etc/passwd") = lit "/etc/passwd"
  ∧ join2 (lit "results/") [] = lit "results/".
Proof. repeat split; reflexivity. Qed.

Example splitext_example :
  splitext (lit "a.tar.gz") = (lit "a.tar", lit ".gz")
  ∧ splitext (lit ".bashrc") = (lit ".bashrc", [])
  ∧ splitext (lit "dir.d/file") = (lit "dir.d/file", [])
  ∧ splitext (lit "x/..a.b") = (lit "x/..a", lit ".b").
Proof. repeat split; reflexivity. Qed.

Lemma no_dotdot_component (name : str) :
  contains name [dot; dot] = false →
  Forall (λ comp, comp ≠ [dot; dot]) (split_on sep name).
Proof.
  intros Hno. apply Forall_forall. intros comp Hin ->.
  destruct (split_on_infix _ _ _ Hin) as (a & b & ->).
  by rewrite contains_infix in Hno.
Qed.

Lemma normpath_fold_grows k (comps : list str) : ∀ acc,
  Forall (λ comp, comp ≠ [dot; dot]) comps →
  ∃ extra, fold_left (normpath_step k) comps acc = acc ++ extra.
Proof.
  induction comps as [|comp comps IH]; intros acc Hall.
  - exists []. by rewrite app_nil_r.
  - apply Forall_cons in Hall as [Hcomp Hall]. cbn [fold_left].
    assert (∃ e1, normpath_step k acc comp = acc ++ e1) as [e1 ->].
    { unfold normpath_step.
      destruct (is_nil comp || bool_decide (comp = [dot])).
      - exists []. by rewrite app_nil_r.
      - rewrite (bool_decide_eq_false_2 _ Hcomp). cbn. by eexists. }
    destruct (IH (acc ++ e1) Hall) as [extra ->].
    exists (e1 ++ extra). by rewrite app_assoc.
Qed.

Lemma split_on_results (P : str) :
  P = [] ∨ ends_with_char P sep = true →
  ∃ X, split_on sep (P ++ lit "results") = X ++ [lit "results"].
Proof.
  intros [-> | Hend].
  - by exists [].
  - unfold ends_with_char in Hend.
    destruct (last P) as [x|] eqn:Hlast; [|done].
    apply N.eqb_eq in Hend as ->.
    apply last_Some in Hlast as [Q ->].
    exists (split_on sep Q). rewrite <- app_assoc. cbn [app].
    by rewrite split_on_app.
Qed.

(** A name with no ".." in it, put under the results folder of any
    working directory, normalises to a path that extends the
    normalised folder. *)
Lemma normpath_inside (P name : str) :
  P = [] ∨ ends_with_char P sep = true →
  contains name [dot; dot] = false →
  ∃ tail,
    normpath (P ++ lit "results" ++ sep :: name)
    = normpath (P ++ lit "results") ++ tail.
Proof.
  intros HP Hno. set (R := lit "results").
  assert (Hlen : 7 ≤ length (P ++ R)) by (rewrite length_app; simpl; lia).
  assert (Hassoc : P ++ R ++ sep :: name = (P ++ R) ++ sep :: name)
    by by rewrite <- app_assoc.
  rewrite Hassoc. unfold normpath.
  assert (is_nil (P ++ R) = false) as ->
    by (destruct (P ++ R); [simpl in Hlen; lia | done]).
  assert (is_nil ((P ++ R) ++ sep :: name) = false) as ->
    by (destruct (P ++ R); [simpl in Hlen; lia | done]).
  assert (initial_slashes ((P ++ R) ++ sep :: name) = initial_slashes (P ++ R))
    as ->.
  { unfold initial_slashes.
    rewrite (startswith_app_long (P ++ R) (sep :: name) [sep])
      by (cbn [length]; lia).
    rewrite (startswith_app_long (P ++ R) (sep :: name) [sep; sep])
      by (cbn [length]; lia).
    by rewrite (startswith_app_long (P ++ R) (sep :: name) [sep; sep; sep])
      by (cbn [length]; lia). }
  cbv zeta. set (k := initial_slashes (P ++ R)).
  rewrite split_on_app, fold_left_app.
  destruct (split_on_results P HP) as [X HX]. fold R in HX. rewrite HX.
  rewrite fold_left_app. cbn [fold_left].
  set (Y := fold_left (normpath_step k) X []).
  assert (normpath_step k Y R = Y ++ [R]) as -> by reflexivity.
  destruct (normpath_fold_grows k (split_on sep name) (Y ++ [R])
              (no_dotdot_component name Hno)) as [extra ->].
  destruct (join_app_prefix [sep] (Y ++ [R]) extra ltac:(by destruct Y))
    as [tail ->].
  assert (Hne : is_nil (replicate k sep ++ join [sep] (Y ++ [R])) = false).
  { rewrite join_snoc. destruct (replicate k sep); [|done].
    destruct Y as [|y Y']; [done|]. cbn [app].
    by destruct (join [sep] (y :: Y')). }
  rewrite Hne.
  assert (is_nil (replicate k sep ++ join [sep] (Y ++ [R]) ++ tail) = false)
    as ->.
  { rewrite app_assoc.
    by destruct (replicate k sep ++ join [sep] (Y ++ [R])). }
  exists tail. by rewrite app_assoc.
Qed.

End PathFacts.

(** ** app.py: [download_file] *)

Section Download.

Import App PosixPath.

Context {W : Type} (oracle : oracle_t call W).

Implicit Types (s : state call W) (filename : str).

Lemma join2_results filename :
  startswith filename [sep] = false →
  join2 RESULT_FOLDER filename = lit "results" ++ sep :: filename.
Proof. intros H. unfold join2. by rewrite H. Qed.

Lemma join2_cwd (cwd rest : str) :
  ∃ P, (P = [] ∨ ends_with_char P sep = true)
       ∧ ∀ rest, join2 cwd (lit "results" ++ rest) = P ++ lit "results" ++ rest.
Proof.
  unfold join2.
  destruct (is_nil cwd || ends_with_char cwd sep) eqn:Hc.
  - exists cwd. split; [|done].
    apply orb_prop in Hc as [Hc|Hc]; [left; by destruct cwd | by right].
  - exists (cwd ++ [sep]). split.
    + right. unfold ends_with_char. by rewrite last_snoc, N.eqb_refl.
    + intros r. by rewrite <- app_assoc.
Qed.

(** A name that passes the first test resolves under the results
    folder, whatever the working directory is. *)
Lemma resolved_inside cwd filename :
  contains filename [dot; dot] = false →
  startswith filename [sep] = false →
  startswith (normpath (join2 cwd (join2 RESULT_FOLDER filename)))
    (normpath (join2 cwd RESULT_FOLDER)) = true.
Proof.
  intros Hdd Hsl. rewrite (join2_results filename Hsl).
  destruct (join2_cwd cwd []) as (P & HP & Hjoin).
  rewrite (Hjoin (sep :: filename)).
  pose proof (Hjoin []) as H0. rewrite !app_nil_r in H0.
  change RESULT_FOLDER with (lit "results"). rewrite H0.
  destruct (normpath_inside P filename HP Hdd) as [tail ->].
  apply startswith_app.
Qed.

Lemma download_file_checked filename s :
  contains filename [dot; dot] = false →
  startswith filename [sep] = false →
  download_file oracle filename s =
  match perform oracle os_getcwd s with
  | (Raised e, s1) => (Raised e, s1)
  | (Ok cwd1, s1) =>
      match perform oracle os_getcwd s1 with
      | (Raised e, s2) => (Raised e, s2)
      | (Ok cwd2, s2) =>
          if negb (startswith
                     (normpath (join2 cwd2 (join2 RESULT_FOLDER filename)))
                     (normpath (join2 cwd1 RESULT_FOLDER)))
          then (Ok (Aborted 403 (lit "Access forbidden.")), s2)
          else
            match perform oracle
                    (os_path_isfile (join2 RESULT_FOLDER filename)) s2 with
            | (Raised e, s3) => (Raised e, s3)
            | (Ok false, s3) => (Ok (Aborted 404 (lit "File not found.")), s3)
            | (Ok true, s3) =>
                match perform oracle
                        (send_file (join2 RESULT_FOLDER filename) true) s3 with
                | (Ok _, s4) =>
                    (Ok (Attachment (join2 RESULT_FOLDER filename)), s4)
                | (Raised _, s4) =>
                    (Ok (Aborted 500 (lit "Error serving file.")), s4)
                end
            end
      end
  end.
Proof.
  intros Hdd Hsl. unfold download_file.
  change (lit "..") with [dot; dot]. change (lit "/") with [sep].
  rewrite Hdd, Hsl. cbn [orb].
  unfold abspath.
  assert (startswith RESULT_FOLDER [sep] = false) as -> by reflexivity.
  assert (startswith (join2 RESULT_FOLDER filename) [sep] = false) as ->
    by by rewrite (join2_results filename Hsl).
  cbn [negb]. unfold mbind, M_bind, mret, M_ret, try_except.
  destruct (perform oracle os_getcwd s) as [[cwd1|?] s1]; [|done].
  destruct (perform oracle os_getcwd s1) as [[cwd2|?] s2]; [|done].
  destruct (negb _); [done|].
  destruct (perform oracle (os_path_isfile _) s2) as [[[]|?] s3]; [|done|done].
  by destruct (perform oracle (send_file _ _) s3) as [[?|?] s4].
Qed.

(** X7: the second test of [download_file] never fires.  While the
    working directory stays the same between the two calls of
    [abspath], no name is answered 403: a name with ".." in it or a
    leading slash is answered 400 before, and every other name
    resolves under the results folder. *)
Theorem download_never_forbidden filename s cwd s1 s2 :
  perform oracle os_getcwd s = (Ok cwd, s1) →
  perform oracle os_getcwd s1 = (Ok cwd, s2) →
  ∀ description,
    (download_file oracle filename s).1 ≠ Ok (Aborted 403 description).
Proof.
  intros H1 H2 description.
  destruct (contains filename [dot; dot]) eqn:Hdd.
  { unfold download_file. change (lit "..") with [dot; dot]. by rewrite Hdd. }
  destruct (startswith filename [sep]) eqn:Hsl.
  { unfold download_file. change (lit "/") with [sep].
    rewrite Hsl, orb_true_r. done. }
  rewrite (download_file_checked filename s Hdd Hsl), H1, H2.
  rewrite (resolved_inside cwd filename Hdd Hsl). cbn [negb].
  destruct (perform oracle (os_path_isfile _) s2) as [[[]|?] s3]; [|done|done].
  by destruct (perform oracle (send_file _ _) s3) as [[?|?] s4].
Qed.

(** X8: a name with ".." anywhere in it, or with a leading slash, is
    answered 400 and nothing is asked of the file system; and a file is
    sent only for a name without them, from the path "results/" plus
    the name, right after that path was found to be a file. *)
Theorem download_serves_results_only filename s :
  (contains filename (lit "..") = true ∨ startswith filename (lit "/") = true →
   download_file oracle filename s
   = (Ok (Aborted 400 (lit "Invalid filename.")), s))
  ∧ (∀ path s',
       download_file oracle filename s = (Ok (Attachment path), s') →
       contains filename (lit "..") = false
       ∧ startswith filename (lit "/") = false
       ∧ path = lit "results/" ++ filename
       ∧ ∃ pre,
           trace s' = pre ++ [Ev (os_path_isfile path); Ev (send_file path true)]).
Proof.
  split.
  - intros H. unfold download_file.
    by destruct H as [-> | ->]; rewrite ?orb_true_r.
  - intros path s' Hrun.
    destruct (contains filename (lit "..")) eqn:Hdd.
    { unfold download_file in Hrun. by rewrite Hdd in Hrun. }
    destruct (startswith filename (lit "/")) eqn:Hsl.
    { unfold download_file in Hrun. by rewrite Hsl, orb_true_r in Hrun. }
    split; [done|]. split; [done|].
    rewrite (download_file_checked filename s Hdd Hsl) in Hrun.
    destruct (perform oracle os_getcwd s) as [[cwd1|?] s1]; [|done].
    destruct (perform oracle os_getcwd s1) as [[cwd2|?] s2]; [|done].
    destruct (negb _); [done|].
    unfold perform in Hrun at 1.
    destruct (oracle _ (os_path_isfile _) (world s2)) as [[[]|?] w3];
      [|done|done].
    unfold perform in Hrun. cbn [world trace] in Hrun.
    destruct (oracle _ (send_file _ _) w3) as [[?|?] w4]; [|done].
    injection Hrun as <- <-. rewrite (join2_results filename Hsl).
    split; [done|]. cbn [trace]. eexists. by rewrite <- app_assoc.
Qed.

End Download.

Lemma download_never_forbidden_witness :
  App.download_file (sample_app_world []) (lit "report.pdf") start
  = (Ok (App.Attachment (lit "results/report.pdf")),
     State ()
       [Ev App.os_getcwd; Ev App.os_getcwd;
        Ev (App.os_path_isfile (lit "results/report.pdf"));
        Ev (App.send_file (lit "results/report.pdf") true)])
  ∧ (App.download_file (sample_app_world []) (lit "report.pdf") start).1
    ≠ Ok (App.Aborted 403 (lit "Access forbidden.")).
Proof.
  split; [reflexivity|].
  exact (download_never_forbidden (sample_app_world []) (lit "report.pdf")
           start (lit "/srv/app") _ _ eq_refl eq_refl (lit "Access forbidden.")).
Defined.

(** ** Programs that only make requests of one kind *)

Section OnlyFacts.

Context {call : Type → Type} {W : Type} (oracle : oracle_t call W).
Context (P : event call → Prop).

Lemma only_ret {A} (a : A) : only P (mret a : M call W A).
Proof. intros s. exists []. by rewrite app_nil_r. Qed.

Lemma only_raise {A} (e : exn) : only P (raise e : M call W A).
Proof. intros s. exists []. by rewrite app_nil_r. Qed.

Lemma only_perform {A} (c : call A) :
  P (Ev c) → only P (perform oracle c).
Proof.
  intros Hc s. unfold perform. destruct (oracle A c (world s)) as [r w'].
  exists [Ev c]. split; [done|]. by constructor.
Qed.

Lemma only_bind {A B} (m : M call W A) (k : A → M call W B) :
  only P m → (∀ a, only P (k a)) → only P (m ≫= k).
Proof.
  intros Hm Hk s. unfold mbind, M_bind.
  destruct (Hm s) as (new1 & Htr1 & H1). destruct (m s) as [[a|e] s1].
  - destruct (Hk a s1) as (new2 & Htr2 & H2). exists (new1 ++ new2).
    cbn [snd] in *. split; [by rewrite Htr2, Htr1, app_assoc|].
    by apply Forall_app.
  - by exists new1.
Qed.

Lemma only_try_except {A} (m : M call W A) (h : exn → M call W A) :
  only P m → (∀ e, only P (h e)) → only P (try_except m h).
Proof.
  intros Hm Hh s. unfold try_except.
  destruct (Hm s) as (new1 & Htr1 & H1). destruct (m s) as [[a|e] s1].
  - by exists new1.
  - destruct (Hh e s1) as (new2 & Htr2 & H2). exists (new1 ++ new2).
    cbn [snd] in *. split; [by rewrite Htr2, Htr1, app_assoc|].
    by apply Forall_app.
Qed.

Lemma returns_ret {A} (Q : A → Prop) (a : A) :
  Q a → returns Q (mret a : M call W A).
Proof. intros Ha s a' s' [= <- _]. done. Qed.

Lemma returns_bind {A B} (Q : B → Prop) (m : M call W A) (k : A → M call W B) :
  (∀ a, returns Q (k a)) → returns Q (m ≫= k).
Proof.
  intros Hk s b s'. unfold mbind, M_bind.
  destruct (m s) as [[a|e] s1]; [apply Hk | done].
Qed.

Lemma only_bind_returns {A B} (Q : A → Prop) (m : M call W A)
    (k : A → M call W B) :
  only P m → returns Q m → (∀ a, Q a → only P (k a)) → only P (m ≫= k).
Proof.
  intros Hm Hr Hk s. unfold mbind, M_bind.
  destruct (Hm s) as (n1 & Ht1 & HP1).
  destruct (m s) as [[a|e] s1] eqn:E; cbn [snd] in *.
  - destruct (Hk a (Hr s a s1 E) s1) as (n2 & Ht2 & HP2).
    exists (n1 ++ n2). split.
    + by rewrite Ht2, Ht1, app_assoc.
    + by apply Forall_app.
  - by exists n1.
Qed.

Lemma returns_perform {A} (c : call A) :
  returns (λ _, True) (perform oracle c).
Proof. done. Qed.

End OnlyFacts.

(** ** utils/summary.py: answers without a summary *)

Section UnusableAnswers.

Import Summary.

Context {W : Type} (oracle : oracle_t call W).

Lemma chunk_parts_no_text p (chunks : list str) :
  (∀ chunk w, ∃ r w',
     oracle _ (summarize p chunk SUMMARIZER_MAX_LENGTH
                 SUMMARIZER_MIN_LENGTH false) w = (Ok r, w')
     ∧ (r = [] ∨ ∃ first rest,
                   r = first :: rest ∧ first !! lit "summary_text" = None)) →
  ∀ k s,
    (chunk_parts oracle p (zip (seq k (length chunks)) chunks) s).1 = [].
Proof.
  intros Hall. induction chunks as [|c chunks IH]; intros k s; [done|].
  cbn [length seq zip zip_with chunk_parts].
  unfold perform at 1. destruct (Hall c (world s)) as (r & w' & -> & Hr).
  specialize (IH (S k) (State w' (trace s ++ [Ev (summarize p c
                SUMMARIZER_MAX_LENGTH SUMMARIZER_MIN_LENGTH false)]))).
  destruct (chunk_parts oracle p _ _) as [ps s2]. cbn [fst] in *.
  rewrite IH. by destruct Hr as [-> | (first & rest & -> & Hno)];
    cbn [chunk_part]; rewrite ?Hno.
Qed.

(** X15: an answer of the pipeline that is an empty list, or whose
    first entry has no "summary_text", adds nothing to the summary,
    not even a marker: when every chunk of a text that is not blank is
    answered so, the result is "Could not generate a summary for the
    provided text.". *)
Theorem answers_without_text_give_sentinel p text s :
  blank text = false →
  (∀ chunk w, ∃ r w',
     oracle _ (summarize p chunk 150 30 false) w = (Ok r, w')
     ∧ (r = [] ∨ ∃ first rest,
                   r = first :: rest ∧ first !! lit "summary_text" = None)) →
  (generate_summary oracle (Some p) text s).1
  = Ok (lit "Could not generate a summary for the provided text.").
Proof.
  intros Hnb Hall. rewrite generate_summary_eq, Hnb.
  destruct (char_chunks (normalized_text text)) as [|c cs] eqn:Hc.
  { by destruct (char_chunks_nonempty text Hnb). }
  cbv zeta. cbn [fst]. unfold enumerate.
  by rewrite (chunk_parts_no_text p (c :: cs) Hall 0 s).
Qed.

End UnusableAnswers.

Lemma answers_without_text_give_sentinel_witness :
  (Summary.generate_summary no_model_world (Some sample_pipeline)
     (lit "a long story") start).1
  = Ok (lit "Could not generate a summary for the provided text.").
Proof.
  apply (answers_without_text_give_sentinel no_model_world sample_pipeline
           (lit "a long story") start eq_refl).
  intros chunk w. exists [], w. split; [reflexivity | by left].
Defined.

(** ** What the utility modules return *)

Section Returned.

Context {W : Type}.

(** A summary is never empty and has no whitespace at either end. *)
Lemma generate_summary_stripped (o : oracle_t Summary.call W) summarizer text :
  returns (λ su, su ≠ [] ∧ strip su = su)
    (Summary.generate_summary o summarizer text).
Proof.
  intros s su s' Hrun. destruct summarizer as [p|].
  - rewrite generate_summary_eq in Hrun.
    destruct (blank text); [by injection Hrun as <- _|].
    destruct (Summary.char_chunks _); [by injection Hrun as <- _|].
    cbv zeta in Hrun.
    destruct (strip (join _ _)) as [|c r] eqn:Hst; [by injection Hrun as <- _|].
    injection Hrun as <- _. split; [done|]. rewrite <- Hst. apply strip_idemp.
  - by injection Hrun as <- _.
Qed.

(** A sentiment is one of four strings. *)
Lemma get_sentiment_labels (o : oracle_t Sentiment.call W) analyzer text :
  returns (λ se, se ∈ [lit "Positive"; lit "Negative"; lit "Neutral";
                       lit "Error in sentiment analysis"])
    (Sentiment.get_sentiment o analyzer text).
Proof.
  intros s se s' Hrun. rewrite !elem_of_cons.
  destruct (blank text) eqn:Hb.
  { unfold Sentiment.get_sentiment in Hrun. rewrite Hb in Hrun.
    injection Hrun as <- _. auto. }
  assert (Hc : ∀ score,
             Sentiment.classify score = lit "Positive"
             ∨ Sentiment.classify score = lit "Negative"
             ∨ Sentiment.classify score = lit "Neutral").
  { intros score. unfold Sentiment.classify.
    destruct (Sentiment.ge _ _); [by auto|].
    destruct (Sentiment.le _ _); by auto. }
  destruct analyzer as [a|].
  - rewrite (get_sentiment_both o a text s Hb) in Hrun.
    destruct (perform o _ s) as [[blob|?] s1];
      [|injection Hrun as <- _; by auto 10].
    destruct (perform o _ s1) as [[scores|?] s2];
      [|injection Hrun as <- _; by auto 10].
    destruct (scores !! _) as [vader|]; injection Hrun as <- _; [|by auto 10].
    destruct (Hc (Sentiment.average blob vader)) as [-> | [-> | ->]]; auto 10.
  - rewrite (get_sentiment_primary_only o text s Hb) in Hrun.
    destruct (perform o _ s) as [[blob|?] s1];
      injection Hrun as <- _; [|by auto 10].
    destruct (Hc blob) as [-> | [-> | ->]]; auto 10.
Qed.

End Returned.

(** ** app.py: [index] *)

Section Index.

Import App PosixPath.

Context (lower : str → str) (secure_filename : str → str).
Context {W : Type} (oracle : oracle_t call W).

Implicit Types (s : state call W) (filename path name : str).

(** A program of a utility module, run within the application, makes
    requests of that module only. *)
Lemma only_within (P : event call → Prop) {sub : Type → Type}
    (inj : ∀ A, sub A → call A) {A} (m : oracle_t sub W → M sub W A) :
  (∀ B (c : sub B), P (Ev (inj B c))) → only P (within oracle inj m).
Proof.
  intros HP s. unfold within.
  destruct (m _ _) as [r s']. eexists. split; [done|].
  apply Forall_fmap, Forall_forall. intros [B c] _. apply HP.
Qed.

Lemma only_remove_upload (P : event call → Prop) path :
  P (Ev (os_path_exists path)) → P (Ev (os_remove path)) →
  only P (remove_upload oracle path).
Proof.
  intros H1 H2. unfold remove_upload. apply only_try_except.
  - apply only_bind; [by apply only_perform|].
    intros []; [by apply only_perform | apply only_ret].
  - intros e. destruct (is_OSError e); [apply only_ret | apply only_raise].
Qed.

(** How a POST with a named file that is saved reaches the processing
    of the upload. *)
Lemma index_saved summarizer analyzer s s1 s2 s3 s4 name :
  perform oracle request_method s = (Ok (lit "POST"), s1) →
  perform oracle (request_files_contains (lit "file")) s1 = (Ok true, s2) →
  perform oracle (request_files_filename (lit "file")) s2 = (Ok (Some name), s3) →
  name ≠ [] →
  perform oracle
    (file_save (lit "file") (join2 UPLOAD_FOLDER (secure_filename name))) s3
    = (Ok (), s4) →
  index lower secure_filename oracle summarizer analyzer s
  = process_upload lower secure_filename oracle summarizer analyzer
      (secure_filename name) (join2 UPLOAD_FOLDER (secure_filename name)) s4.
Proof.
  intros H1 H2 H3 Hname H4. unfold index.
  unfold mbind, M_bind at 1. rewrite H1.
  rewrite bool_decide_eq_true_2 by done.
  unfold mbind, M_bind at 1. rewrite H2. cbn [negb].
  unfold mbind, M_bind at 1. rewrite H3.
  rewrite bool_decide_eq_false_2 by (intros [= ->]; done).
  destruct name as [|c name]; [done|].
  unfold mbind, M_bind at 1. unfold try_except.
  unfold mbind, M_bind at 1. rewrite H4. done.
Qed.

(** What is done with an upload of an unsupported type. *)
Lemma process_unsupported summarizer analyzer filename path :
  allowed_file lower filename ALLOWED_EXTENSIONS_PDF = false →
  allowed_file lower filename ALLOWED_EXTENSIONS_IMAGES = false →
  ∀ s,
    process_upload lower secure_filename oracle summarizer analyzer filename
      path s
    = (_ ← perform oracle
             (flash (lit "Unsupported file type. Please upload a PDF or an image (PNG, JPG, GIF, BMP, TIFF).")
                (lit "error"));
       abandon_upload oracle path) s.
Proof.
  intros Hpdf Himg s. unfold process_upload. rewrite Hpdf, Himg.
  unfold mbind, M_bind, mret, M_ret.
  by destruct (perform oracle (flash _ _) s) as [[[]|?] ?].
Qed.

Lemma only_export_result (P : event call → Prop) convert_format filename
    text_content summary_content sentiment_content :
  (∀ B (c : Exporter.call B), P (Ev (export c))) →
  (∀ message category, P (Ev (flash message category))) →
  only P (export_result secure_filename oracle convert_format filename
            text_content summary_content sentiment_content).
Proof.
  intros Hexport Hflash. unfold export_result.
  destruct convert_format as [fmt|]; [|apply only_ret].
  destruct (negb (is_nil fmt) && negb (bool_decide (fmt = lit "none")));
    [|apply only_ret].
  destruct (bool_decide (fmt = lit "pdf")).
  { apply only_bind; [by apply only_within|].
    intros []; [apply only_ret|].
    apply only_bind; [by apply only_perform | intros; apply only_ret]. }
  destruct (bool_decide (fmt = lit "docx")); [|apply only_ret].
  apply only_bind; [by apply only_within|].
  intros []; [apply only_ret|].
  apply only_bind; [by apply only_perform | intros; apply only_ret].
Qed.

(** X9: a POST whose file is saved under a name that is neither a PDF
    nor an image name is never analysed: after the save the request
    flashes the error, looks for the upload, removes it if it is
    there, and redirects to the index; nothing is asked of OCR, of the
    summariser, of the sentiment scorers or of the exporter. *)
Theorem unsupported_upload_is_not_analysed summarizer analyzer s s1 s2 s3 s4
    name :
  let filename := secure_filename name in
  let path := join2 UPLOAD_FOLDER filename in
  perform oracle request_method s = (Ok (lit "POST"), s1) →
  perform oracle (request_files_contains (lit "file")) s1 = (Ok true, s2) →
  perform oracle (request_files_filename (lit "file")) s2 = (Ok (Some name), s3) →
  name ≠ [] →
  perform oracle (file_save (lit "file") path) s3 = (Ok (), s4) →
  allowed_file lower filename ALLOWED_EXTENSIONS_PDF = false →
  allowed_file lower filename ALLOWED_EXTENSIONS_IMAGES = false →
  let run := index lower secure_filename oracle summarizer analyzer s in
  ∃ rest,
    trace run.2
    = trace s4
      ++ Ev (flash (lit "Unsupported file type. Please upload a PDF or an image (PNG, JPG, GIF, BMP, TIFF).")
               (lit "error")) :: rest
    ∧ (rest `prefix_of`
         [Ev (os_path_exists path); Ev (os_remove path);
          Ev (url_for (lit "index"))]
       ∨ rest = [Ev (os_path_exists path); Ev (url_for (lit "index"))])
    ∧ Forall (λ ev, is_analysis ev = false) rest
    ∧ ∀ r, run.1 = Ok r → ∃ location, r = Redirect location.
Proof.
  intros filename path H1 H2 H3 Hname H4 Hpdf Himg run. unfold run.
  rewrite (index_saved summarizer analyzer s s1 s2 s3 s4 name H1 H2 H3 Hname H4).
  fold filename. fold path.
  rewrite (process_unsupported summarizer analyzer filename path Hpdf Himg).
  unfold abandon_upload, remove_upload. unfold_run.
  repeat (first
    [ progress (ask oracle)
    | match goal with |- context [is_OSError ?e] => destruct (is_OSError e) end
    | match goal with b : bool |- _ => destruct b end ];
    cbn [fst snd trace negb]);
  rewrite <- ?app_assoc; (eexists; split; [reflexivity|]);
  (split;
   [first [ by right | left; by (eexists; reflexivity) ] |]);
  (split; [by repeat constructor|]); intros r Hr; simplify_eq; eauto.
Qed.

Lemma only_abandon_upload (P : event call → Prop) path :
  P (Ev (os_path_exists path)) → P (Ev (os_remove path)) →
  P (Ev (url_for (lit "index"))) →
  only P (abandon_upload oracle path).
Proof.
  intros H1 H2 H3. unfold abandon_upload.
  apply only_bind; [by apply only_remove_upload|]. intros _.
  apply only_bind; [by apply only_perform | intros; apply only_ret].
Qed.

Lemma returns_abandon_upload path :
  returns (λ r, ∃ location, r = Redirect location) (abandon_upload oracle path).
Proof.
  unfold abandon_upload. apply returns_bind. intros _.
  apply returns_bind. intros location. apply returns_ret. eauto.
Qed.

Lemma only_score_and_present (P : event call → Prop) analyzer filename
    text_content summary_content :
  (∀ B (c : Sentiment.call B), P (Ev (sentiment c))) →
  (∀ B (c : Exporter.call B), P (Ev (export c))) →
  (∀ message category, P (Ev (flash message category))) →
  P (Ev (request_form_get (lit "convert"))) →
  (∀ se dl, P (Ev (render_result text_content summary_content se dl filename))) →
  only P (score_and_present secure_filename oracle analyzer filename
            text_content summary_content).
Proof.
  intros Hse Hex Hfl Hform Hrender. unfold score_and_present.
  apply only_bind; [by apply only_within|]. intros se.
  apply only_bind; [by apply only_perform|]. intros fmt.
  apply only_bind; [by apply only_export_result|]. intros dl.
  apply only_bind; [by apply only_perform|]. intros _.
  apply only_bind; [by apply only_perform | intros; apply only_ret].
Qed.

Lemma returns_score_and_present analyzer filename text_content summary_content :
  returns (λ r, ∃ body, r = Page body)
    (score_and_present secure_filename oracle analyzer filename text_content
       summary_content).
Proof.
  unfold score_and_present. do 5 (apply returns_bind; intros ?).
  apply returns_ret. eauto.
Qed.

(** The summary of a text of one chunk asks for that chunk. *)
Lemma within_summary_one_chunk p text chunk s :
  blank text = false →
  Summary.char_chunks (Summary.normalized_text text) = [chunk] →
  ∃ su w2,
    within oracle (@summary)
      (λ o, Summary.generate_summary o (Some p) text) s
    = (Ok su,
       State w2
         (trace s ++ [Ev (summary (Summary.summarize p chunk 150 30 false))])).
Proof.
  intros Hnb Hchunks. unfold within.
  rewrite generate_summary_eq, Hnb, Hchunks.
  cbn [enumerate length seq zip zip_with Summary.chunk_parts].
  unfold perform. cbn [world trace].
  destruct (oracle _ (summary (Summary.summarize p chunk _ _ false)) (world s))
    as [r w2].
  cbn [fst snd trace map app projT2]. rewrite app_nil_r. eauto.
Qed.

(** How an extracted text is dealt with. *)
Lemma process_extracted summarizer analyzer filename path s text s1 :
  (allowed_file lower filename ALLOWED_EXTENSIONS_PDF = true
   ∧ within oracle (@ocr) (λ o, Ocr.extract_text_from_pdf o path) s
     = (Ok text, s1))
  ∨ (allowed_file lower filename ALLOWED_EXTENSIONS_PDF = false
     ∧ allowed_file lower filename ALLOWED_EXTENSIONS_IMAGES = true
     ∧ within oracle (@ocr) (λ o, Ocr.extract_text_from_image o path) s
       = (Ok text, s1)) →
  process_upload lower secure_filename oracle summarizer analyzer filename path s
  = if blank text then
      (_ ← perform oracle
             (flash (lit "Could not extract text from '" ++ filename
                       ++ lit "'. The file might be empty, corrupted, or an image-only PDF that could not be OCR'd.")
                (lit "warning"));
       abandon_upload oracle path) s1
    else analyse_text secure_filename oracle summarizer analyzer filename text s1.
Proof.
  intros [[Hpdf Hrun] | (Hpdf & Himg & Hrun)]; unfold process_upload;
    rewrite Hpdf, ?Himg; unfold mbind, M_bind at 1;
    unfold mbind, M_bind at 1; rewrite Hrun; unfold mret, M_ret;
    by destruct (blank text).
Qed.

Lemma within_pdf_unopenable path s e w1 :
  oracle _ (ocr (Ocr.fitz_open path)) (world s) = (Raised e, w1) →
  within oracle (@ocr) (λ o, Ocr.extract_text_from_pdf o path) s
  = (Ok Ocr.PDF_FAILED, State w1 (trace s ++ [Ev (ocr (Ocr.fitz_open path))])).
Proof.
  intros H. unfold within. rewrite extract_text_from_pdf_eq.
  unfold perform at 1. cbn [world trace]. by rewrite H.
Qed.

(** X10: an upload with a PDF name that PyMuPDF cannot open is not
    reported as a failure.  The text becomes "Error extracting text
    from PDF.", which is not blank, so it is sent to the summariser
    as the only chunk, the upload is not removed, the result page, if
    one is rendered, shows that text, and a run that returns returns a
    page, not a redirect. *)
Theorem unopenable_pdf_is_analysed p analyzer filename path s e w1 :
  allowed_file lower filename ALLOWED_EXTENSIONS_PDF = true →
  oracle _ (ocr (Ocr.fitz_open path)) (world s) = (Raised e, w1) →
  let run :=
    process_upload lower secure_filename oracle (Some p) analyzer filename
      path s in
  ∃ rest,
    trace run.2
    = trace s
      ++ [Ev (ocr (Ocr.fitz_open path));
          Ev (summary (Summary.summarize p (lit "Error extracting text from PDF.")
                         150 30 false))]
      ++ rest
    ∧ Forall (λ ev, is_removal ev = false) rest
    ∧ Forall (λ ev, rendered_text ev = None
                    ∨ rendered_text ev
                      = Some (lit "Error extracting text from PDF.")) rest
    ∧ ∀ r, run.1 = Ok r → ∃ body, r = Page body.
Proof.
  intros Hpdf Hopen run. unfold run.
  rewrite (process_extracted (Some p) analyzer filename path s Ocr.PDF_FAILED _
             (or_introl (conj Hpdf (within_pdf_unopenable path s e w1 Hopen)))).
  assert (blank Ocr.PDF_FAILED = false) as -> by reflexivity.
  destruct (within_summary_one_chunk p Ocr.PDF_FAILED Ocr.PDF_FAILED
              (State w1 (trace s ++ [Ev (ocr (Ocr.fitz_open path))]))
              eq_refl ltac:(vm_compute; reflexivity)) as (su & w2 & Hsum).
  unfold analyse_text, mbind, M_bind. rewrite Hsum.
  set (P := λ ev : event call,
         is_removal ev = false
         ∧ (rendered_text ev = None
            ∨ rendered_text ev = Some (lit "Error extracting text from PDF."))).
  destruct (only_score_and_present P analyzer filename Ocr.PDF_FAILED su
              ltac:(by intros; split; [|left])
              ltac:(by intros; split; [|left])
              ltac:(by intros; split; [|left])
              ltac:(by split; [|left])
              ltac:(by intros; split; [|right])
              (State w2 ((trace s ++ [Ev (ocr (Ocr.fitz_open path))])
                           ++ [Ev (summary (Summary.summarize p Ocr.PDF_FAILED
                                              150 30 false))])))
    as (rest & Htr & HP).
  cbn [trace] in *. exists rest. split; [|split; [|split]].
  - rewrite Htr. by rewrite <- !app_assoc.
  - eapply Forall_impl; [exact HP|]. by intros ev [? _].
  - eapply Forall_impl; [exact HP|]. by intros ev [_ ?].
  - intros r Hr.
    destruct (score_and_present _ _ _ _ _ _ _) as [r' s'] eqn:Hrun.
    cbn [fst] in Hr. subst r'.
    exact (returns_score_and_present analyzer filename Ocr.PDF_FAILED su _ _ _
             Hrun).
Qed.

(** X11: when the extracted text is empty or whitespace only, the
    request flashes the warning, gives the upload up and redirects to
    the index: nothing is asked of the summariser, of the sentiment
    scorers or of the exporter, and no result page is rendered. *)
Theorem blank_extraction_is_not_analysed summarizer analyzer filename path s
    text s1 :
  (allowed_file lower filename ALLOWED_EXTENSIONS_PDF = true
   ∧ within oracle (@ocr) (λ o, Ocr.extract_text_from_pdf o path) s
     = (Ok text, s1))
  ∨ (allowed_file lower filename ALLOWED_EXTENSIONS_PDF = false
     ∧ allowed_file lower filename ALLOWED_EXTENSIONS_IMAGES = true
     ∧ within oracle (@ocr) (λ o, Ocr.extract_text_from_image o path) s
       = (Ok text, s1)) →
  Forall (λ c, isspace c = true) text →
  let run :=
    process_upload lower secure_filename oracle summarizer analyzer filename
      path s in
  ∃ rest,
    trace run.2
    = trace s1
      ++ [Ev (flash (lit "Could not extract text from '" ++ filename
                       ++ lit "'. The file might be empty, corrupted, or an image-only PDF that could not be OCR'd.")
                (lit "warning"))]
      ++ rest
    ∧ Forall (λ ev, ev ∈ [Ev (os_path_exists path); Ev (os_remove path);
                          Ev (url_for (lit "index"))]) rest
    ∧ ∀ r, run.1 = Ok r → ∃ location, r = Redirect location.
Proof.
  intros Hext Hblank%blank_spec run. unfold run.
  rewrite (process_extracted summarizer analyzer filename path s text s1 Hext).
  rewrite Hblank. unfold mbind, M_bind. unfold perform at 1 2.
  destruct (oracle _ (flash _ _) (world s1)) as [[[]|e] w2]; cbn [fst snd].
  - set (P := λ ev : event call,
           ev ∈ [Ev (os_path_exists path); Ev (os_remove path);
                 Ev (url_for (lit "index"))]).
    assert (P (Ev (os_path_exists path))) as HP1
      by (unfold P; rewrite !elem_of_cons; auto).
    assert (P (Ev (os_remove path))) as HP2
      by (unfold P; rewrite !elem_of_cons; auto).
    assert (P (Ev (url_for (lit "index")))) as HP3
      by (unfold P; rewrite !elem_of_cons; auto).
    match goal with
    | |- context [abandon_upload oracle path ?st] =>
        destruct (only_abandon_upload P path HP1 HP2 HP3 st)
          as (rest & Htr & HP)
    end.
    cbn [trace] in Htr. exists rest. split; [|split].
    + rewrite Htr. by rewrite <- app_assoc.
    + exact HP.
    + intros r Hr.
      destruct (abandon_upload _ _ _) as [r' s'] eqn:Hrun.
      cbn [fst] in Hr. subst r'.
      exact (returns_abandon_upload path _ _ _ Hrun).
  - exists []. cbn [trace]. split; [done|]. split; [done|]. done.
Qed.

Lemma returns_within {sub : Type → Type} (inj : ∀ A, sub A → call A) {A}
    (m : oracle_t sub W → M sub W A) (Q : A → Prop) :
  (∀ o, returns Q (m o)) → returns Q (within oracle inj m).
Proof.
  intros H s a s' Hrun. unfold within in Hrun.
  destruct (m _ _) as [r s1] eqn:E. injection Hrun as -> _.
  exact (H _ _ _ _ E).
Qed.

Lemma returns_export_result convert_format filename text_content
    summary_content sentiment_content :
  returns (λ dl, dl ∈ [None;
                       Some (secure_filename (splitext filename).1 ++ lit ".pdf");
                       Some (secure_filename (splitext filename).1 ++ lit ".docx")])
    (export_result secure_filename oracle convert_format filename text_content
       summary_content sentiment_content).
Proof.
  intros s dl s' Hrun. rewrite !elem_of_cons. unfold export_result in Hrun.
  destruct convert_format as [fmt|]; [|injection Hrun as <- _; by auto].
  destruct (negb (is_nil fmt) && negb (bool_decide (fmt = lit "none")));
    [|injection Hrun as <- _; by auto].
  unfold mbind, M_bind, mret, M_ret in Hrun.
  destruct (bool_decide (fmt = lit "pdf")).
  { destruct (within _ _ _ s) as [[[]|?] s1]; [by injection Hrun as <- _; auto| |done].
    destruct (perform _ _ s1) as [[?|?] s2]; [|done].
    injection Hrun as <- _. by auto. }
  destruct (bool_decide (fmt = lit "docx")); [|injection Hrun as <- _; by auto].
  destruct (within _ _ _ s) as [[[]|?] s1]; [by injection Hrun as <- _; auto| |done].
  destruct (perform _ _ s1) as [[?|?] s2]; [|done].
  injection Hrun as <- _. by auto.
Qed.

(** What the pages rendered for an upload show. *)
Lemma process_upload_pages summarizer analyzer filename path :
  only (λ ev,
          ∀ t su se dl fn,
            rendered ev = Some (t, su, se, dl, fn) →
            blank t = false ∧ fn = filename
            ∧ su ≠ [] ∧ strip su = su
            ∧ se ∈ [lit "Positive"; lit "Negative"; lit "Neutral";
                    lit "Error in sentiment analysis"]
            ∧ dl ∈ [None;
                    Some (secure_filename (splitext filename).1 ++ lit ".pdf");
                    Some (secure_filename (splitext filename).1 ++ lit ".docx")])
    (process_upload lower secure_filename oracle summarizer analyzer filename
       path).
Proof.
  set (P := λ ev : event call, ∀ t su se dl fn, rendered ev = Some _ → _).
  assert (Hocr : ∀ B (c : Ocr.call B), P (Ev (ocr c))) by (by intros B c ?).
  assert (Hsum : ∀ B (c : Summary.call B), P (Ev (summary c)))
    by (by intros B c ?).
  assert (Hsen : ∀ B (c : Sentiment.call B), P (Ev (sentiment c)))
    by (by intros B c ?).
  assert (Hexp : ∀ B (c : Exporter.call B), P (Ev (export c)))
    by (by intros B c ?).
  assert (Hfl : ∀ message category, P (Ev (flash message category)))
    by (by intros ?? ?).
  assert (Hab : only P (abandon_upload oracle path)).
  { apply only_abandon_upload; by intros ?. }
  unfold process_upload. apply only_bind.
  { destruct (allowed_file _ _ _).
    { apply only_bind; [by apply only_within | intros; apply only_ret]. }
    destruct (allowed_file _ _ _).
    { apply only_bind; [by apply only_within | intros; apply only_ret]. }
    apply only_bind; [by apply only_perform | intros; apply only_ret]. }
  intros [text fte]. destruct fte; [exact Hab|].
  destruct (blank text) eqn:Hnb; cbn [andb negb].
  { apply only_bind; [by apply only_perform | intros; exact Hab]. }
  unfold analyse_text.
  eapply only_bind_returns;
    [by apply only_within
    |apply returns_within; intros o; apply generate_summary_stripped|].
  intros su [Hsu1 Hsu2]. unfold score_and_present.
  eapply only_bind_returns;
    [by apply only_within
    |apply returns_within; intros o; apply get_sentiment_labels|].
  intros se Hse.
  apply only_bind; [apply only_perform; by intros ?|]. intros fmt.
  eapply only_bind_returns;
    [by apply only_export_result | apply returns_export_result|].
  intros dl Hdl.
  apply only_bind; [by apply only_perform|]. intros _.
  apply only_bind; [|intros; apply only_ret].
  apply only_perform. intros t su' se' dl' fn [= <- <- <- <- <-]. done.
Qed.

(** X13: whatever the engines answer, a result page rendered for an
    upload shows a text that is not blank, the name of the upload, a
    summary that is not empty and has no whitespace at either end, one
    of the four sentiment strings, and either no download or the
    secured stem of the name with ".pdf" or ".docx". *)
Theorem result_page_contents summarizer analyzer filename path s :
  let run :=
    process_upload lower secure_filename oracle summarizer analyzer filename
      path s in
  ∃ new,
    trace run.2 = trace s ++ new
    ∧ Forall (λ ev,
        ∀ t su se dl fn,
          rendered ev = Some (t, su, se, dl, fn) →
          blank t = false ∧ fn = filename
          ∧ su ≠ [] ∧ strip su = su
          ∧ se ∈ [lit "Positive"; lit "Negative"; lit "Neutral";
                  lit "Error in sentiment analysis"]
          ∧ dl ∈ [None;
                  Some (secure_filename (splitext filename).1 ++ lit ".pdf");
                  Some (secure_filename (splitext filename).1 ++ lit ".docx")])
        new.
Proof. exact (process_upload_pages summarizer analyzer filename path s). Qed.

(** A branch that leaves [index] before anything is saved. *)
Ltac early_exit oracle :=
  unfold_run; repeat (ask oracle); rewrite <- ?app_assoc;
  eexists; (split; [reflexivity|]);
  (split; [left; by repeat constructor|]);
  first [by intros ? ? [=] | by intros ? ? [= <- <-]].

(** X14: nothing is analysed before the upload is saved.  A request
    makes no request to OCR, to the summariser, to the sentiment
    scorers or to the exporter, unless it is a POST with a named file
    whose save under the uploads folder, by its secured name, went
    through; a GET only renders the index. *)
Theorem analysis_needs_saved_upload summarizer analyzer s :
  let run := index lower secure_filename oracle summarizer analyzer s in
  ∃ new,
    trace run.2 = trace s ++ new
    ∧ (Forall (λ ev, is_analysis ev = false) new
       ∨ ∃ name rest,
           name ≠ []
           ∧ new = [Ev request_method;
                    Ev (request_files_contains (lit "file"));
                    Ev (request_files_filename (lit "file"));
                    Ev (file_save (lit "file")
                          (join2 UPLOAD_FOLDER (secure_filename name)))]
                   ++ rest
           ∧ answered oracle
               (Ev (file_save (lit "file")
                      (join2 UPLOAD_FOLDER (secure_filename name)))))
    ∧ (∀ method w1,
         oracle _ request_method (world s) = (Ok method, w1) →
         method ≠ lit "POST" →
         new = [Ev request_method; Ev (render_index MAX_FILE_SIZE_MB)]).
Proof.
  intros run. unfold run, index.
  unfold mbind, M_bind at 1. unfold perform at 1.
  destruct (oracle _ request_method (world s)) as [[method|e] w1];
    cbn [fst snd trace world]; [|early_exit oracle].
  case_bool_decide as Hpost; [subst method | early_exit oracle].
  unfold mbind, M_bind at 1. unfold perform at 1. cbn [world trace].
  destruct (oracle _ (request_files_contains _) w1) as [[[]|e] w2];
    cbn [negb]; [|early_exit oracle..].
  unfold mbind, M_bind at 1. unfold perform at 1. cbn [world trace].
  destruct (oracle _ (request_files_filename _) w2) as [[file_filename|e] w3];
    [|early_exit oracle].
  case_bool_decide as Hempty; [early_exit oracle|].
  destruct file_filename as [[|c name]|]; [early_exit oracle| |early_exit oracle].
  unfold mbind, M_bind at 1. unfold try_except.
  unfold mbind, M_bind at 1. unfold perform at 1. cbn [world trace].
  destruct (oracle _ (file_save _ _) w3) as [[[]|e] w4] eqn:Hsave;
    [|early_exit oracle].
  unfold mret, M_ret.
  match goal with
  | |- context [process_upload _ _ _ _ _ ?fn ?p ?st] =>
      destruct (process_upload_pages summarizer analyzer fn p st)
        as (rest & Htr & _)
  end.
  rewrite Htr. cbn [trace]. rewrite <- !app_assoc. cbn [app].
  eexists. split; [reflexivity|]. split; [|by intros ? ? [= <- <-]].
  right. exists (c :: name), rest. split; [done|]. split; [done|].
  by exists w3, (), w4.
Qed.

(** The writers run by the application. *)
Lemma within_save_as_pdf path text_content summary_content sentiment_content s :
  ∃ saved s' new,
    within oracle (@export)
      (λ o, Exporter.save_as_pdf o path text_content summary_content
              sentiment_content) s
    = (Ok saved, s')
    ∧ trace s' = trace s ++ new
    ∧ (saved = true →
       ∃ pre, new = pre ++ [Ev (export (Exporter.output path (lit "F")))]).
Proof.
  unfold within.
  destruct (save_as_pdf_run (λ B c, oracle B (export c)) path text_content
              summary_content sentiment_content (State (world s) []))
    as (saved & s' & new & -> & Htr & Htrue).
  cbn [trace app] in Htr. rewrite Htr. eexists _, _, _.
  split; [done|]. split; [done|]. intros Hs.
  destruct (Htrue Hs) as [body ->]. rewrite map_app. by eexists.
Qed.

Lemma within_save_as_docx path text_content summary_content sentiment_content s :
  ∃ saved s' new,
    within oracle (@export)
      (λ o, Exporter.save_as_docx o path text_content summary_content
              sentiment_content) s
    = (Ok saved, s')
    ∧ trace s' = trace s ++ new
    ∧ (saved = true →
       ∃ pre, new = pre ++ [Ev (export (Exporter.doc_save path))]).
Proof.
  unfold within.
  destruct (save_as_docx_run (λ B c, oracle B (export c)) path text_content
              summary_content sentiment_content (State (world s) []))
    as (saved & s' & new & -> & Htr & Htrue).
  cbn [trace app] in Htr. rewrite Htr. eexists _, _, _.
  split; [done|]. split; [done|]. intros Hs.
  destruct (Htrue Hs) as [body ->]. rewrite map_app. by eexists.
Qed.

(** X12: a download is offered only for a file that was written.  The
    export step returns a name only when the format asked for is "pdf"
    or "docx"; the name is the secured stem of the upload's name with
    that extension, and the last request made is the writer's write to
    that name under the results folder.  For any other format nothing
    is requested and no name is returned; and no exception of the
    document libraries escapes: a run that raises raised on its
    [flash]. *)
Theorem offered_download_was_written convert_format filename text_content
    summary_content sentiment_content s :
  let run :=
    export_result secure_filename oracle convert_format filename text_content
      summary_content sentiment_content s in
  let stem := secure_filename (splitext filename).1 in
  (∀ name, run.1 = Ok (Some name) →
     ∃ pre,
       (convert_format = Some (lit "pdf") ∧ name = stem ++ lit ".pdf"
        ∧ trace run.2
          = trace s ++ pre
            ++ [Ev (export (Exporter.output (join2 RESULT_FOLDER name)
                              (lit "F")))])
       ∨ (convert_format = Some (lit "docx") ∧ name = stem ++ lit ".docx"
          ∧ trace run.2
            = trace s ++ pre
              ++ [Ev (export (Exporter.doc_save (join2 RESULT_FOLDER name)))]))
  ∧ (convert_format ≠ Some (lit "pdf") → convert_format ≠ Some (lit "docx") →
     run = (Ok None, s))
  ∧ (∀ e, run.1 = Raised e →
       ∃ pre message,
         trace run.2 = trace s ++ pre ++ [Ev (flash message (lit "error"))]).
Proof.
  intros run stem. unfold run, export_result. fold stem.
  destruct convert_format as [fmt|]; [|by split_and!].
  destruct (negb (is_nil fmt) && negb (bool_decide (fmt = lit "none")));
    [|by split_and!; [| |]; try done].
  case_bool_decide as Hpdf.
  { subst fmt. unfold mbind, M_bind.
    destruct (within_save_as_pdf (join2 RESULT_FOLDER (stem ++ lit ".pdf"))
                text_content summary_content sentiment_content s)
      as (saved & s' & new & -> & Htr & Htrue).
    destruct saved.
    - destruct (Htrue eq_refl) as [pre ->]. unfold mret, M_ret.
      cbn [fst snd]. split_and!.
      + intros name [= <-]. exists pre. left. by rewrite Htr.
      + done.
      + done.
    - unfold perform, mret, M_ret.
      destruct (oracle _ (flash _ _) (world s')) as [[[]|e] w2];
        cbn [fst snd trace]; split_and!; try done.
      intros e' _. rewrite Htr, <- app_assoc. by eexists _, _. }
  case_bool_decide as Hdocx.
  { subst fmt. unfold mbind, M_bind.
    destruct (within_save_as_docx (join2 RESULT_FOLDER (stem ++ lit ".docx"))
                text_content summary_content sentiment_content s)
      as (saved & s' & new & -> & Htr & Htrue).
    destruct saved.
    - destruct (Htrue eq_refl) as [pre ->]. unfold mret, M_ret.
      cbn [fst snd]. split_and!.
      + intros name [= <-]. exists pre. right. by rewrite Htr.
      + done.
      + done.
    - unfold perform, mret, M_ret.
      destruct (oracle _ (flash _ _) (world s')) as [[[]|e] w2];
        cbn [fst snd trace]; split_and!; try done.
      intros e' _. rewrite Htr, <- app_assoc. by eexists _, _. }
  split_and!; [done| |done]. done.
Qed.

End Index.

Lemma docx_paragraphs_keep_text_witness :
  ∃ new,
    trace (Exporter.add_paragraphs obliging_export_world
             (lit "one" ++ [newline; newline] ++ lit "two") start).2
    = new
    ∧ omap Exporter.paragraph_text new = [lit "one"; []; lit "two"]
    ∧ join [newline] (omap Exporter.paragraph_text new)
      = lit "one" ++ [newline; newline] ++ lit "two".
Proof.
  destruct (docx_paragraphs_keep_text obliging_export_world
              (lit "one" ++ [newline; newline] ++ lit "two") start _ eq_refl)
    as (new & Htr & Hpar & _ & Hjoin).
  exists new. split; [exact Htr|]. split; [exact Hpar|].
  apply Hjoin. repeat constructor; intros H; discriminate H.
Defined.

Lemma unsupported_upload_is_not_analysed_witness :
  App.allowed_file ascii_lower (lit "Notes.TXT") App.ALLOWED_EXTENSIONS_PDF
  = false
  ∧ App.allowed_file ascii_lower (lit "Notes.TXT") App.ALLOWED_EXTENSIONS_IMAGES
    = false
  ∧ ∃ location,
      (App.index ascii_lower (λ name, name) (sample_app_world (lit "Notes.TXT"))
         None None start).1
      = Ok (App.Redirect location).
Proof.
  split; [reflexivity|]. split; [reflexivity|].
  destruct (unsupported_upload_is_not_analysed ascii_lower (λ name, name)
              (sample_app_world (lit "Notes.TXT")) None None start _ _ _ _
              (lit "Notes.TXT") eq_refl eq_refl eq_refl ltac:(discriminate)
              eq_refl eq_refl eq_refl)
    as (rest & _ & _ & _ & Hr).
  destruct (Hr _ eq_refl) as [location Hloc].
  exists location. rewrite <- Hloc. reflexivity.
Defined.

Lemma unopenable_pdf_is_analysed_witness :
  App.allowed_file ascii_lower (lit "book.pdf") App.ALLOWED_EXTENSIONS_PDF = true
  ∧ ∃ body,
      (App.process_upload ascii_lower (λ name, name)
         (app_world locked_pdf_world (lit "book.pdf")) (Some sample_pipeline)
         None (lit "book.pdf") (lit "uploads/book.pdf") start).1
      = Ok (App.Page body).
Proof.
  split; [reflexivity|].
  assert (Hrun :
            (App.process_upload ascii_lower (λ name, name)
               (app_world locked_pdf_world (lit "book.pdf"))
               (Some sample_pipeline) None (lit "book.pdf")
               (lit "uploads/book.pdf") start).1
            = Ok (App.Page (lit "<result>"))) by reflexivity.
  destruct (unopenable_pdf_is_analysed ascii_lower (λ name, name)
              (app_world locked_pdf_world (lit "book.pdf")) sample_pipeline
              None (lit "book.pdf") (lit "uploads/book.pdf") start RuntimeError
              () eq_refl eq_refl)
    as (rest & _ & _ & _ & Hr).
  destruct (Hr _ Hrun) as [body Hbody].
  exists body. rewrite Hrun. f_equal. exact Hbody.
Defined.

Lemma blank_extraction_is_not_analysed_witness :
  ∃ location,
    (App.process_upload ascii_lower (λ name, name)
       (app_world tesseract_down_world (lit "empty.pdf"))
       (Some sample_pipeline) None (lit "empty.pdf") (lit "uploads/empty.pdf")
       start).1
    = Ok (App.Redirect location).
Proof.
  destruct (blank_extraction_is_not_analysed ascii_lower (λ name, name)
              (app_world tesseract_down_world (lit "empty.pdf"))
              (Some sample_pipeline) None (lit "empty.pdf")
              (lit "uploads/empty.pdf") start [] _
              (or_introl (conj eq_refl eq_refl)) (Forall_nil_2 _))
    as (rest & _ & _ & Hr).
  destruct (Hr _ eq_refl) as [location Hloc].
  exists location. rewrite <- Hloc. reflexivity.
Defined.

Lemma offered_download_was_written_witness :
  ∃ pre,
    trace (App.export_result (λ name, name)
             (sample_app_world (lit "notes.png")) (Some (lit "pdf"))
             (lit "notes.png") (lit "scanned") (lit "Summarization failed.")
             (lit "Positive") start).2
    = pre
      ++ [Ev (App.export (Exporter.output (lit "results/notes.pdf") (lit "F")))].
Proof.
  destruct (proj1 (offered_download_was_written (λ name, name)
                     (sample_app_world (lit "notes.png")) (Some (lit "pdf"))
                     (lit "notes.png") (lit "scanned")
                     (lit "Summarization failed.") (lit "Positive") start)
              (lit "notes.pdf") eq_refl)
    as [pre [(_ & _ & H) | (H & _)]]; [|discriminate H].
  exists pre. exact H.
Defined.
